(** * Aegis Onboarding: the observer side of the onboarding workflow

    A shallow embedding of the TypeScript front end:
    - [types/index.ts]          the shared data shapes,
    - [store/onboardingStore.ts] the zustand store, its actions, what it
                                persists and the counts of its analytics,
    - [hooks/useWebSocket.ts]   the real-time connection hook,
    - [app/page.tsx]            the home page over the store: its message
                                effect and handlers; and the home page over
                                its own state cells,
    - [app/dashboard/page.tsx]  the client dashboard,
    - [utils/api.ts]            the requests and their failures,
    - [components/ClientForm.tsx], [components/StatusDashboard.tsx],
      [components/ProgressStep.tsx], [components/ApprovalModal.tsx].

    JavaScript strings are [string]s (one [ascii] per code unit), the
    numbers the code only copies or compares are [Z], an optional property
    [f?: T] is an [option T], and every handler is a function on the state
    it reads and writes, paired with the list of effects it issues. *)

From stdpp Require Import base option list strings gmap pretty.
From Stdlib Require Import ZArith Lia.

Open Scope string_scope.
Open Scope Z_scope.
Open Scope list_scope.

(** ** types/index.ts *)

Inductive ProjectType :=
  | WEB_DEVELOPMENT | MOBILE_APP | DESIGN | MARKETING | CONSULTING | OTHER.

Inductive ClientStatus := PENDING | IN_PROGRESS | COMPLETED | FAILED.

#[global] Instance ClientStatus_eq_dec : EqDecision ClientStatus.
Proof. solve_decision. Defined.

(** The values behind [any] and [Record<string, any>]. *)
#[warnings="-register-all"] Inductive JSON :=
  | JNull
  | JBool (b : bool)
  | JNum (n : Z)
  | JStr (s : string)
  | JArr (items : list JSON)
  | JObj (fields : list (string * JSON)).

Module ClientInput.
Record t := {
  name : string;
  email : string;
  company : option string;
  phone : option string;
  project_type : ProjectType;
  project_scope : string;
  budget_range : option string;
  timeline : option string;
  additional_notes : option string;
}.
End ClientInput.

Module Client.
(** [interface Client extends ClientInput] *)
Record t := {
  name : string;
  email : string;
  company : option string;
  phone : option string;
  project_type : ProjectType;
  project_scope : string;
  budget_range : option string;
  timeline : option string;
  additional_notes : option string;
  id : string;
  status : ClientStatus;
  created_at : string;
  updated_at : string;
  drive_folder_id : option string;
  contract_doc_id : option string;
  slack_channel_id : option string;
  github_repo_url : option string;
  notion_board_id : option string;
  stripe_customer_id : option string;
  invoice_id : option string;
}.
End Client.

Module PartialClient.
(** [Partial<Client>]: [None] is a key the object does not have. *)
Record t := {
  name : option string;
  email : option string;
  company : option (option string);
  phone : option (option string);
  project_type : option ProjectType;
  project_scope : option string;
  budget_range : option (option string);
  timeline : option (option string);
  additional_notes : option (option string);
  id : option string;
  status : option ClientStatus;
  created_at : option string;
  updated_at : option string;
  drive_folder_id : option (option string);
  contract_doc_id : option (option string);
  slack_channel_id : option (option string);
  github_repo_url : option (option string);
  notion_board_id : option (option string);
  stripe_customer_id : option (option string);
  invoice_id : option (option string);
}.

Definition empty : t :=
  {| name := None; email := None; company := None; phone := None;
     project_type := None; project_scope := None; budget_range := None;
     timeline := None; additional_notes := None; id := None;
     status := None; created_at := None; updated_at := None;
     drive_folder_id := None; contract_doc_id := None;
     slack_channel_id := None; github_repo_url := None;
     notion_board_id := None; stripe_customer_id := None;
     invoice_id := None |}.
End PartialClient.

(** [{ ...client, ...updates }] *)
Definition spread (client : Client.t) (updates : PartialClient.t) : Client.t :=
  {| Client.name := default (Client.name client) (PartialClient.name updates);
     Client.email := default (Client.email client) (PartialClient.email updates);
     Client.company := default (Client.company client) (PartialClient.company updates);
     Client.phone := default (Client.phone client) (PartialClient.phone updates);
     Client.project_type :=
       default (Client.project_type client) (PartialClient.project_type updates);
     Client.project_scope :=
       default (Client.project_scope client) (PartialClient.project_scope updates);
     Client.budget_range :=
       default (Client.budget_range client) (PartialClient.budget_range updates);
     Client.timeline := default (Client.timeline client) (PartialClient.timeline updates);
     Client.additional_notes :=
       default (Client.additional_notes client) (PartialClient.additional_notes updates);
     Client.id := default (Client.id client) (PartialClient.id updates);
     Client.status := default (Client.status client) (PartialClient.status updates);
     Client.created_at :=
       default (Client.created_at client) (PartialClient.created_at updates);
     Client.updated_at :=
       default (Client.updated_at client) (PartialClient.updated_at updates);
     Client.drive_folder_id :=
       default (Client.drive_folder_id client) (PartialClient.drive_folder_id updates);
     Client.contract_doc_id :=
       default (Client.contract_doc_id client) (PartialClient.contract_doc_id updates);
     Client.slack_channel_id :=
       default (Client.slack_channel_id client) (PartialClient.slack_channel_id updates);
     Client.github_repo_url :=
       default (Client.github_repo_url client) (PartialClient.github_repo_url updates);
     Client.notion_board_id :=
       default (Client.notion_board_id client) (PartialClient.notion_board_id updates);
     Client.stripe_customer_id :=
       default (Client.stripe_customer_id client)
               (PartialClient.stripe_customer_id updates);
     Client.invoice_id :=
       default (Client.invoice_id client) (PartialClient.invoice_id updates) |}.

Module OnboardingStep.
(** [status] is declared as the union of the four literals below; the
    message effect writes the string a [step_update] carries into it
    through [as any], so the field holds a string. *)
Record t := {
  id : string;
  name : string;
  description : string;
  status : string;
  started_at : option string;
  completed_at : option string;
  error_message : option string;
  metadata : option (gmap string JSON);
}.
End OnboardingStep.

Definition pending : string := "pending".
Definition in_progress : string := "in_progress".
Definition completed : string := "completed".
Definition failed : string := "failed".

Module OnboardingProgress.
Record t := {
  client_id : string;
  steps : list OnboardingStep.t;
  current_step : Z;
  overall_status : ClientStatus;
  started_at : option string;
  completed_at : option string;
  progress_percentage : Z;
}.
End OnboardingProgress.

(** [WebSocketMessage] and the interfaces extending it, flattened: the
    effect reads the fields of a variant after an unchecked cast chosen by
    [type], so a message carries the fields of every variant and only
    those of its own [type] are looked at. *)
Module Data.
(** The keys of [data : Record<string, any>] that the code reads.
    [metadata] is [None] when the key is absent or falsy, [current_step]
    is [None] when it is [undefined]; [message] is [None] when falsy. *)
Record t := {
  metadata : option (gmap string JSON);
  current_step : option Z;
  message : option string;
}.
End Data.

Module WebSocketMessage.
Record t := {
  type : string;
  client_id : string;
  data : Data.t;
  timestamp : string;
  (* StepUpdateMessage, ApprovalRequestMessage *)
  step_id : string;
  step_status : string;
  progress_percentage : Z;
  approval_data : JSON;
  (* OnboardingCompleteMessage: completion_data.completed_at *)
  completion_data_completed_at : option string;
}.
End WebSocketMessage.

(** ** store/onboardingStore.ts *)

Inductive View := landing | form | orchestration | complete | dashboard.

Module OnboardingState.
Record t := {
  currentClient : option Client.t;
  currentProgress : option OnboardingProgress.t;
  isOnboardingActive : bool;
  currentView : View;
  showOnboardingModal : bool;
  isLoading : bool;
  error : option string;
  isConnected : bool;
  clients : list Client.t;
}.
End OnboardingState.

Module Store.
Import OnboardingState.

Definition initialState : t :=
  {| currentClient := None; currentProgress := None;
     isOnboardingActive := false; currentView := landing;
     showOnboardingModal := false; isLoading := false; error := None;
     isConnected := false; clients := [] |}.

Definition setCurrentClient (client : option Client.t) (s : t) : t :=
  {| currentClient := client; currentProgress := currentProgress s;
     isOnboardingActive := isOnboardingActive s; currentView := currentView s;
     showOnboardingModal := showOnboardingModal s; isLoading := isLoading s;
     error := error s; isConnected := isConnected s; clients := clients s |}.

Definition setCurrentProgress (progress : option OnboardingProgress.t) (s : t) : t :=
  {| currentClient := currentClient s; currentProgress := progress;
     isOnboardingActive := isOnboardingActive s; currentView := currentView s;
     showOnboardingModal := showOnboardingModal s; isLoading := isLoading s;
     error := error s; isConnected := isConnected s; clients := clients s |}.

Definition setOnboardingActive (active : bool) (s : t) : t :=
  {| currentClient := currentClient s; currentProgress := currentProgress s;
     isOnboardingActive := active; currentView := currentView s;
     showOnboardingModal := showOnboardingModal s; isLoading := isLoading s;
     error := error s; isConnected := isConnected s; clients := clients s |}.

Definition setCurrentView (view : View) (s : t) : t :=
  {| currentClient := currentClient s; currentProgress := currentProgress s;
     isOnboardingActive := isOnboardingActive s; currentView := view;
     showOnboardingModal := showOnboardingModal s; isLoading := isLoading s;
     error := error s; isConnected := isConnected s; clients := clients s |}.

Definition setShowOnboardingModal (show : bool) (s : t) : t :=
  {| currentClient := currentClient s; currentProgress := currentProgress s;
     isOnboardingActive := isOnboardingActive s; currentView := currentView s;
     showOnboardingModal := show; isLoading := isLoading s;
     error := error s; isConnected := isConnected s; clients := clients s |}.

Definition setLoading (loading : bool) (s : t) : t :=
  {| currentClient := currentClient s; currentProgress := currentProgress s;
     isOnboardingActive := isOnboardingActive s; currentView := currentView s;
     showOnboardingModal := showOnboardingModal s; isLoading := loading;
     error := error s; isConnected := isConnected s; clients := clients s |}.

Definition setError (e : option string) (s : t) : t :=
  {| currentClient := currentClient s; currentProgress := currentProgress s;
     isOnboardingActive := isOnboardingActive s; currentView := currentView s;
     showOnboardingModal := showOnboardingModal s; isLoading := isLoading s;
     error := e; isConnected := isConnected s; clients := clients s |}.

Definition setConnected (connected : bool) (s : t) : t :=
  {| currentClient := currentClient s; currentProgress := currentProgress s;
     isOnboardingActive := isOnboardingActive s; currentView := currentView s;
     showOnboardingModal := showOnboardingModal s; isLoading := isLoading s;
     error := error s; isConnected := connected; clients := clients s |}.

Definition setClients (cs : list Client.t) (s : t) : t :=
  {| currentClient := currentClient s; currentProgress := currentProgress s;
     isOnboardingActive := isOnboardingActive s; currentView := currentView s;
     showOnboardingModal := showOnboardingModal s; isLoading := isLoading s;
     error := error s; isConnected := isConnected s; clients := cs |}.

(** [Array.prototype.findIndex]: the first index whose element passes,
    [None] for the -1 of the source. *)
Fixpoint findIndex {A} (p : A -> bool) (l : list A) : option nat :=
  match l with
  | [] => None
  | x :: l' => if p x then Some 0%nat else S <$> findIndex p l'
  end.

Definition same_id (a : string) (c : Client.t) : bool :=
  bool_decide (Client.id c = a).

(** The list [addClient] hands to [set]. An index returned by
    [findIndex] is within the array, so the assignment
    [updatedClients[existingIndex] = client] never extends it. *)
Definition addClient_list (client : Client.t) (cs : list Client.t) : list Client.t :=
  match findIndex (same_id (Client.id client)) cs with
  | Some existingIndex => <[existingIndex := client]> cs
  | None => client :: cs
  end.

Definition addClient (client : Client.t) (s : t) : t :=
  setClients (addClient_list client (clients s)) s.

Definition updateClient_list (clientId : string) (updates : PartialClient.t)
    (cs : list Client.t) : list Client.t :=
  map (fun client =>
         if bool_decide (Client.id client = clientId)
         then spread client updates else client) cs.

Definition updateClient (clientId : string) (updates : PartialClient.t) (s : t) : t :=
  let s1 := setClients (updateClient_list clientId updates (clients s)) s in
  match currentClient s1 with
  | Some cur =>
      if bool_decide (Client.id cur = clientId)
      then setCurrentClient (Some (spread cur updates)) s1
      else s1
  | None => s1
  end.

Definition reset (s : t) : t :=
  {| currentClient := None; currentProgress := None;
     isOnboardingActive := false; currentView := landing;
     showOnboardingModal := false; isLoading := false; error := None;
     isConnected := isConnected s; clients := clients s |}.
End Store.


(** ** Effects

    What a handler does besides changing the state it owns: console
    output (the constant first argument), requests to the engine
    ([utils/api.ts]), socket construction and closing, timers, and the
    callbacks of the form. *)

Inductive ApiRequest :=
  | startOnboarding (clientData : ClientInput.t)
  | getOnboardingStatus (clientId : string)
  | approveStep (clientId stepId : string) (approved : bool)
                (feedback : option string).

Inductive Effect :=
  | console_log (label : string)
  | console_warn (label : string)
  | console_error (label : string)
  | api_request (r : ApiRequest)
  | new_WebSocket (url : string)
  | socket_close (sock : nat) (code : option Z)
  | setTimeout (ms : Z)
  | call_onSubmit (data : ClientInput.t)
  | form_reset.

Definition is_api_request (e : Effect) : bool :=
  match e with api_request _ => true | _ => false end.

Definition is_new_WebSocket (e : Effect) : bool :=
  match e with new_WebSocket _ => true | _ => false end.

Definition is_setTimeout (e : Effect) : bool :=
  match e with setTimeout _ => true | _ => false end.

(** ** hooks/useWebSocket.ts *)

Inductive ReadyState := CONNECTING | OPEN | CLOSING | CLOSED.

#[global] Instance ReadyState_eq_dec : EqDecision ReadyState.
Proof. solve_decision. Defined.

(** [process.env.NEXT_PUBLIC_WS_URL || 'ws://localhost:8000'] *)
Definition WS_BASE_URL : string := "ws://localhost:8000".

(** A truthiness test on a [string | null] ref: a non-empty string. *)
Definition truthy (r : option string) : bool :=
  match r with
  | Some s => bool_decide (s ≠ "")
  | None => false
  end.

Module Socket.
(** A constructed [WebSocket]: the [clientId] its handlers closed over and
    the [readyState] the browser maintains. *)
Record t := { clientId : string; readyState : ReadyState }.
End Socket.

Module Hook.
(** The state of one [useWebSocket] instance: its two [useState] cells, its
    two refs, every socket it has constructed (a ref holds the index of
    one), and the timeouts not yet fired; each pending timeout runs the one
    callback [onclose] registers. *)
Record t := {
  isConnected : bool;
  lastMessage : option WebSocketMessage.t;
  socketRef : option nat;
  clientIdRef : option string;
  sockets : list Socket.t;
  timers : list Z;
}.
End Hook.

(** What arrives on a socket: text that [JSON.parse] turns into a message,
    or text on which it throws (with the clock read in the handler). *)
Inductive Frame :=
  | parsed (message : WebSocketMessage.t)
  | plain (text : string) (now : string).

Module useWebSocket.
Import Hook.

Definition initial : t :=
  {| isConnected := false; lastMessage := None; socketRef := None;
     clientIdRef := None; sockets := []; timers := [] |}.

Definition setIsConnected (b : bool) (h : t) : t :=
  {| isConnected := b; lastMessage := lastMessage h; socketRef := socketRef h;
     clientIdRef := clientIdRef h; sockets := sockets h; timers := timers h |}.

Definition setLastMessage (m : WebSocketMessage.t) (h : t) : t :=
  {| isConnected := isConnected h; lastMessage := Some m; socketRef := socketRef h;
     clientIdRef := clientIdRef h; sockets := sockets h; timers := timers h |}.

Definition setSocketRef (r : option nat) (h : t) : t :=
  {| isConnected := isConnected h; lastMessage := lastMessage h; socketRef := r;
     clientIdRef := clientIdRef h; sockets := sockets h; timers := timers h |}.

Definition setClientIdRef (r : option string) (h : t) : t :=
  {| isConnected := isConnected h; lastMessage := lastMessage h;
     socketRef := socketRef h; clientIdRef := r; sockets := sockets h;
     timers := timers h |}.

Definition setSockets (l : list Socket.t) (h : t) : t :=
  {| isConnected := isConnected h; lastMessage := lastMessage h;
     socketRef := socketRef h; clientIdRef := clientIdRef h; sockets := l;
     timers := timers h |}.

Definition setTimers (l : list Z) (h : t) : t :=
  {| isConnected := isConnected h; lastMessage := lastMessage h;
     socketRef := socketRef h; clientIdRef := clientIdRef h;
     sockets := sockets h; timers := l |}.

(** The browser's part of a state change of socket [k]. *)
Definition setReadyState (k : nat) (r : ReadyState) (h : t) : t :=
  setSockets
    (alter (fun s => {| Socket.clientId := Socket.clientId s;
                        Socket.readyState := r |}) k (sockets h)) h.

Definition readyStateOf (k : nat) (h : t) : option ReadyState :=
  Socket.readyState <$> sockets h !! k.

(** [socket.close(...)]: a socket that is connecting or open starts
    closing, one that is closing or closed stays as it is. *)
Definition closeSocket (k : nat) (code : option Z) (h : t) : t * list Effect :=
  match readyStateOf k h with
  | Some CONNECTING | Some OPEN => (setReadyState k CLOSING h, [socket_close k code])
  | _ => (h, [socket_close k code])
  end.

(** [connect(clientId)]; [constructed] tells whether [new WebSocket(wsUrl)]
    returned a socket or threw into the [catch]. *)
Definition connect (clientId : string) (constructed : bool) (h : t)
    : t * list Effect :=
  let '(h1, e1) :=
    match socketRef h with
    | Some k =>
        if bool_decide (readyStateOf k h = Some OPEN)
        then closeSocket k None h else (h, [])
    | None => (h, [])
    end in
  let h2 := setClientIdRef (Some clientId) h1 in
  let wsUrl := WS_BASE_URL +:+ "/ws/" +:+ clientId in
  if constructed then
    let k := length (sockets h2) in
    let h3 := setSockets (sockets h2 ++ [{| Socket.clientId := clientId;
                                             Socket.readyState := CONNECTING |}]) h2 in
    (setSocketRef (Some k) h3, e1 ++ [new_WebSocket wsUrl])
  else
    (setIsConnected false h2,
     e1 ++ [new_WebSocket wsUrl;
            console_error "Failed to create WebSocket connection:"]).

(** [socket.onopen] *)
Definition onopen (k : nat) (h : t) : t * list Effect :=
  match sockets h !! k with
  | Some _ =>
      (setIsConnected true (setReadyState k OPEN h),
       [console_log "WebSocket connected for client:"])
  | None => (h, [])
  end.

(** [socket.onmessage] *)
Definition onmessage (k : nat) (f : Frame) (h : t) : t * list Effect :=
  match sockets h !! k with
  | Some s =>
      match f with
      | parsed message =>
          (setLastMessage message h, [console_log "WebSocket message received:"])
      | plain text now =>
          (setLastMessage
             {| WebSocketMessage.type := "message";
                WebSocketMessage.client_id := Socket.clientId s;
                WebSocketMessage.data :=
                  {| Data.metadata := None; Data.current_step := None;
                     Data.message := if bool_decide (text = "") then None
                                     else Some text |};
                WebSocketMessage.timestamp := now;
                WebSocketMessage.step_id := "";
                WebSocketMessage.step_status := "";
                WebSocketMessage.progress_percentage := 0;
                WebSocketMessage.approval_data := JNull;
                WebSocketMessage.completion_data_completed_at := None |} h,
           [console_error "Error parsing WebSocket message:"])
      end
  | None => (h, [])
  end.

(** [socket.onclose]: the reconnection is scheduled for 3 seconds later
    when the close code is not 1000 and [clientIdRef.current] is truthy. *)
Definition onclose (k : nat) (code : Z) (h : t) : t * list Effect :=
  match sockets h !! k with
  | Some _ =>
      let h1 := setIsConnected false (setReadyState k CLOSED h) in
      if bool_decide (code ≠ 1000) && truthy (clientIdRef h1)
      then (setTimers (timers h1 ++ [3000]) h1,
            [console_log "WebSocket disconnected:"; setTimeout 3000])
      else (h1, [console_log "WebSocket disconnected:"])
  | None => (h, [])
  end.

(** [socket.onerror] *)
Definition onerror (k : nat) (h : t) : t * list Effect :=
  match sockets h !! k with
  | Some _ => (setIsConnected false h, [console_error "WebSocket error:"])
  | None => (h, [])
  end.

(** The callback [onclose] hands to [setTimeout], run for pending timeout
    number [i]. *)
Definition timeout (i : nat) (constructed : bool) (h : t) : t * list Effect :=
  match timers h !! i with
  | Some _ =>
      let h1 := setTimers (delete i (timers h)) h in
      match clientIdRef h1 with
      | Some clientId =>
          if truthy (Some clientId) then connect clientId constructed h1
          else (h1, [])
      | None => (h1, [])
      end
  | None => (h, [])
  end.

(** [disconnect()] *)
Definition disconnect (h : t) : t * list Effect :=
  let '(h1, e1) :=
    match socketRef h with
    | Some k =>
        let '(h', e') := closeSocket k (Some 1000) (setClientIdRef None h) in
        (setSocketRef None h', e')
    | None => (h, [])
    end in
  (setIsConnected false h1, e1).

(** [sendMessage(message)] *)
Definition sendMessage (h : t) : list Effect :=
  match socketRef h with
  | Some k =>
      if bool_decide (readyStateOf k h = Some OPEN) then []
      else [console_warn "WebSocket is not connected. Cannot send message:"]
  | None => [console_warn "WebSocket is not connected. Cannot send message:"]
  end.

(** Everything that can happen to the hook: the calls of its owner and the
    events of the browser. *)
Inductive Event :=
  | call_connect (clientId : string) (constructed : bool)
  | call_disconnect
  | socket_onopen (k : nat)
  | socket_onmessage (k : nat) (f : Frame)
  | socket_onclose (k : nat) (code : Z)
  | socket_onerror (k : nat)
  | timeout_fires (i : nat) (constructed : bool).

Definition step (ev : Event) (h : t) : t * list Effect :=
  match ev with
  | call_connect clientId constructed => connect clientId constructed h
  | call_disconnect => disconnect h
  | socket_onopen k => onopen k h
  | socket_onmessage k f => onmessage k f h
  | socket_onclose k code => onclose k code h
  | socket_onerror k => onerror k h
  | timeout_fires i constructed => timeout i constructed h
  end.

Fixpoint run (evs : list Event) (h : t) : t * list Effect :=
  match evs with
  | [] => (h, [])
  | ev :: evs' =>
      let '(h1, e1) := step ev h in
      let '(h2, e2) := run evs' h1 in
      (h2, e1 ++ e2)
  end.

Definition is_call_connect (ev : Event) : bool :=
  match ev with call_connect _ _ => true | _ => false end.

(** [useWebSocketHandlers]: which of the four optional callbacks the
    effect invokes for [lastMessage], and what it logs. *)
Inductive Handler := onStepUpdate | onApprovalRequest | onOnboardingComplete | onError.

Definition useWebSocketHandlers (lastMessage : option WebSocketMessage.t)
    : list Handler * list Effect :=
  match lastMessage with
  | None => ([], [])
  | Some m =>
      let ty := WebSocketMessage.type m in
      if bool_decide (ty = "step_update") then ([onStepUpdate], [])
      else if bool_decide (ty = "approval_request") then ([onApprovalRequest], [])
      else if bool_decide (ty = "onboarding_complete") then ([onOnboardingComplete], [])
      else if bool_decide (ty = "error") then ([onError], [])
      else ([], [console_log "Unhandled WebSocket message type:"])
  end.
End useWebSocket.


(** ** app/page.tsx: [HomePage] over the store *)

Module Observer.
(** What a mounted [HomePage] holds: the store and its [useWebSocket]. *)
Record t := { store : OnboardingState.t; hook : Hook.t }.
End Observer.

Module Response.
(** [ClientCreatedResponse], the fields [handleStartOnboarding] reads. *)
Record t := {
  client_id : string;
  client : Client.t;
  progress : OnboardingProgress.t;
}.
End Response.

Module HomePage.

(** [{ ...step, status: stepUpdate.step_status as any,
       ...(stepUpdate.data.metadata && { metadata: stepUpdate.data.metadata }) }] *)
Definition step_updated (m : WebSocketMessage.t) (step : OnboardingStep.t)
    : OnboardingStep.t :=
  {| OnboardingStep.id := OnboardingStep.id step;
     OnboardingStep.name := OnboardingStep.name step;
     OnboardingStep.description := OnboardingStep.description step;
     OnboardingStep.status := WebSocketMessage.step_status m;
     OnboardingStep.started_at := OnboardingStep.started_at step;
     OnboardingStep.completed_at := OnboardingStep.completed_at step;
     OnboardingStep.error_message := OnboardingStep.error_message step;
     OnboardingStep.metadata :=
       match Data.metadata (WebSocketMessage.data m) with
       | Some md => Some md
       | None => OnboardingStep.metadata step
       end |}.

(** [{ ...step, status: 'in_progress' as any,
       metadata: { ...step.metadata, approval_data: approvalRequest.approval_data } }] *)
Definition step_awaiting (m : WebSocketMessage.t) (step : OnboardingStep.t)
    : OnboardingStep.t :=
  {| OnboardingStep.id := OnboardingStep.id step;
     OnboardingStep.name := OnboardingStep.name step;
     OnboardingStep.description := OnboardingStep.description step;
     OnboardingStep.status := in_progress;
     OnboardingStep.started_at := OnboardingStep.started_at step;
     OnboardingStep.completed_at := OnboardingStep.completed_at step;
     OnboardingStep.error_message := OnboardingStep.error_message step;
     OnboardingStep.metadata :=
       Some (<["approval_data" := WebSocketMessage.approval_data m]>
               (default ∅ (OnboardingStep.metadata step))) |}.

Definition targets (m : WebSocketMessage.t) (step : OnboardingStep.t) : bool :=
  bool_decide (OnboardingStep.id step = WebSocketMessage.step_id m).

(** The [step_update] case: [updatedProgress]. *)
Definition on_step_update (m : WebSocketMessage.t) (p : OnboardingProgress.t)
    : OnboardingProgress.t :=
  let updatedSteps :=
    map (fun step => if targets m step then step_updated m step else step)
        (OnboardingProgress.steps p) in
  {| OnboardingProgress.client_id := OnboardingProgress.client_id p;
     OnboardingProgress.steps := updatedSteps;
     OnboardingProgress.current_step :=
       default (OnboardingProgress.current_step p)
               (Data.current_step (WebSocketMessage.data m));
     OnboardingProgress.overall_status := OnboardingProgress.overall_status p;
     OnboardingProgress.started_at := OnboardingProgress.started_at p;
     OnboardingProgress.completed_at := OnboardingProgress.completed_at p;
     OnboardingProgress.progress_percentage :=
       WebSocketMessage.progress_percentage m |}.

(** The [approval_request] case: [{ ...currentProgress, steps: updatedSteps }]. *)
Definition on_approval_request (m : WebSocketMessage.t) (p : OnboardingProgress.t)
    : OnboardingProgress.t :=
  let updatedSteps :=
    map (fun step => if targets m step then step_awaiting m step else step)
        (OnboardingProgress.steps p) in
  {| OnboardingProgress.client_id := OnboardingProgress.client_id p;
     OnboardingProgress.steps := updatedSteps;
     OnboardingProgress.current_step := OnboardingProgress.current_step p;
     OnboardingProgress.overall_status := OnboardingProgress.overall_status p;
     OnboardingProgress.started_at := OnboardingProgress.started_at p;
     OnboardingProgress.completed_at := OnboardingProgress.completed_at p;
     OnboardingProgress.progress_percentage :=
       OnboardingProgress.progress_percentage p |}.

(** The [onboarding_complete] case: [completedProgress]. *)
Definition on_onboarding_complete (m : WebSocketMessage.t) (p : OnboardingProgress.t)
    : OnboardingProgress.t :=
  {| OnboardingProgress.client_id := OnboardingProgress.client_id p;
     OnboardingProgress.steps := OnboardingProgress.steps p;
     OnboardingProgress.current_step := OnboardingProgress.current_step p;
     OnboardingProgress.overall_status := COMPLETED;
     OnboardingProgress.started_at := OnboardingProgress.started_at p;
     OnboardingProgress.completed_at :=
       WebSocketMessage.completion_data_completed_at m;
     OnboardingProgress.progress_percentage := 100 |}.

(** [{ status: ClientStatus.COMPLETED, updated_at: new Date().toISOString() }] *)
Definition completion (now : string) : PartialClient.t :=
  {| PartialClient.name := None; PartialClient.email := None;
     PartialClient.company := None; PartialClient.phone := None;
     PartialClient.project_type := None; PartialClient.project_scope := None;
     PartialClient.budget_range := None; PartialClient.timeline := None;
     PartialClient.additional_notes := None; PartialClient.id := None;
     PartialClient.status := Some COMPLETED;
     PartialClient.created_at := None;
     PartialClient.updated_at := Some now;
     PartialClient.drive_folder_id := None;
     PartialClient.contract_doc_id := None;
     PartialClient.slack_channel_id := None;
     PartialClient.github_repo_url := None;
     PartialClient.notion_board_id := None;
     PartialClient.stripe_customer_id := None;
     PartialClient.invoice_id := None |}.

Definition on_progress (f : OnboardingProgress.t -> OnboardingProgress.t)
    (s : OnboardingState.t) : OnboardingState.t :=
  match OnboardingState.currentProgress s with
  | Some p => Store.setCurrentProgress (Some (f p)) s
  | None => s
  end.

(** The effect on [lastMessage]. It returns at once unless there is a
    message and a current client with a truthy id; [now1] and [now2] are
    the two readings of the clock in the [onboarding_complete] case. The
    [switch] has no [default]. *)
Definition messageEffect (now1 now2 : string)
    (lastMessage : option WebSocketMessage.t) (s : OnboardingState.t)
    : OnboardingState.t * list Effect :=
  match lastMessage, OnboardingState.currentClient s with
  | Some m, Some currentClient =>
      if bool_decide (Client.id currentClient = "") then (s, [])
      else
        let ty := WebSocketMessage.type m in
        let s' :=
          if bool_decide (ty = "step_update") then
            on_progress (on_step_update m) s
          else if bool_decide (ty = "approval_request") then
            on_progress (on_approval_request m) s
          else if bool_decide (ty = "onboarding_complete") then
            let s1 := on_progress (on_onboarding_complete m) s in
            let updatedClient := spread currentClient (completion now1) in
            let s2 := Store.setCurrentClient (Some updatedClient) s1 in
            let s3 := Store.updateClient (Client.id currentClient)
                                         (completion now2) s2 in
            Store.setCurrentView complete s3
          else if bool_decide (ty = "error") then
            Store.setError
              (Some (default "An error occurred during onboarding"
                             (Data.message (WebSocketMessage.data m)))) s
          else s in
        (s', [console_log "Received WebSocket message:"])
  | _, _ => (s, [])
  end.

(** A delivery: the message that became [lastMessage] and the clock. *)
Record Delivery := {
  message : WebSocketMessage.t;
  clock1 : string;
  clock2 : string;
}.

Definition deliver (d : Delivery) (s : OnboardingState.t) : OnboardingState.t :=
  fst (messageEffect (clock1 d) (clock2 d) (Some (message d)) s).

(** The observer's store after a sequence of deliveries. *)
Definition process (ds : list Delivery) (s : OnboardingState.t) : OnboardingState.t :=
  foldl (fun acc d => deliver d acc) s ds.

(** An event of the connection reaches the hook only: [useWebSocket] has
    no access to the store, and the page reads the store's own fields. *)
Definition hook_event (ev : useWebSocket.Event) (o : Observer.t)
    : Observer.t * list Effect :=
  let '(h, e) := useWebSocket.step ev (Observer.hook o) in
  ({| Observer.store := Observer.store o; Observer.hook := h |}, e).

(** [handleReset] *)
Definition handleReset (o : Observer.t) : Observer.t * list Effect :=
  let s := Store.reset (Observer.store o) in
  let '(h, e) := useWebSocket.disconnect (Observer.hook o) in
  ({| Observer.store := s; Observer.hook := h |}, e).

(** [handleStartOnboarding], up to its [await] ... *)
Definition handleStartOnboarding (clientData : ClientInput.t) (o : Observer.t)
    : Observer.t * list Effect :=
  ({| Observer.store := Store.setError None (Store.setLoading true (Observer.store o));
      Observer.hook := Observer.hook o |},
   [api_request (startOnboarding clientData)]).

(** ... when the request resolves ... *)
Definition handleStartOnboarding_resolved (response : Response.t)
    (constructed : bool) (o : Observer.t) : Observer.t * list Effect :=
  let s := Observer.store o in
  let s := Store.setCurrentClient (Some (Response.client response)) s in
  let s := Store.setCurrentProgress (Some (Response.progress response)) s in
  let s := Store.setOnboardingActive true s in
  let s := Store.setCurrentView orchestration s in
  let s := Store.setShowOnboardingModal false s in
  let s := Store.addClient (Response.client response) s in
  let '(h, e) := useWebSocket.connect (Response.client_id response) constructed
                                      (Observer.hook o) in
  ({| Observer.store := Store.setLoading false s; Observer.hook := h |}, e).

(** ... and when it rejects with [errorMessage = handleApiError(err)]. *)
Definition handleStartOnboarding_rejected (errorMessage : string) (o : Observer.t)
    : Observer.t * list Effect :=
  ({| Observer.store :=
        Store.setLoading false (Store.setError (Some errorMessage) (Observer.store o));
      Observer.hook := Observer.hook o |},
   [console_error "Failed to start onboarding:"]).

(** [handleApproval], up to its [await]. *)
Definition handleApproval (stepId : string) (approved : bool)
    (feedback : option string) (o : Observer.t) : list Effect :=
  match OnboardingState.currentClient (Observer.store o) with
  | Some currentClient =>
      if bool_decide (Client.id currentClient = "") then []
      else [api_request (approveStep (Client.id currentClient) stepId approved feedback)]
  | None => []
  end.

(** [handleRetry], up to its [await]. *)
Definition handleRetry (o : Observer.t) : Observer.t * list Effect :=
  match OnboardingState.currentClient (Observer.store o) with
  | Some currentClient =>
      if bool_decide (Client.id currentClient = "") then (o, [])
      else ({| Observer.store := Store.setError None (Observer.store o);
               Observer.hook := Observer.hook o |},
            [api_request (getOnboardingStatus (Client.id currentClient))])
  | None => (o, [])
  end.
End HomePage.

(** ** components/StatusDashboard.tsx *)

Module StatusDashboard.

Definition completedSteps (progress : OnboardingProgress.t) : nat :=
  length (filter (fun step => OnboardingStep.status step = completed)
                 (OnboardingProgress.steps progress)).

Definition totalSteps (progress : OnboardingProgress.t) : nat :=
  length (OnboardingProgress.steps progress).

(** [step.id === 'human_approval' && step.status === 'in_progress'] *)
Definition approvalButton (step : OnboardingStep.t) : bool :=
  bool_decide (OnboardingStep.id step = "human_approval")
  && bool_decide (OnboardingStep.status step = in_progress).

(** The steps under which the dashboard renders "Review & Approve"; with
    no progress it renders the waiting card and no step at all. *)
Definition approvalButtons (progress : option OnboardingProgress.t)
    : list OnboardingStep.t :=
  match progress with
  | Some p => filter (fun step => approvalButton step = true)
                     (OnboardingProgress.steps p)
  | None => []
  end.
End StatusDashboard.

(** ** components/ClientForm.tsx *)

Module ClientForm.
Section Schema.
(** zod's [.email()] test, which is not part of this repository. *)
Variable is_email : string -> bool.

Definition len (s : string) : Z := Z.of_nat (String.length s).

Definition check (ok : bool) (message : string) : list string :=
  if ok then [] else [message].

(** [clientFormSchema]: the issues zod reports, in field order. The
    optional free-text fields and the enum accept every value of their
    type. *)
Definition clientFormSchema (data : ClientInput.t) : list string :=
  check (2 <=? len (ClientInput.name data)) "Name must be at least 2 characters"
  ++ check (len (ClientInput.name data) <=? 100) "Name must be less than 100 characters"
  ++ check (is_email (ClientInput.email data)) "Please enter a valid email address"
  ++ check (10 <=? len (ClientInput.project_scope data))
           "Project scope must be at least 10 characters"
  ++ check (len (ClientInput.project_scope data) <=? 1000)
           "Project scope must be less than 1000 characters"
  ++ match ClientInput.additional_notes data with
     | Some notes => check (len notes <=? 500)
                           "Additional notes must be less than 500 characters"
     | None => []
     end.

(** [onFormSubmit] *)
Definition onFormSubmit (isLoading : bool) (data : ClientInput.t) : list Effect :=
  call_onSubmit data :: (if isLoading then [] else [form_reset]).

(** [handleSubmit(onFormSubmit)] with the zod resolver: the callback runs
    only when the resolver reports no issue; otherwise the issues become
    the form's [errors]. *)
Definition handleSubmit (isLoading : bool) (data : ClientInput.t)
    : list string * list Effect :=
  match clientFormSchema data with
  | [] => ([], onFormSubmit isLoading data)
  | errors => (errors, [])
  end.

Definition is_call_onSubmit (e : Effect) : bool :=
  match e with call_onSubmit _ => true | _ => false end.

(** The field constraints of an intake, as the specification lists them. *)
Definition satisfies_constraints (data : ClientInput.t) : Prop :=
  2 <= len (ClientInput.name data) <= 100
  /\ is_email (ClientInput.email data) = true
  /\ 10 <= len (ClientInput.project_scope data) <= 1000
  /\ (forall notes, ClientInput.additional_notes data = Some notes ->
                    len notes <= 500).
End Schema.
End ClientForm.

(** ** Vocabulary of the specification *)

Module Spec.

(** The order of step statuses: [pending] may become anything,
    [in_progress] may become [completed] or [failed], and a status may
    stay what it is. *)
Definition advances (a b : string) : bool :=
  bool_decide (a = b)
  || bool_decide (a = pending)
  || (bool_decide (a = in_progress)
      && (bool_decide (b = completed) || bool_decide (b = failed))).

(** The status a delivery writes into the steps it targets, if any. *)
Definition written_status (m : WebSocketMessage.t) : option string :=
  if bool_decide (WebSocketMessage.type m = "step_update")
  then Some (WebSocketMessage.step_status m)
  else if bool_decide (WebSocketMessage.type m = "approval_request")
  then Some in_progress
  else None.

(** A delivery respects the order in a store when the status it writes is
    one that every step it targets may advance to. *)
Definition respects_order (d : HomePage.Delivery) (s : OnboardingState.t) : bool :=
  match OnboardingState.currentProgress s, written_status (HomePage.message d) with
  | Some p, Some b =>
      forallb (fun step => negb (HomePage.targets (HomePage.message d) step)
                           || advances (OnboardingStep.status step) b)
              (OnboardingProgress.steps p)
  | _, _ => true
  end.

(** Every delivery of a sequence respects the order in the store it is
    processed in. *)
Fixpoint ordered (ds : list HomePage.Delivery) (s : OnboardingState.t) : bool :=
  match ds with
  | [] => true
  | d :: ds' => respects_order d s && ordered ds' (HomePage.deliver d s)
  end.

(** The status of step number [i] of the held snapshot. *)
Definition status_at (i : nat) (s : OnboardingState.t) : option string :=
  match OnboardingState.currentProgress s with
  | Some p => OnboardingStep.status <$> OnboardingProgress.steps p !! i
  | None => None
  end.

(** [round(100 * completed / total)] with [Math.round]'s rounding, half
    up, for [total > 0]. *)
Definition round_percentage (done total : nat) : Z :=
  (200 * Z.of_nat done + Z.of_nat total) / (2 * Z.of_nat total).

(** The percentage the specification derives from the steps. *)
Definition derived_percentage (p : OnboardingProgress.t) : Z :=
  round_percentage (StatusDashboard.completedSteps p) (StatusDashboard.totalSteps p).

(** The percentage a delivery leaves in a snapshot that held [held]. *)
Definition carried_percentage (held : Z) (d : HomePage.Delivery) : Z :=
  let m := HomePage.message d in
  if bool_decide (WebSocketMessage.type m = "step_update")
  then WebSocketMessage.progress_percentage m
  else if bool_decide (WebSocketMessage.type m = "onboarding_complete")
  then 100
  else held.

Definition in_range (d : HomePage.Delivery) : Prop :=
  WebSocketMessage.type (HomePage.message d) = "step_update" ->
  0 <= WebSocketMessage.progress_percentage (HomePage.message d) <= 100.

(** What a processed message makes of the held snapshot. *)
Definition applied (m : WebSocketMessage.t) (p : OnboardingProgress.t)
    : OnboardingProgress.t :=
  if bool_decide (WebSocketMessage.type m = "step_update")
  then HomePage.on_step_update m p
  else if bool_decide (WebSocketMessage.type m = "approval_request")
  then HomePage.on_approval_request m p
  else if bool_decide (WebSocketMessage.type m = "onboarding_complete")
  then HomePage.on_onboarding_complete m p
  else p.

(** The four event types of the notification protocol. *)
Definition known_type (ty : string) : Prop :=
  ty = "step_update" \/ ty = "approval_request"
  \/ ty = "onboarding_complete" \/ ty = "error".

(** The two refs of the hook agree: without a socket in [socketRef] there
    is no client to reconnect for. [connect] and [disconnect] keep it so
    as long as [new WebSocket] does not throw. *)
Definition refs_agree (h : Hook.t) : bool :=
  match Hook.socketRef h with
  | Some _ => true
  | None => negb (truthy (Hook.clientIdRef h))
  end.

(** The event is not one in which [new WebSocket] throws. *)
Definition constructs (ev : useWebSocket.Event) : bool :=
  match ev with
  | useWebSocket.call_connect _ constructed => constructed
  | useWebSocket.timeout_fires _ constructed => constructed
  | _ => true
  end.

(** The delays of the timers a run of the hook has set, in order. *)
Definition scheduled_delays (es : list Effect) : list Z :=
  omap (fun e => match e with setTimeout ms => Some ms | _ => None end) es.

(** A backoff: each reconnection waits longer than the one before it. *)
Fixpoint backs_off (delays : list Z) : bool :=
  match delays with
  | a :: rest =>
      match rest with
      | b :: _ => (a <? b) && backs_off rest
      | [] => true
      end
  | [] => true
  end.

(** Neither a socket construction nor a timer. *)
Definition quiet (e : Effect) : Prop :=
  is_new_WebSocket e = false /\ is_setTimeout e = false.

(** The guard of the message effect: a current client with a truthy id. *)
Definition observing (s : OnboardingState.t) : bool :=
  match OnboardingState.currentClient s with
  | Some c => negb (bool_decide (Client.id c = ""))
  | None => false
  end.
End Spec.


(** ** JavaScript truthiness of the values behind [any] *)

Definition JSON_truthy (v : JSON) : bool :=
  match v with
  | JNull => false
  | JBool b => b
  | JNum n => negb (n =? 0)
  | JStr s => negb (bool_decide (s = ""))
  | JArr _ => true
  | JObj _ => true
  end.

(** ** components/ProgressStep.tsx *)

Module ProgressStep.

Inductive Icon :=
  | icon_Check
  | icon_Loader2
  | icon_AlertCircle
  | icon_Clock
  | icon_number (n : nat).

Definition getStepIcon (step : OnboardingStep.t) (isActive isCompleted : bool)
    (index : nat) : Icon :=
  if isCompleted then icon_Check
  else if isActive && bool_decide (OnboardingStep.status step = in_progress)
  then icon_Loader2
  else if bool_decide (OnboardingStep.status step = failed) then icon_AlertCircle
  else if isActive then icon_Clock
  else icon_number (index + 1).

Definition getStepColor (step : OnboardingStep.t) (isActive isCompleted : bool)
    : string :=
  if bool_decide (OnboardingStep.status step = failed) then "bg-red-500"
  else if isCompleted then "bg-green-500"
  else if isActive then "bg-primary"
  else "bg-gray-300".

Definition getStepTextColor (step : OnboardingStep.t) (isActive isCompleted : bool)
    : string :=
  if bool_decide (OnboardingStep.status step = failed) then "text-red-600"
  else if isCompleted then "text-green-600"
  else if isActive then "text-primary"
  else "text-gray-500".

(** The status badges under the description: four independent
    conditionals, in the order of the source. *)
Definition statusBadges (step : OnboardingStep.t) : list string :=
  (if bool_decide (OnboardingStep.status step = pending) then ["Waiting"] else [])
  ++ (if bool_decide (OnboardingStep.status step = in_progress)
      then ["Processing..."] else [])
  ++ (if bool_decide (OnboardingStep.status step = completed)
      then ["Completed"] else [])
  ++ (if bool_decide (OnboardingStep.status step = failed) then ["Failed"] else []).

(** [step.error_message && ...] *)
Definition shownError (step : OnboardingStep.t) : option string :=
  match OnboardingStep.error_message step with
  | Some e => if bool_decide (e = "") then None else Some e
  | None => None
  end.

(** The links of the metadata box, label and target, in the order of the
    source; a link is there when its key holds a truthy value. *)
Definition metadataLinks (md : gmap string JSON) : list (string * JSON) :=
  omap (fun '(label, key) =>
          match md !! key with
          | Some v => if JSON_truthy v then Some (label, v) else None
          | None => None
          end)
       [("Drive Folder:", "folder_url"); ("Document:", "document_url");
        ("Repository:", "repository_url"); ("Project Board:", "board_url");
        ("Communication:", "invite_url")].

(** [step.metadata && Object.keys(step.metadata).length > 0 && isCompleted]:
    the links shown, [None] when the box is not rendered. *)
Definition metadataBox (step : OnboardingStep.t) (isCompleted : bool)
    : option (list (string * JSON)) :=
  match OnboardingStep.metadata step with
  | Some md =>
      if negb (bool_decide (md = ∅)) && isCompleted
      then Some (metadataLinks md) else None
  | None => None
  end.
End ProgressStep.

(** ** components/StatusDashboard.tsx, the rest *)

Module ApprovalModalState.
(** The [approvalModal] state cell of the dashboard. *)
Record t := {
  isOpen : bool;
  stepId : string;
  stepName : string;
  approvalData : JSON;
}.
End ApprovalModalState.

Module DashboardView.

Definition getStatusText (progress : OnboardingProgress.t) : string :=
  match OnboardingProgress.overall_status progress with
  | COMPLETED => "Onboarding Complete!"
  | FAILED => "Onboarding Failed"
  | IN_PROGRESS => "Onboarding in Progress..."
  | PENDING => "Onboarding Pending"
  end.

Definition getStatusColor (progress : OnboardingProgress.t) : string :=
  match OnboardingProgress.overall_status progress with
  | COMPLETED => "text-green-600"
  | FAILED => "text-red-600"
  | IN_PROGRESS => "text-blue-600"
  | PENDING => "text-gray-600"
  end.

(** The colour of the progress bar. *)
Definition barColor (progress : OnboardingProgress.t) : string :=
  if bool_decide (OnboardingProgress.overall_status progress = COMPLETED)
  then "bg-green-500"
  else if bool_decide (OnboardingProgress.overall_status progress = FAILED)
  then "bg-red-500"
  else "bg-primary".

(** The props the step list hands to [ProgressStep]:
    [isActive = index === progress.current_step],
    [isCompleted = step.status === 'completed']. *)
Definition isActive (progress : OnboardingProgress.t) (index : nat) : bool :=
  bool_decide (Z.of_nat index = OnboardingProgress.current_step progress).

Definition isCompleted (step : OnboardingStep.t) : bool :=
  bool_decide (OnboardingStep.status step = completed).

Definition stepIcon (progress : OnboardingProgress.t) (index : nat)
    (step : OnboardingStep.t) : ProgressStep.Icon :=
  ProgressStep.getStepIcon step (isActive progress index) (isCompleted step) index.

Definition stepColor (progress : OnboardingProgress.t) (index : nat)
    (step : OnboardingStep.t) : string :=
  ProgressStep.getStepColor step (isActive progress index) (isCompleted step).

(** [step.metadata?.approval_data || {}] *)
Definition approvalDataOf (step : OnboardingStep.t) : JSON :=
  match OnboardingStep.metadata step with
  | Some md =>
      match md !! "approval_data" with
      | Some v => if JSON_truthy v then v else JObj []
      | None => JObj []
      end
  | None => JObj []
  end.

Definition initialModal : ApprovalModalState.t :=
  {| ApprovalModalState.isOpen := false; ApprovalModalState.stepId := "";
     ApprovalModalState.stepName := ""; ApprovalModalState.approvalData := JObj [] |}.

Definition handleApprovalRequest (stepId stepName : string) (approvalData : JSON)
    : ApprovalModalState.t :=
  {| ApprovalModalState.isOpen := true; ApprovalModalState.stepId := stepId;
     ApprovalModalState.stepName := stepName;
     ApprovalModalState.approvalData := approvalData |}.

(** [prev => ({ ...prev, isOpen: false })] *)
Definition closeApprovalModal (m : ApprovalModalState.t) : ApprovalModalState.t :=
  {| ApprovalModalState.isOpen := false;
     ApprovalModalState.stepId := ApprovalModalState.stepId m;
     ApprovalModalState.stepName := ApprovalModalState.stepName m;
     ApprovalModalState.approvalData := ApprovalModalState.approvalData m |}.

(** [handleApprovalResponse]: [onApprove] is the page's [handleApproval],
    which catches its own failures, so the modal closes after it. *)
Definition handleApprovalResponse (approved : bool) (feedback : option string)
    (o : Observer.t) (m : ApprovalModalState.t)
    : ApprovalModalState.t * list Effect :=
  (closeApprovalModal m,
   HomePage.handleApproval (ApprovalModalState.stepId m) approved feedback o).

(** The dashboard with its modal ([components/ApprovalModal.tsx] keeps the
    feedback text and the submitting flag). *)
Record Ui := {
  approvalModal : ApprovalModalState.t;
  feedback : string;
  isSubmitting : bool;
}.

Definition initialUi : Ui :=
  {| approvalModal := initialModal; feedback := ""; isSubmitting := false |}.

(** What the user can do: press "Review & Approve" under step [index],
    type into the feedback box, press "Approve & Continue" or "Reject",
    close the modal. *)
Inductive UiEvent :=
  | click_review (index : nat)
  | type_feedback (text : string)
  | click_decision (approved : bool)
  | click_close.

(** One user action on the dashboard rendered for observer [o]. A control
    that is not rendered (no button under the step, modal closed) or is
    disabled cannot be used. [handleApprove] of the modal awaits
    [onApprove], then clears the feedback, closes, and drops the
    submitting flag; the page's [handleApproval] always settles. *)
Definition ui_step (o : Observer.t) (ev : UiEvent) (u : Ui) : Ui * list Effect :=
  match ev with
  | click_review index =>
      match OnboardingState.currentProgress (Observer.store o) with
      | Some p =>
          match OnboardingProgress.steps p !! index with
          | Some step =>
              if StatusDashboard.approvalButton step
              then ({| approvalModal :=
                         handleApprovalRequest (OnboardingStep.id step)
                                               (OnboardingStep.name step)
                                               (approvalDataOf step);
                       feedback := feedback u; isSubmitting := isSubmitting u |}, [])
              else (u, [])
          | None => (u, [])
          end
      | None => (u, [])
      end
  | type_feedback text =>
      if ApprovalModalState.isOpen (approvalModal u) && negb (isSubmitting u)
      then ({| approvalModal := approvalModal u; feedback := text;
               isSubmitting := isSubmitting u |}, [])
      else (u, [])
  | click_decision approved =>
      if ApprovalModalState.isOpen (approvalModal u) && negb (isSubmitting u)
      then
        let '(m, e) := handleApprovalResponse approved (Some (feedback u)) o
                                              (approvalModal u) in
        ({| approvalModal := closeApprovalModal m; feedback := "";
            isSubmitting := false |}, e)
      else (u, [])
  | click_close =>
      if ApprovalModalState.isOpen (approvalModal u)
      then ({| approvalModal := closeApprovalModal (approvalModal u);
               feedback := feedback u; isSubmitting := isSubmitting u |}, [])
      else (u, [])
  end.

(** A session at the dashboard: each action with the observer as it is
    when the action happens. *)
Fixpoint ui_run (evs : list (Observer.t * UiEvent)) (u : Ui) : Ui * list Effect :=
  match evs with
  | [] => (u, [])
  | (o, ev) :: evs' =>
      let '(u1, e1) := ui_step o ev u in
      let '(u2, e2) := ui_run evs' u1 in
      (u2, e1 ++ e2)
  end.
End DashboardView.

(** ** utils/api.ts *)

Module Request.
(** What [ApiClient.request] hands to [fetch]: the method ([None] for
    fetch's default), the URL up to the query, the entries of the
    [URLSearchParams] that follow [?] ([None] when the endpoint has no
    query), the headers, and the intake serialised into the body. *)
Record t := {
  method : option string;
  url : string;
  query : option (list (string * string));
  headers : list (string * string);
  body : option ClientInput.t;
}.
End Request.

Module Api.

(** [process.env.NEXT_PUBLIC_API_URL || 'http://localhost:8000'] *)
Definition API_BASE_URL : string := "http://localhost:8000".

Definition endpoint (baseURL path : string) : string :=
  baseURL +:+ "/api/v1" +:+ path.

(** No caller passes headers of its own. *)
Definition headers : list (string * string) :=
  [("Content-Type", "application/json")].

(** [...(value && { key: value })] for an optional string argument. *)
Definition optional_param (key : string) (value : option string)
    : list (string * string) :=
  match value with
  | Some v => if bool_decide (v = "") then [] else [(key, v)]
  | None => []
  end.

Definition startOnboarding (baseURL : string) (clientData : ClientInput.t)
    : Request.t :=
  {| Request.method := Some "POST";
     Request.url := endpoint baseURL "/onboarding/start";
     Request.query := None; Request.headers := headers; Request.body := Some clientData |}.

Definition getOnboardingStatus (baseURL clientId : string) : Request.t :=
  {| Request.method := None;
     Request.url := endpoint baseURL ("/onboarding/status/" +:+ clientId);
     Request.query := None; Request.headers := headers; Request.body := None |}.

Definition approveStep (baseURL clientId stepId : string) (approved : bool)
    (feedback : option string) : Request.t :=
  {| Request.method := Some "POST";
     Request.url :=
       endpoint baseURL ("/onboarding/approve/" +:+ clientId +:+ "/" +:+ stepId);
     Request.query :=
       Some (("approved", if approved then "true" else "false")
             :: optional_param "feedback" feedback);
     Request.headers := headers;
     Request.body := None |}.

(** [limit] and [offset] default to 10 and 0. *)
Definition listClients (baseURL : string) (status : option string)
    (limit offset : option Z) : Request.t :=
  {| Request.method := None;
     Request.url := endpoint baseURL "/onboarding/clients";
     Request.query :=
       Some ([("limit", pretty (default 10 limit));
              ("offset", pretty (default 0 offset))]
             ++ optional_param "status" status);
     Request.headers := headers;
     Request.body := None |}.

Definition getClient (baseURL clientId : string) : Request.t :=
  {| Request.method := None;
     Request.url := endpoint baseURL ("/onboarding/client/" +:+ clientId);
     Request.query := None; Request.headers := headers; Request.body := None |}.

Definition deleteClient (baseURL clientId : string) : Request.t :=
  {| Request.method := Some "DELETE";
     Request.url := endpoint baseURL ("/onboarding/client/" +:+ clientId);
     Request.query := None; Request.headers := headers; Request.body := None |}.

Definition simulateOnboarding (baseURL clientId : string) : Request.t :=
  {| Request.method := Some "POST";
     Request.url := endpoint baseURL ("/onboarding/simulate/" +:+ clientId);
     Request.query := None; Request.headers := headers; Request.body := None |}.

Definition healthCheck (baseURL : string) : Request.t :=
  {| Request.method := None; Request.url := endpoint baseURL "/health";
     Request.query := None; Request.headers := headers; Request.body := None |}.

(** What a [catch] can hold. *)
Inductive Thrown :=
  | thrown_Error (message : string)
  | thrown_string (s : string)
  | thrown_other.

(** The [message] key of a parsed body, as [errorData.message || ...] and
    [new Error(...)] see it: absent, a string, or another value with its
    truthiness and the text [String] makes of it. *)
Inductive Message :=
  | message_absent
  | message_text (s : string)
  | message_other (truthy : bool) (shown : string).

(** The body of a response: text on which [response.json()] rejects (with
    the message of its error), the JSON [null] (with the message of the
    [TypeError] that reading a property of [null] throws), or any other
    JSON value with its [message] key. *)
Inductive Body :=
  | body_invalid (syntaxError : string)
  | body_null (typeError : string)
  | body_json (message : Message).

Record HttpResponse := {
  ok : bool;
  status : Z;
  statusText : string;
  body : Body;
}.

Inductive Fetched :=
  | fetch_rejects (e : Thrown)
  | fetch_resolves (r : HttpResponse).

(** [`HTTP ${response.status}: ${response.statusText}`] *)
Definition httpText (r : HttpResponse) : string :=
  "HTTP " +:+ pretty (status r) +:+ ": " +:+ statusText r.

(** What the [if (!response.ok)] block throws: [errorData] is [{}] when
    the body is not JSON; reading [errorData.message] of [null] throws
    before any [Error] is made; otherwise the [Error] carries
    [errorData.message || `HTTP ...`]. *)
Definition errorMessage (r : HttpResponse) : string :=
  match body r with
  | body_invalid _ => httpText r
  | body_null typeError => typeError
  | body_json message_absent => httpText r
  | body_json (message_text m) => if bool_decide (m = "") then httpText r else m
  | body_json (message_other true shown) => shown
  | body_json (message_other false _) => httpText r
  end.

(** [ApiClient.request] once [fetch] has settled: the parsed response, or
    what it throws after logging it. *)
Definition request (f : Fetched) : (Thrown + HttpResponse) * list Effect :=
  match f with
  | fetch_rejects e => (inl e, [console_error "API request failed:"])
  | fetch_resolves r =>
      if ok r then
        match body r with
        | body_invalid syntaxError =>
            (inl (thrown_Error syntaxError), [console_error "API request failed:"])
        | _ => (inr r, [])
        end
      else (inl (thrown_Error (errorMessage r)),
            [console_error "API request failed:"])
  end.

Definition handleApiError (error : Thrown) : string :=
  match error with
  | thrown_Error message => message
  | thrown_string s => s
  | thrown_other => "An unexpected error occurred"
  end.

(** [testConnection]: [true] exactly when the request does not throw. *)
Definition testConnection (f : Fetched) : bool :=
  match fst (request f) with
  | inr _ => true
  | inl _ => false
  end.
End Api.

(** [onboardingApi]: the request behind each call the page makes. *)
Definition onboardingApi (baseURL : string) (r : ApiRequest) : Request.t :=
  match r with
  | startOnboarding clientData => Api.startOnboarding baseURL clientData
  | getOnboardingStatus clientId => Api.getOnboardingStatus baseURL clientId
  | approveStep clientId stepId approved feedback =>
      Api.approveStep baseURL clientId stepId approved feedback
  end.

(** The requests among the effects of a handler. *)
Definition requests (baseURL : string) (es : list Effect) : list Request.t :=
  omap (fun e => match e with
                 | api_request r => Some (onboardingApi baseURL r)
                 | _ => None
                 end) es.

(** ** store/onboardingStore.ts: [useAnalytics] and [partialize] *)

Module Analytics.

Definition completedClients (clients : list Client.t) : list Client.t :=
  filter (fun c => Client.status c = COMPLETED) clients.

Definition inProgressClients (clients : list Client.t) : list Client.t :=
  filter (fun c => Client.status c = IN_PROGRESS) clients.

Definition failedClients (clients : list Client.t) : list Client.t :=
  filter (fun c => Client.status c = FAILED) clients.

(** The four counts of the object [useAnalytics] returns; its time and
    money figures come from [Math.random] and are not modelled. *)
Record Counts := {
  totalClients : nat;
  completed : nat;
  inProgress : nat;
  failed : nat;
}.

Definition counts (clients : list Client.t) : Counts :=
  {| totalClients := length clients;
     completed := length (completedClients clients);
     inProgress := length (inProgressClients clients);
     failed := length (failedClients clients) |}.
End Analytics.

Module Persisted.
(** What [partialize] keeps for local storage. *)
Record t := {
  clients : list Client.t;
  currentClient : option Client.t;
  currentProgress : option OnboardingProgress.t;
  isOnboardingActive : bool;
}.
End Persisted.

Definition partialize (state : OnboardingState.t) : Persisted.t :=
  {| Persisted.clients := OnboardingState.clients state;
     Persisted.currentClient := OnboardingState.currentClient state;
     Persisted.currentProgress := OnboardingState.currentProgress state;
     Persisted.isOnboardingActive := OnboardingState.isOnboardingActive state |}.

(** ** app/dashboard/page.tsx *)

Module DashboardPage.

(** [clients.slice(0, 10)] and the count behind "and N more clients...",
    shown when there are more than ten. *)
Definition listed (clients : list Client.t) : list Client.t := take 10 clients.

Definition more (clients : list Client.t) : option nat :=
  if decide (10 < length clients)%nat then Some (length clients - 10)%nat else None.

(** [formatTime], on the whole numbers of minutes [useAnalytics] rounds
    to: [Math.floor(minutes / 60)] and [minutes % 60] are taken only for
    [minutes >= 60]. *)
Definition formatTime (minutes : Z) : string :=
  if minutes <? 60 then pretty minutes +:+ "m"
  else
    let hours := minutes / 60 in
    let mins := minutes mod 60 in
    if 0 <? mins then pretty hours +:+ "h " +:+ pretty mins +:+ "m"
    else pretty hours +:+ "h".

Definition handleStartNewOnboarding (s : OnboardingState.t) : OnboardingState.t :=
  Store.setShowOnboardingModal true (Store.setCurrentView landing s).
End DashboardPage.

(** ** app/page.tsx: [HomePage] over its own [useState] cells *)

Module LocalState.
Record t := {
  isLoading : bool;
  progress : option OnboardingProgress.t;
  clientId : option string;
  error : option string;
  isOnboardingStarted : bool;
}.
End LocalState.

Module LocalPage.
Import LocalState.

Definition initial : t :=
  {| isLoading := false; progress := None; clientId := None; error := None;
     isOnboardingStarted := false |}.

Definition setProgress (f : option OnboardingProgress.t -> option OnboardingProgress.t)
    (st : t) : t :=
  {| isLoading := isLoading st; progress := f (progress st);
     clientId := clientId st; error := error st;
     isOnboardingStarted := isOnboardingStarted st |}.

Definition setError (e : option string) (st : t) : t :=
  {| isLoading := isLoading st; progress := progress st; clientId := clientId st;
     error := e; isOnboardingStarted := isOnboardingStarted st |}.

Definition setIsLoading (b : bool) (st : t) : t :=
  {| isLoading := b; progress := progress st; clientId := clientId st;
     error := error st; isOnboardingStarted := isOnboardingStarted st |}.

(** The three functional updates of the message effect, each
    [prev => { if (!prev) return prev; ... }]. *)
Definition step_update (m : WebSocketMessage.t)
    (prev : option OnboardingProgress.t) : option OnboardingProgress.t :=
  match prev with
  | None => None
  | Some prev =>
      let updatedSteps :=
        map (fun step =>
               if bool_decide (OnboardingStep.id step = WebSocketMessage.step_id m)
               then
                 {| OnboardingStep.id := OnboardingStep.id step;
                    OnboardingStep.name := OnboardingStep.name step;
                    OnboardingStep.description := OnboardingStep.description step;
                    OnboardingStep.status := WebSocketMessage.step_status m;
                    OnboardingStep.started_at := OnboardingStep.started_at step;
                    OnboardingStep.completed_at := OnboardingStep.completed_at step;
                    OnboardingStep.error_message := OnboardingStep.error_message step;
                    OnboardingStep.metadata :=
                      match Data.metadata (WebSocketMessage.data m) with
                      | Some md => Some md
                      | None => OnboardingStep.metadata step
                      end |}
               else step)
            (OnboardingProgress.steps prev) in
      Some {| OnboardingProgress.client_id := OnboardingProgress.client_id prev;
              OnboardingProgress.steps := updatedSteps;
              OnboardingProgress.current_step :=
                match Data.current_step (WebSocketMessage.data m) with
                | Some n => n
                | None => OnboardingProgress.current_step prev
                end;
              OnboardingProgress.overall_status :=
                OnboardingProgress.overall_status prev;
              OnboardingProgress.started_at := OnboardingProgress.started_at prev;
              OnboardingProgress.completed_at := OnboardingProgress.completed_at prev;
              OnboardingProgress.progress_percentage :=
                WebSocketMessage.progress_percentage m |}
  end.

Definition approval_request (m : WebSocketMessage.t)
    (prev : option OnboardingProgress.t) : option OnboardingProgress.t :=
  match prev with
  | None => None
  | Some prev =>
      let updatedSteps :=
        map (fun step =>
               if bool_decide (OnboardingStep.id step = WebSocketMessage.step_id m)
               then
                 {| OnboardingStep.id := OnboardingStep.id step;
                    OnboardingStep.name := OnboardingStep.name step;
                    OnboardingStep.description := OnboardingStep.description step;
                    OnboardingStep.status := "in_progress";
                    OnboardingStep.started_at := OnboardingStep.started_at step;
                    OnboardingStep.completed_at := OnboardingStep.completed_at step;
                    OnboardingStep.error_message := OnboardingStep.error_message step;
                    OnboardingStep.metadata :=
                      Some (<["approval_data" := WebSocketMessage.approval_data m]>
                              (match OnboardingStep.metadata step with
                               | Some md => md
                               | None => ∅
                               end)) |}
               else step)
            (OnboardingProgress.steps prev) in
      Some {| OnboardingProgress.client_id := OnboardingProgress.client_id prev;
              OnboardingProgress.steps := updatedSteps;
              OnboardingProgress.current_step := OnboardingProgress.current_step prev;
              OnboardingProgress.overall_status :=
                OnboardingProgress.overall_status prev;
              OnboardingProgress.started_at := OnboardingProgress.started_at prev;
              OnboardingProgress.completed_at := OnboardingProgress.completed_at prev;
              OnboardingProgress.progress_percentage :=
                OnboardingProgress.progress_percentage prev |}
  end.

Definition onboarding_complete (m : WebSocketMessage.t)
    (prev : option OnboardingProgress.t) : option OnboardingProgress.t :=
  match prev with
  | None => None
  | Some prev =>
      Some {| OnboardingProgress.client_id := OnboardingProgress.client_id prev;
              OnboardingProgress.steps := OnboardingProgress.steps prev;
              OnboardingProgress.current_step := OnboardingProgress.current_step prev;
              OnboardingProgress.overall_status := COMPLETED;
              OnboardingProgress.started_at := OnboardingProgress.started_at prev;
              OnboardingProgress.completed_at :=
                WebSocketMessage.completion_data_completed_at m;
              OnboardingProgress.progress_percentage := 100 |}
  end.

(** The effect on [lastMessage]: it returns at once unless there is a
    message and a truthy [clientId]. *)
Definition messageEffect (lastMessage : option WebSocketMessage.t) (st : t)
    : t * list Effect :=
  match lastMessage with
  | Some m =>
      if truthy (clientId st) then
        let ty := WebSocketMessage.type m in
        let st' :=
          if bool_decide (ty = "step_update") then setProgress (step_update m) st
          else if bool_decide (ty = "approval_request")
          then setProgress (approval_request m) st
          else if bool_decide (ty = "onboarding_complete")
          then setProgress (onboarding_complete m) st
          else if bool_decide (ty = "error") then
            setError
              (Some (match Data.message (WebSocketMessage.data m) with
                     | Some text => text
                     | None => "An error occurred during onboarding"
                     end)) st
          else st in
        (st', [console_log "Received WebSocket message:"])
      else (st, [])
  | None => (st, [])
  end.

Definition process (ms : list WebSocketMessage.t) (st : t) : t :=
  foldl (fun acc m => fst (messageEffect (Some m) acc)) st ms.

(** [handleReset] *)
Definition handleReset (st : t) (h : Hook.t) : t * Hook.t * list Effect :=
  let '(h', e) := useWebSocket.disconnect h in
  ({| isLoading := isLoading st; progress := None; clientId := None;
      error := None; isOnboardingStarted := false |}, h', e).

(** [handleStartOnboarding] once the request has resolved. *)
Definition handleStartOnboarding_resolved (response : Response.t)
    (constructed : bool) (st : t) (h : Hook.t) : t * Hook.t * list Effect :=
  let '(h', e) := useWebSocket.connect (Response.client_id response) constructed h in
  ({| isLoading := false; progress := Some (Response.progress response);
      clientId := Some (Response.client_id response); error := error st;
      isOnboardingStarted := true |}, h', e).

(** [handleApproval], up to its [await]. *)
Definition handleApproval (stepId : string) (approved : bool)
    (feedback : option string) (st : t) : list Effect :=
  match clientId st with
  | Some id =>
      if bool_decide (id = "") then []
      else [api_request (approveStep id stepId approved feedback)]
  | None => []
  end.
End LocalPage.

(** ** Further vocabulary *)

Module Inv.

(** The socket in [socketRef] exists and was opened for the client in
    [clientIdRef]. *)
Definition current_socket (h : Hook.t) : Prop :=
  forall k, Hook.socketRef h = Some k ->
    exists s, Hook.sockets h !! k = Some s
              /\ Hook.clientIdRef h = Some (Socket.clientId s).

(** Every pending timer waits 3000 ms. *)
Definition timers_fixed (h : Hook.t) : Prop :=
  Forall (fun ms => ms = 3000) (Hook.timers h).

(** The same message with another addressee and time stamp. *)
Definition readdressed (client_id timestamp : string) (m : WebSocketMessage.t)
    : WebSocketMessage.t :=
  {| WebSocketMessage.type := WebSocketMessage.type m;
     WebSocketMessage.client_id := client_id;
     WebSocketMessage.data := WebSocketMessage.data m;
     WebSocketMessage.timestamp := timestamp;
     WebSocketMessage.step_id := WebSocketMessage.step_id m;
     WebSocketMessage.step_status := WebSocketMessage.step_status m;
     WebSocketMessage.progress_percentage := WebSocketMessage.progress_percentage m;
     WebSocketMessage.approval_data := WebSocketMessage.approval_data m;
     WebSocketMessage.completion_data_completed_at :=
       WebSocketMessage.completion_data_completed_at m |}.

Definition readdress (client_id timestamp : string) (d : HomePage.Delivery)
    : HomePage.Delivery :=
  {| HomePage.message := readdressed client_id timestamp (HomePage.message d);
     HomePage.clock1 := HomePage.clock1 d;
     HomePage.clock2 := HomePage.clock2 d |}.

(** The page over local state and the page over the store show the same
    thing: the same snapshot and error, and both or neither observing. *)
Definition pages_agree (st : LocalState.t) (s : OnboardingState.t) : Prop :=
  LocalState.progress st = OnboardingState.currentProgress s
  /\ LocalState.error st = OnboardingState.error s
  /\ truthy (LocalState.clientId st) = Spec.observing s.

(** An approval decision for the approval step, sent for a client with a
    non-empty id. *)
Definition approval_of_gate (e : Effect) : Prop :=
  exists clientId approved text,
    e = api_request (approveStep clientId "human_approval" approved (Some text))
    /\ clientId ≠ "".

(** The status is one of the four the type declares. *)
Definition declared_status (st : string) : Prop :=
  st = pending \/ st = in_progress \/ st = completed \/ st = failed.
End Inv.

(** ** A session at the page over the store *)

Module Session.

(** [handleRetry] once the status request has resolved. The handler closed
    over [currentClient] and [isConnected] when it was called; [progress]
    is [response.data.progress || null]. *)
Definition handleRetry_resolved (progress : option OnboardingProgress.t)
    (clientId : string) (isConnected constructed : bool) (o : Observer.t)
    : Observer.t * list Effect :=
  let s := Store.setCurrentProgress progress (Observer.store o) in
  if isConnected then ({| Observer.store := s; Observer.hook := Observer.hook o |}, [])
  else
    let '(h, e) := useWebSocket.connect clientId constructed (Observer.hook o) in
    ({| Observer.store := s; Observer.hook := h |}, e).

(** The [catch] of [handleRetry] and of [handleApproval]. *)
Definition failed (errorMessage : string) (o : Observer.t) : Observer.t :=
  {| Observer.store := Store.setError (Some errorMessage) (Observer.store o);
     Observer.hook := Observer.hook o |}.

Definition on_store (f : OnboardingState.t -> OnboardingState.t) (o : Observer.t)
    : Observer.t :=
  {| Observer.store := f (Observer.store o); Observer.hook := Observer.hook o |}.

(** Everything that happens to a mounted page: the mount effect, the
    handlers and their settlements, the message effect, the events of the
    connection, and the buttons that write to the store directly. *)
Inductive Action :=
  | mount
  | message_effect (d : HomePage.Delivery)
  | connection (ev : useWebSocket.Event)
  | start (clientData : ClientInput.t)
  | start_resolved (response : Response.t) (constructed : bool)
  | start_rejected (errorMessage : string)
  | approval_rejected (errorMessage : string)
  | reset
  | retry
  | retry_resolved (progress : option OnboardingProgress.t) (clientId : string)
                   (isConnected constructed : bool)
  | retry_rejected (errorMessage : string)
  | dismiss_error
  | show_modal (show : bool)
  | view_dashboard
  | start_new_from_dashboard.

Definition act (a : Action) (o : Observer.t) : Observer.t * list Effect :=
  match a with
  | mount => (on_store (Store.setConnected false) o, [])
  | message_effect d => (on_store (HomePage.deliver d) o, [])
  | connection ev => HomePage.hook_event ev o
  | start clientData => HomePage.handleStartOnboarding clientData o
  | start_resolved response constructed =>
      HomePage.handleStartOnboarding_resolved response constructed o
  | start_rejected errorMessage =>
      HomePage.handleStartOnboarding_rejected errorMessage o
  | approval_rejected errorMessage =>
      (failed errorMessage o, [console_error "Failed to handle approval:"])
  | reset => HomePage.handleReset o
  | retry => HomePage.handleRetry o
  | retry_resolved progress clientId isConnected constructed =>
      handleRetry_resolved progress clientId isConnected constructed o
  | retry_rejected errorMessage => (failed errorMessage o, [])
  | dismiss_error => (on_store (Store.setError None) o, [])
  | show_modal show => (on_store (Store.setShowOnboardingModal show) o, [])
  | view_dashboard => (on_store (Store.setCurrentView dashboard) o, [])
  | start_new_from_dashboard =>
      (on_store DashboardPage.handleStartNewOnboarding o, [])
  end.

Definition run (acts : list Action) (o : Observer.t) : Observer.t :=
  foldl (fun acc a => fst (act a acc)) o acts.

Definition fresh : Observer.t :=
  {| Observer.store := Store.initialState; Observer.hook := useWebSocket.initial |}.

(** The render after a handler has run: the message effect depends on
    [lastMessage] and [currentClient?.id], so it runs again, on the
    message the hook still holds, when the handler changed the id of the
    current client (no handler changes [lastMessage]). *)
Definition rerender (now1 now2 : string) (before after : Observer.t)
    : Observer.t * list Effect :=
  if decide (Client.id <$> OnboardingState.currentClient (Observer.store before)
             = Client.id <$> OnboardingState.currentClient (Observer.store after))
  then (after, [])
  else
    let '(s, e) := HomePage.messageEffect now1 now2
                     (Hook.lastMessage (Observer.hook after))
                     (Observer.store after) in
    ({| Observer.store := s; Observer.hook := Observer.hook after |}, e).
End Session.

(** A membership in an explicit list of other strings is absurd. *)
Ltac absent H :=
  repeat (apply elem_of_cons in H as [H|H]; [discriminate H|]);
  apply not_elem_of_nil in H; exact H.

(** ** Sample data *)

Module Sample.

Definition client (id : string) (status : ClientStatus) : Client.t :=
  {| Client.name := "Ada Lovelace"; Client.email := "ada@example.com";
     Client.company := None; Client.phone := None;
     Client.project_type := WEB_DEVELOPMENT;
     Client.project_scope := "A storefront with checkout";
     Client.budget_range := None; Client.timeline := None;
     Client.additional_notes := None; Client.id := id;
     Client.status := status;
     Client.created_at := "2024-01-01T00:00:00.000Z";
     Client.updated_at := "2024-01-01T00:00:00.000Z";
     Client.drive_folder_id := None; Client.contract_doc_id := None;
     Client.slack_channel_id := None; Client.github_repo_url := None;
     Client.notion_board_id := None; Client.stripe_customer_id := None;
     Client.invoice_id := None |}.

Definition step (id status : string) : OnboardingStep.t :=
  {| OnboardingStep.id := id; OnboardingStep.name := id;
     OnboardingStep.description := ""; OnboardingStep.status := status;
     OnboardingStep.started_at := None; OnboardingStep.completed_at := None;
     OnboardingStep.error_message := None; OnboardingStep.metadata := None |}.

Definition progress (steps : list OnboardingStep.t) (percentage : Z)
    : OnboardingProgress.t :=
  {| OnboardingProgress.client_id := "c1";
     OnboardingProgress.steps := steps;
     OnboardingProgress.current_step := 0;
     OnboardingProgress.overall_status := IN_PROGRESS;
     OnboardingProgress.started_at := Some "2024-01-01T00:00:00.000Z";
     OnboardingProgress.completed_at := None;
     OnboardingProgress.progress_percentage := percentage |}.

(** A store observing client [c1], with [c2] and [c1] in its history. *)
Definition store (p : option OnboardingProgress.t) : OnboardingState.t :=
  {| OnboardingState.currentClient := Some (client "c1" IN_PROGRESS);
     OnboardingState.currentProgress := p;
     OnboardingState.isOnboardingActive := true;
     OnboardingState.currentView := orchestration;
     OnboardingState.showOnboardingModal := false;
     OnboardingState.isLoading := true;
     OnboardingState.error := Some "HTTP 500: Internal Server Error";
     OnboardingState.isConnected := false;
     OnboardingState.clients := [client "c2" COMPLETED; client "c1" IN_PROGRESS] |}.

Definition message (type step_id step_status : string) (percentage : Z)
    : WebSocketMessage.t :=
  {| WebSocketMessage.type := type;
     WebSocketMessage.client_id := "c1";
     WebSocketMessage.data :=
       {| Data.metadata := None; Data.current_step := None;
          Data.message := None |};
     WebSocketMessage.timestamp := "2024-01-01T00:05:00.000Z";
     WebSocketMessage.step_id := step_id;
     WebSocketMessage.step_status := step_status;
     WebSocketMessage.progress_percentage := percentage;
     WebSocketMessage.approval_data := JNull;
     WebSocketMessage.completion_data_completed_at :=
       Some "2024-01-01T00:09:00.000Z" |}.

Definition delivery (m : WebSocketMessage.t) : HomePage.Delivery :=
  {| HomePage.message := m;
     HomePage.clock1 := "2024-01-01T00:10:00.000Z";
     HomePage.clock2 := "2024-01-01T00:10:00.001Z" |}.

Definition intake (name : string) : ClientInput.t :=
  {| ClientInput.name := name; ClientInput.email := "ada@example.com";
     ClientInput.company := None; ClientInput.phone := None;
     ClientInput.project_type := WEB_DEVELOPMENT;
     ClientInput.project_scope := "A storefront with checkout";
     ClientInput.budget_range := None; ClientInput.timeline := None;
     ClientInput.additional_notes := Some "" |}.

Definition at_sign : Ascii.ascii := Ascii.ascii_of_nat 64.

(** A stand-in for the email test: some character before an [@]. *)
Fixpoint has_at (s : string) : bool :=
  match s with
  | EmptyString => false
  | String c s' => Ascii.eqb c at_sign || has_at s'
  end.

Definition is_email (s : string) : bool :=
  match s with
  | EmptyString => false
  | String c s' => negb (Ascii.eqb c at_sign) && has_at s'
  end.

(** A hook connected for [c1] through socket 0. *)
Definition hook : Hook.t :=
  {| Hook.isConnected := true; Hook.lastMessage := None;
     Hook.socketRef := Some 0%nat; Hook.clientIdRef := Some "c1";
     Hook.sockets := [{| Socket.clientId := "c1"; Socket.readyState := OPEN |}];
     Hook.timers := [] |}.

Definition observer : Observer.t :=
  {| Observer.store := store (Some (progress [step "a" pending] 0));
     Observer.hook := hook |}.
End Sample.


(** ** More sample data *)

Module Sample2.

(** The sample hook after the page switched to client [c2] and the old
    socket's close event arrived: socket 1 is open, a timer is pending. *)
Definition switched : Hook.t :=
  fst (useWebSocket.run
         [useWebSocket.call_connect "c2" true;
          useWebSocket.socket_onopen 1;
          useWebSocket.socket_onclose 0 1005]
         Sample.hook).

Definition gate : OnboardingStep.t := Sample.step "human_approval" pending.

Definition gate_store : OnboardingState.t :=
  Sample.store (Some (Sample.progress [Sample.step "drive" completed; gate] 50)).

Definition approval : WebSocketMessage.t :=
  {| WebSocketMessage.type := "approval_request";
     WebSocketMessage.client_id := "c1";
     WebSocketMessage.data :=
       {| Data.metadata := None; Data.current_step := None;
          Data.message := None |};
     WebSocketMessage.timestamp := "2024-01-01T00:05:00.000Z";
     WebSocketMessage.step_id := "human_approval";
     WebSocketMessage.step_status := "";
     WebSocketMessage.progress_percentage := 0;
     WebSocketMessage.approval_data :=
       JObj [("contract_url", JStr "https://docs.example.com/contract")];
     WebSocketMessage.completion_data_completed_at := None |}.

Definition response : Response.t :=
  {| Response.client_id := "c3";
     Response.client := Sample.client "c3" IN_PROGRESS;
     Response.progress := Sample.progress [Sample.step "drive" pending] 0 |}.

Definition not_found : Api.HttpResponse :=
  {| Api.ok := false; Api.status := 404; Api.statusText := "Not Found";
     Api.body := Api.body_invalid "Unexpected token < in JSON at position 0" |}.

Definition local : LocalState.t :=
  {| LocalState.isLoading := false;
     LocalState.progress := Some (Sample.progress [Sample.step "a" pending] 0);
     LocalState.clientId := Some "c1";
     LocalState.error := Some "HTTP 500: Internal Server Error";
     LocalState.isOnboardingStarted := true |}.
End Sample2.

(** * Properties *)

(** ** The store *)

Section FindIndex.
Context {A : Type} (p : A -> bool).

Lemma findIndex_Some (l : list A) (i : nat) :
  Store.findIndex p l = Some i ->
  exists x, l !! i = Some x /\ p x = true.
Proof.
  revert i. induction l as [|y l IH]; intros i H; simpl in H; [discriminate|].
  destruct (p y) eqn:Hy.
  - injection H as <-. exists y. split; [reflexivity|assumption].
  - destruct (Store.findIndex p l) as [j|]; simpl in H; [|discriminate].
    injection H as <-. destruct (IH j eq_refl) as (x & Hx & Hp).
    exists x. split; assumption.
Qed.

Lemma findIndex_None (l : list A) :
  Store.findIndex p l = None <-> Forall (fun x => p x = false) l.
Proof.
  induction l as [|y l IH]; simpl.
  - split; [constructor | reflexivity].
  - destruct (p y) eqn:Hy.
    + split; [discriminate|]. intros H. inversion H; subst. congruence.
    + destruct (Store.findIndex p l) as [j|]; simpl.
      * split; [discriminate|]. intros H. inversion H; subst.
        destruct IH as [_ IH]. specialize (IH H3). discriminate.
      * split; [|reflexivity]. intros _. constructor; [assumption|].
        apply IH. reflexivity.
Qed.
End FindIndex.

Lemma same_id_true (a : string) (c : Client.t) :
  Store.same_id a c = true <-> Client.id c = a.
Proof. unfold Store.same_id. apply bool_decide_eq_true. Qed.

Lemma addClient_list_existing (client : Client.t) (cs : list Client.t) (i : nat) :
  Store.findIndex (Store.same_id (Client.id client)) cs = Some i ->
  Client.id <$> Store.addClient_list client cs = Client.id <$> cs.
Proof.
  intros H. unfold Store.addClient_list. rewrite H.
  destruct (findIndex_Some _ _ _ H) as (old & Hold & Hid).
  apply same_id_true in Hid.
  rewrite list_fmap_insert. apply list_insert_id.
  rewrite list_lookup_fmap, Hold. simpl. congruence.
Qed.

Lemma findIndex_exists (client : Client.t) (cs : list Client.t) :
  (exists c, c ∈ cs /\ Client.id c = Client.id client) ->
  exists i, Store.findIndex (Store.same_id (Client.id client)) cs = Some i.
Proof.
  intros (c & Hin & Hid).
  destruct (Store.findIndex _ cs) as [i|] eqn:H; [eauto|].
  apply findIndex_None in H. rewrite Forall_forall in H.
  specialize (H c Hin). apply same_id_true in Hid. congruence.
Qed.

(** C9. [addClient] keeps the ids of the client list pairwise distinct: a
    client whose id is already listed replaces the listed one in place
    (same length, same order of ids), any other client goes to the front;
    nothing but [clients] changes. *)
Theorem addClient_keeps_ids_distinct (client : Client.t) (s : OnboardingState.t) :
  NoDup (Client.id <$> OnboardingState.clients s) ->
  let cs := OnboardingState.clients s in
  let cs' := OnboardingState.clients (Store.addClient client s) in
  NoDup (Client.id <$> cs')
  /\ ((exists c, c ∈ cs /\ Client.id c = Client.id client) ->
      exists i old,
        cs !! i = Some old /\ Client.id old = Client.id client
        /\ cs' = <[i := client]> cs
        /\ cs' !! i = Some client
        /\ (forall j, j ≠ i -> cs' !! j = cs !! j)
        /\ length cs' = length cs
        /\ Client.id <$> cs' = Client.id <$> cs)
  /\ ((forall c, c ∈ cs -> Client.id c ≠ Client.id client) ->
      cs' = client :: cs).
Proof.
  intros Hnd cs cs'. subst cs cs'. simpl.
  split; [|split].
  - destruct (Store.findIndex (Store.same_id (Client.id client))
                (OnboardingState.clients s)) as [i|] eqn:H.
    + rewrite (addClient_list_existing _ _ _ H). exact Hnd.
    + unfold Store.addClient_list. rewrite H. rewrite fmap_cons.
      apply NoDup_cons. split; [|exact Hnd].
      intros Hin. apply list_elem_of_fmap in Hin as (c & Hc & Hcin).
      apply findIndex_None in H. rewrite Forall_forall in H.
      specialize (H c Hcin). unfold Store.same_id in H.
      apply bool_decide_eq_false in H. congruence.
  - intros Hex. destruct (findIndex_exists _ _ Hex) as [i H].
    destruct (findIndex_Some _ _ _ H) as (old & Hold & Hid).
    apply same_id_true in Hid.
    assert (Hlt : (i < length (OnboardingState.clients s))%nat)
      by (eapply lookup_lt_Some; eassumption).
    exists i, old. unfold Store.addClient_list at 1 2 3 4. rewrite H.
    repeat split; try assumption.
    + apply list_lookup_insert_eq. exact Hlt.
    + intros j Hj. apply list_lookup_insert_ne. congruence.
    + apply length_insert.
    + apply (addClient_list_existing _ _ _ H).
  - intros Hfresh. unfold Store.addClient_list.
    destruct (Store.findIndex _ _) as [i|] eqn:H; [|reflexivity].
    destruct (findIndex_Some _ _ _ H) as (old & Hold & Hid).
    apply same_id_true in Hid. exfalso.
    apply (Hfresh old); [|exact Hid].
    apply list_elem_of_lookup. eauto.
Qed.

Lemma addClient_keeps_ids_distinct_witness :
  let s := Sample.store None in
  let s' := Store.addClient (Sample.client "c1" COMPLETED) s in
  NoDup (Client.id <$> OnboardingState.clients s')
  /\ OnboardingState.clients s'
     = [Sample.client "c2" COMPLETED; Sample.client "c1" COMPLETED].
Proof.
  split; [|reflexivity].
  apply (addClient_keeps_ids_distinct (Sample.client "c1" COMPLETED) (Sample.store None)).
  apply (bool_decide_unpack _). vm_compute. reflexivity.
Defined.

(** C10. [updateClient] spreads the updates over exactly the listed
    clients whose id is [clientId], and over [currentClient] exactly when
    its id is [clientId]; every other client and every other field of the
    store stays as it was. Spreading merges field by field: a key the
    updates have replaces the client's value, any other field keeps it. *)
Theorem updateClient_touches_only_matching
    (clientId : string) (updates : PartialClient.t) (s : OnboardingState.t) :
  let s' := Store.updateClient clientId updates s in
  length (OnboardingState.clients s') = length (OnboardingState.clients s)
  /\ (forall i,
        OnboardingState.clients s' !! i
        = (fun c => if decide (Client.id c = clientId)
                    then spread c updates else c)
            <$> OnboardingState.clients s !! i)
  /\ OnboardingState.currentClient s'
     = (fun cur => if decide (Client.id cur = clientId)
                   then spread cur updates else cur)
         <$> OnboardingState.currentClient s
  /\ OnboardingState.currentProgress s' = OnboardingState.currentProgress s
  /\ OnboardingState.isOnboardingActive s' = OnboardingState.isOnboardingActive s
  /\ OnboardingState.currentView s' = OnboardingState.currentView s
  /\ OnboardingState.showOnboardingModal s' = OnboardingState.showOnboardingModal s
  /\ OnboardingState.isLoading s' = OnboardingState.isLoading s
  /\ OnboardingState.error s' = OnboardingState.error s
  /\ OnboardingState.isConnected s' = OnboardingState.isConnected s
  /\ (forall c,
        Client.name (spread c updates)
           = default (Client.name c) (PartialClient.name updates)
        /\ Client.email (spread c updates)
           = default (Client.email c) (PartialClient.email updates)
        /\ Client.company (spread c updates)
           = default (Client.company c) (PartialClient.company updates)
        /\ Client.phone (spread c updates)
           = default (Client.phone c) (PartialClient.phone updates)
        /\ Client.project_type (spread c updates)
           = default (Client.project_type c) (PartialClient.project_type updates)
        /\ Client.project_scope (spread c updates)
           = default (Client.project_scope c) (PartialClient.project_scope updates)
        /\ Client.budget_range (spread c updates)
           = default (Client.budget_range c) (PartialClient.budget_range updates)
        /\ Client.timeline (spread c updates)
           = default (Client.timeline c) (PartialClient.timeline updates)
        /\ Client.additional_notes (spread c updates)
           = default (Client.additional_notes c) (PartialClient.additional_notes updates)
        /\ Client.id (spread c updates)
           = default (Client.id c) (PartialClient.id updates)
        /\ Client.status (spread c updates)
           = default (Client.status c) (PartialClient.status updates)
        /\ Client.created_at (spread c updates)
           = default (Client.created_at c) (PartialClient.created_at updates)
        /\ Client.updated_at (spread c updates)
           = default (Client.updated_at c) (PartialClient.updated_at updates)
        /\ Client.drive_folder_id (spread c updates)
           = default (Client.drive_folder_id c) (PartialClient.drive_folder_id updates)
        /\ Client.contract_doc_id (spread c updates)
           = default (Client.contract_doc_id c) (PartialClient.contract_doc_id updates)
        /\ Client.slack_channel_id (spread c updates)
           = default (Client.slack_channel_id c) (PartialClient.slack_channel_id updates)
        /\ Client.github_repo_url (spread c updates)
           = default (Client.github_repo_url c) (PartialClient.github_repo_url updates)
        /\ Client.notion_board_id (spread c updates)
           = default (Client.notion_board_id c) (PartialClient.notion_board_id updates)
        /\ Client.stripe_customer_id (spread c updates)
           = default (Client.stripe_customer_id c) (PartialClient.stripe_customer_id updates)
        /\ Client.invoice_id (spread c updates)
           = default (Client.invoice_id c) (PartialClient.invoice_id updates)).
Proof.
  intros s'.
  assert (Hcs : OnboardingState.clients s'
                = Store.updateClient_list clientId updates (OnboardingState.clients s)).
  { subst s'. unfold Store.updateClient. simpl.
    destruct (OnboardingState.currentClient s) as [cur|]; [|reflexivity].
    destruct (bool_decide _); reflexivity. }
  split; [|split].
  - rewrite Hcs. unfold Store.updateClient_list. apply length_map.
  - intros i. rewrite Hcs. unfold Store.updateClient_list.
    change (map ?f ?l) with (f <$> l). rewrite list_lookup_fmap.
    destruct (OnboardingState.clients s !! i) as [c|]; [|reflexivity].
    simpl. f_equal. destruct (decide (Client.id c = clientId)) as [e|n].
    + rewrite bool_decide_eq_true_2 by exact e. reflexivity.
    + rewrite bool_decide_eq_false_2 by exact n. reflexivity.
  - subst s'. unfold Store.updateClient. simpl.
    destruct (OnboardingState.currentClient s) as [cur|] eqn:Hcur; simpl.
    + destruct (decide (Client.id cur = clientId)) as [e|n].
      * rewrite bool_decide_eq_true_2 by exact e. simpl.
        repeat split; reflexivity.
      * rewrite bool_decide_eq_false_2 by exact n. simpl. rewrite Hcur.
        repeat split; reflexivity.
    + rewrite Hcur. repeat split; reflexivity.
Qed.

Lemma updateClient_touches_only_matching_witness :
  let s' := Store.updateClient "c1" (HomePage.completion "2024-02-02T00:00:00.000Z")
                               (Sample.store None) in
  OnboardingState.clients s' !! 0%nat = Some (Sample.client "c2" COMPLETED)
  /\ Client.status <$> OnboardingState.clients s' !! 1%nat = Some COMPLETED
  /\ Client.updated_at <$> OnboardingState.clients s' !! 1%nat
     = Some "2024-02-02T00:00:00.000Z"
  /\ Client.created_at <$> OnboardingState.clients s' !! 1%nat
     = Some "2024-01-01T00:00:00.000Z"
  /\ Client.status <$> OnboardingState.currentClient s' = Some COMPLETED
  /\ Client.name <$> OnboardingState.currentClient s' = Some "Ada Lovelace".
Proof.
  destruct (updateClient_touches_only_matching
              "c1" (HomePage.completion "2024-02-02T00:00:00.000Z")
              (Sample.store None))
    as (_ & Hclients & Hcurrent & _).
  cbv zeta. rewrite !Hclients, Hcurrent. repeat split; reflexivity.
Defined.

(** ** Resetting the session *)

Lemma closeSocket_effects (k : nat) (code : option Z) (h : Hook.t) :
  snd (useWebSocket.closeSocket k code h) = [socket_close k code].
Proof.
  unfold useWebSocket.closeSocket.
  destruct (useWebSocket.readyStateOf k h) as [[]|]; reflexivity.
Qed.

Lemma disconnect_effects (h : Hook.t) :
  snd (useWebSocket.disconnect h)
  = match Hook.socketRef h with
    | Some k => [socket_close k (Some 1000)]
    | None => []
    end.
Proof.
  unfold useWebSocket.disconnect.
  destruct (Hook.socketRef h) as [k|]; [|reflexivity].
  pose proof (closeSocket_effects k (Some 1000) (useWebSocket.setClientIdRef None h)) as E.
  destruct (useWebSocket.closeSocket k (Some 1000) _) as [h' e']. simpl in *.
  exact E.
Qed.

(** C7. [reset] (and [handleReset], which calls it and then closes the
    socket) puts the seven session fields back to their initial values and
    leaves the client history (and the connection flag) of the store as
    they were; it issues no request to the engine. *)
Theorem reset_clears_session_only (o : Observer.t) :
  let s := Observer.store o in
  let s' := Observer.store (fst (HomePage.handleReset o)) in
  s' = Store.reset s
  /\ OnboardingState.currentClient s' = None
  /\ OnboardingState.currentProgress s' = None
  /\ OnboardingState.isOnboardingActive s' = false
  /\ OnboardingState.currentView s' = landing
  /\ OnboardingState.showOnboardingModal s' = false
  /\ OnboardingState.isLoading s' = false
  /\ OnboardingState.error s' = None
  /\ OnboardingState.clients s' = OnboardingState.clients s
  /\ OnboardingState.isConnected s' = OnboardingState.isConnected s
  /\ filter (fun e => is_api_request e = true) (snd (HomePage.handleReset o)) = [].
Proof.
  intros s s'. subst s s'. unfold HomePage.handleReset.
  pose proof (disconnect_effects (Observer.hook o)) as E.
  destruct (useWebSocket.disconnect (Observer.hook o)) as [h e]. simpl in *.
  repeat split; try reflexivity.
  subst e. destruct (Hook.socketRef (Observer.hook o)); reflexivity.
Qed.

(** ** Intake validation *)

Section Intake.
Variable is_email : string -> bool.

Lemma check_nil (ok : bool) (message : string) :
  ClientForm.check ok message = [] <-> ok = true.
Proof. destruct ok; simpl; split; congruence. Qed.

Lemma clientFormSchema_nil (data : ClientInput.t) :
  ClientForm.clientFormSchema is_email data = []
  <-> ClientForm.satisfies_constraints is_email data.
Proof.
  unfold ClientForm.clientFormSchema, ClientForm.satisfies_constraints.
  rewrite !app_nil, !check_nil, !Z.leb_le.
  destruct (ClientInput.additional_notes data) as [notes|].
  - rewrite check_nil, Z.leb_le. split.
    + intros (? & ? & ? & ? & ? & ?). repeat split; try assumption.
      intros n [= <-]. assumption.
    + intros ((? & ?) & ? & (? & ?) & Hn). repeat split; try assumption.
      apply Hn. reflexivity.
  - split.
    + intros (? & ? & ? & ? & ? & _). repeat split; try assumption.
      intros n [=].
    + intros ((? & ?) & ? & (? & ?) & _). repeat split; assumption.
Qed.
End Intake.

(** C1. The form's validation reports no issue exactly for the intakes
    that satisfy every field constraint; such an intake is handed to
    [onSubmit], and for any other intake the submission stops with the
    issues and no effect at all: [onSubmit] is not invoked. *)
Theorem intake_validation (is_email : string -> bool) (isLoading : bool)
    (data : ClientInput.t) :
  (fst (ClientForm.handleSubmit is_email isLoading data) = []
   <-> ClientForm.satisfies_constraints is_email data)
  /\ (ClientForm.satisfies_constraints is_email data ->
      filter (fun e => ClientForm.is_call_onSubmit e = true)
             (snd (ClientForm.handleSubmit is_email isLoading data))
      = [call_onSubmit data])
  /\ (~ ClientForm.satisfies_constraints is_email data ->
      fst (ClientForm.handleSubmit is_email isLoading data) ≠ []
      /\ snd (ClientForm.handleSubmit is_email isLoading data) = []).
Proof.
  pose proof (clientFormSchema_nil is_email data) as H.
  unfold ClientForm.handleSubmit.
  destruct (ClientForm.clientFormSchema is_email data) as [|issue issues]; simpl.
  - split; [|split].
    + exact H.
    + intros _. destruct isLoading; reflexivity.
    + intros Hn. exfalso. apply Hn, H. reflexivity.
  - split; [|split].
    + exact H.
    + intros Hs. apply H in Hs. discriminate.
    + intros _. split; [discriminate | reflexivity].
Qed.

Lemma intake_validation_witness :
  ~ ClientForm.satisfies_constraints Sample.is_email (Sample.intake "A")
  /\ snd (ClientForm.handleSubmit Sample.is_email false (Sample.intake "A")) = []
  /\ ClientForm.satisfies_constraints Sample.is_email (Sample.intake "Ada")
  /\ filter (fun e => ClientForm.is_call_onSubmit e = true)
            (snd (ClientForm.handleSubmit Sample.is_email false (Sample.intake "Ada")))
     = [call_onSubmit (Sample.intake "Ada")].
Proof.
  assert (Hbad : ~ ClientForm.satisfies_constraints Sample.is_email (Sample.intake "A")).
  { intros ((H & _) & _). vm_compute in H. apply H. reflexivity. }
  assert (Hgood : ClientForm.satisfies_constraints Sample.is_email (Sample.intake "Ada")).
  { apply clientFormSchema_nil. vm_compute. reflexivity. }
  split; [exact Hbad|]. split.
  - apply (intake_validation Sample.is_email false (Sample.intake "A")). exact Hbad.
  - split; [exact Hgood|].
    apply (intake_validation Sample.is_email false (Sample.intake "Ada")). exact Hgood.
Defined.

(** ** The approval button *)

(** C8. The dashboard offers "Review & Approve" under a step exactly when
    that step is the approval step (id [human_approval]) and its status is
    [in_progress]; under a step whose status is [completed] or [failed] it
    offers nothing, and without a snapshot it offers nothing at all. *)
Theorem approval_offered_iff_in_progress
    (progress : option OnboardingProgress.t) (step : OnboardingStep.t) :
  (step ∈ StatusDashboard.approvalButtons progress
   <-> exists p, progress = Some p
                 /\ step ∈ OnboardingProgress.steps p
                 /\ OnboardingStep.id step = "human_approval"
                 /\ OnboardingStep.status step = in_progress)
  /\ (OnboardingStep.status step = completed \/ OnboardingStep.status step = failed ->
      step ∉ StatusDashboard.approvalButtons progress).
Proof.
  assert (Hb : StatusDashboard.approvalButton step = true
               <-> OnboardingStep.id step = "human_approval"
                   /\ OnboardingStep.status step = in_progress).
  { unfold StatusDashboard.approvalButton.
    rewrite andb_true_iff, !bool_decide_eq_true. reflexivity. }
  assert (Hiff : step ∈ StatusDashboard.approvalButtons progress
   <-> exists p, progress = Some p
                 /\ step ∈ OnboardingProgress.steps p
                 /\ OnboardingStep.id step = "human_approval"
                 /\ OnboardingStep.status step = in_progress).
  { destruct progress as [p|]; simpl.
    - rewrite list_elem_of_filter, Hb. split.
      + intros ((? & ?) & ?). exists p. repeat split; assumption.
      + intros (p' & [= <-] & ? & ? & ?). repeat split; assumption.
    - split.
      + intros H. apply not_elem_of_nil in H. contradiction.
      + intros (p' & [=] & _). }
  split; [exact Hiff|].
  intros Hterm Hin. apply Hiff in Hin as (p & _ & _ & _ & Hs).
  rewrite Hs in Hterm. destruct Hterm as [H|H]; discriminate H.
Qed.

Lemma approval_offered_iff_in_progress_witness :
  Sample.step "human_approval" completed
  ∉ StatusDashboard.approvalButtons
      (Some (Sample.progress [Sample.step "human_approval" completed] 100)).
Proof.
  apply (approval_offered_iff_in_progress
           (Some (Sample.progress [Sample.step "human_approval" completed] 100))
           (Sample.step "human_approval" completed)).
  left. reflexivity.
Defined.

(** ** The message effect *)

Lemma updateClient_currentProgress (clientId : string) (u : PartialClient.t)
    (s : OnboardingState.t) :
  OnboardingState.currentProgress (Store.updateClient clientId u s)
  = OnboardingState.currentProgress s.
Proof.
  unfold Store.updateClient. simpl.
  destruct (OnboardingState.currentClient s) as [cur|]; [|reflexivity].
  destruct (bool_decide _); reflexivity.
Qed.

Lemma updateClient_currentClient (clientId : string) (u : PartialClient.t)
    (s : OnboardingState.t) (cur : Client.t) :
  OnboardingState.currentClient s = Some cur ->
  Client.id cur = clientId ->
  OnboardingState.currentClient (Store.updateClient clientId u s)
  = Some (spread cur u).
Proof.
  intros Hc Hid. unfold Store.updateClient. simpl. rewrite Hc.
  rewrite bool_decide_eq_true_2 by exact Hid. reflexivity.
Qed.

Lemma updateClient_clients (clientId : string) (u : PartialClient.t)
    (s : OnboardingState.t) :
  OnboardingState.clients (Store.updateClient clientId u s)
  = Store.updateClient_list clientId u (OnboardingState.clients s).
Proof.
  unfold Store.updateClient. simpl.
  destruct (OnboardingState.currentClient s) as [cur|]; [|reflexivity].
  destruct (bool_decide _); reflexivity.
Qed.

Lemma on_progress_currentProgress
    (f : OnboardingProgress.t -> OnboardingProgress.t) (s : OnboardingState.t) :
  OnboardingState.currentProgress (HomePage.on_progress f s)
  = f <$> OnboardingState.currentProgress s.
Proof.
  unfold HomePage.on_progress.
  destruct (OnboardingState.currentProgress s) as [p|] eqn:E; simpl;
    [reflexivity | exact E].
Qed.

(** The snapshot after a delivery: the message applied to it when the
    effect's guard lets it through, the same snapshot otherwise. *)
Lemma deliver_currentProgress (d : HomePage.Delivery) (s : OnboardingState.t) :
  OnboardingState.currentProgress (HomePage.deliver d s)
  = (if Spec.observing s then Spec.applied (HomePage.message d) else id)
      <$> OnboardingState.currentProgress s.
Proof.
  unfold HomePage.deliver, HomePage.messageEffect, Spec.observing, Spec.applied.
  destruct (OnboardingState.currentClient s) as [cur|] eqn:Hcur;
    [|simpl; destruct (OnboardingState.currentProgress s); reflexivity].
  destruct (bool_decide (Client.id cur = "")); simpl;
    [destruct (OnboardingState.currentProgress s); reflexivity|].
  repeat case_bool_decide.
  - apply on_progress_currentProgress.
  - apply on_progress_currentProgress.
  - simpl. rewrite updateClient_currentProgress. simpl.
    apply on_progress_currentProgress.
  - simpl. destruct (OnboardingState.currentProgress s); reflexivity.
  - destruct (OnboardingState.currentProgress s); reflexivity.
Qed.

Lemma deliver_currentClient_id (d : HomePage.Delivery) (s : OnboardingState.t) :
  Client.id <$> OnboardingState.currentClient (HomePage.deliver d s)
  = Client.id <$> OnboardingState.currentClient s.
Proof.
  unfold HomePage.deliver, HomePage.messageEffect.
  destruct (OnboardingState.currentClient s) as [cur|] eqn:Hcur;
    [|simpl; rewrite Hcur; reflexivity].
  destruct (bool_decide (Client.id cur = "")); simpl;
    [rewrite Hcur; reflexivity|].
  destruct (bool_decide (_ = "step_update")); simpl.
  { unfold HomePage.on_progress.
    destruct (OnboardingState.currentProgress s); simpl; rewrite Hcur; reflexivity. }
  destruct (bool_decide (_ = "approval_request")); simpl.
  { unfold HomePage.on_progress.
    destruct (OnboardingState.currentProgress s); simpl; rewrite Hcur; reflexivity. }
  destruct (bool_decide (_ = "onboarding_complete")); simpl.
  { erewrite updateClient_currentClient; [|reflexivity|reflexivity]. reflexivity. }
  destruct (bool_decide (_ = "error")); simpl; rewrite Hcur; reflexivity.
Qed.

Lemma deliver_observing (d : HomePage.Delivery) (s : OnboardingState.t) :
  Spec.observing (HomePage.deliver d s) = Spec.observing s.
Proof.
  pose proof (deliver_currentClient_id d s) as H. unfold Spec.observing.
  destruct (OnboardingState.currentClient (HomePage.deliver d s)) as [c'|],
           (OnboardingState.currentClient s) as [c|]; simpl in H;
    try discriminate H; [|reflexivity].
  injection H as ->. reflexivity.
Qed.

Lemma process_cons (d : HomePage.Delivery) (ds : list HomePage.Delivery)
    (s : OnboardingState.t) :
  HomePage.process (d :: ds) s = HomePage.process ds (HomePage.deliver d s).
Proof. reflexivity. Qed.

(** C6. A message whose type is none of the four known ones changes
    nothing: the store (snapshot, client record, history, error and the
    rest) is the one before, the effect does nothing but log the receipt
    (as the socket's [onmessage] did before it), and the dispatcher of
    [useWebSocketHandlers] invokes no callback and logs the type as
    unhandled. *)
Theorem unknown_event_ignored (now1 now2 : string) (m : WebSocketMessage.t)
    (s : OnboardingState.t) :
  ~ Spec.known_type (WebSocketMessage.type m) ->
  fst (HomePage.messageEffect now1 now2 (Some m) s) = s
  /\ snd (HomePage.messageEffect now1 now2 (Some m) s)
     = (if Spec.observing s then [console_log "Received WebSocket message:"] else [])
  /\ useWebSocket.useWebSocketHandlers (Some m)
     = ([], [console_log "Unhandled WebSocket message type:"])
  /\ (forall k h, is_Some (Hook.sockets h !! k) ->
        snd (useWebSocket.onmessage k (parsed m) h)
        = [console_log "WebSocket message received:"]).
Proof.
  intros Hun.
  assert (Hlog : forall k h, is_Some (Hook.sockets h !! k) ->
        snd (useWebSocket.onmessage k (parsed m) h)
        = [console_log "WebSocket message received:"]).
  { intros k h [sock Hk]. unfold useWebSocket.onmessage. rewrite Hk. reflexivity. }
  unfold Spec.known_type in Hun.
  assert (H1 : WebSocketMessage.type m ≠ "step_update") by tauto.
  assert (H2 : WebSocketMessage.type m ≠ "approval_request") by tauto.
  assert (H3 : WebSocketMessage.type m ≠ "onboarding_complete") by tauto.
  assert (H4 : WebSocketMessage.type m ≠ "error") by tauto.
  unfold HomePage.messageEffect, useWebSocket.useWebSocketHandlers, Spec.observing.
  rewrite !bool_decide_eq_false_2 by assumption.
  destruct (OnboardingState.currentClient s) as [cur|];
    [|repeat split; try reflexivity; exact Hlog].
  destruct (bool_decide (Client.id cur = ""));
    repeat split; try reflexivity; exact Hlog.
Qed.

Lemma unknown_event_ignored_witness :
  let m := Sample.message "heartbeat" "a" completed 100 in
  let s := Sample.store (Some (Sample.progress [Sample.step "a" pending] 0)) in
  fst (HomePage.messageEffect "t1" "t2" (Some m) s) = s.
Proof.
  apply (unknown_event_ignored "t1" "t2"
           (Sample.message "heartbeat" "a" completed 100)
           (Sample.store (Some (Sample.progress [Sample.step "a" pending] 0)))).
  intros [H|[H|[H|H]]]; vm_compute in H; discriminate H.
Defined.

(** C4. An [onboarding_complete] message received by an observer that
    holds a session (a current client with an id, and a snapshot) leaves
    the snapshot with overall status [completed], percentage 100 and the
    [completed_at] the message carries; the current client, and every
    client of the history with its id, has status [completed]. *)
Theorem onboarding_complete_applied (now1 now2 : string) (m : WebSocketMessage.t)
    (s : OnboardingState.t) (cur : Client.t) (p : OnboardingProgress.t) :
  WebSocketMessage.type m = "onboarding_complete" ->
  OnboardingState.currentClient s = Some cur ->
  Client.id cur ≠ "" ->
  OnboardingState.currentProgress s = Some p ->
  let s' := fst (HomePage.messageEffect now1 now2 (Some m) s) in
  (exists p',
      OnboardingState.currentProgress s' = Some p'
      /\ OnboardingProgress.overall_status p' = COMPLETED
      /\ OnboardingProgress.progress_percentage p' = 100
      /\ OnboardingProgress.completed_at p'
         = WebSocketMessage.completion_data_completed_at m
      /\ OnboardingProgress.steps p' = OnboardingProgress.steps p)
  /\ (exists cur',
         OnboardingState.currentClient s' = Some cur'
         /\ Client.id cur' = Client.id cur
         /\ Client.status cur' = COMPLETED)
  /\ (forall i c,
         OnboardingState.clients s !! i = Some c ->
         Client.id c = Client.id cur ->
         exists c', OnboardingState.clients s' !! i = Some c'
                    /\ Client.id c' = Client.id c
                    /\ Client.status c' = COMPLETED)
  /\ OnboardingState.currentView s' = complete.
Proof.
  intros Hty Hcur Hid Hp s'. subst s'.
  unfold HomePage.messageEffect. rewrite Hcur.
  rewrite bool_decide_eq_false_2 by exact Hid. rewrite Hty. simpl.
  split; [|split; [|split]].
  - rewrite updateClient_currentProgress. simpl.
    rewrite on_progress_currentProgress, Hp. simpl.
    eexists. split; [reflexivity|]. repeat split; reflexivity.
  - erewrite updateClient_currentClient; [|reflexivity|reflexivity].
    eexists. split; [reflexivity|]. split; reflexivity.
  - intros i c Hc Hidc. rewrite updateClient_clients. simpl.
    unfold Store.updateClient_list.
    change (map ?f ?l) with (f <$> l). rewrite list_lookup_fmap.
    assert (Hcs : OnboardingState.clients
                    (HomePage.on_progress (HomePage.on_onboarding_complete m) s)
                  = OnboardingState.clients s).
    { unfold HomePage.on_progress. rewrite Hp. reflexivity. }
    rewrite Hcs, Hc. simpl.
    rewrite bool_decide_eq_true_2 by exact Hidc.
    eexists. split; [reflexivity|]. split; reflexivity.
  - reflexivity.
Qed.

Lemma onboarding_complete_applied_witness :
  let m := Sample.message "onboarding_complete" "" "" 0 in
  let s := Sample.store (Some (Sample.progress [Sample.step "a" completed] 50)) in
  let s' := fst (HomePage.messageEffect "t1" "t2" (Some m) s) in
  (exists p',
      OnboardingState.currentProgress s' = Some p'
      /\ OnboardingProgress.overall_status p' = COMPLETED
      /\ OnboardingProgress.progress_percentage p' = 100
      /\ OnboardingProgress.completed_at p' = Some "2024-01-01T00:09:00.000Z")
  /\ Client.status <$> OnboardingState.clients s' = [COMPLETED; COMPLETED]
  /\ Client.status <$> OnboardingState.currentClient s' = Some COMPLETED.
Proof.
  split; [|split; reflexivity].
  destruct (onboarding_complete_applied "t1" "t2"
              (Sample.message "onboarding_complete" "" "" 0)
              (Sample.store (Some (Sample.progress [Sample.step "a" completed] 50)))
              (Sample.client "c1" IN_PROGRESS)
              (Sample.progress [Sample.step "a" completed] 50))
    as [(p' & H1 & H2 & H3 & H4 & _) _].
  - reflexivity.
  - reflexivity.
  - vm_compute. discriminate.
  - reflexivity.
  - exists p'. repeat split; assumption.
Defined.

(** ** Step statuses along a sequence of deliveries *)

Lemma advances_refl (a : string) : Spec.advances a a = true.
Proof. unfold Spec.advances. rewrite bool_decide_eq_true_2 by reflexivity. reflexivity. Qed.

Lemma advances_cases (a b : string) :
  Spec.advances a b = true
  <-> a = b \/ a = pending \/ (a = in_progress /\ (b = completed \/ b = failed)).
Proof.
  unfold Spec.advances.
  rewrite !orb_true_iff, andb_true_iff, orb_true_iff, !bool_decide_eq_true.
  tauto.
Qed.

Lemma advances_trans (a b c : string) :
  Spec.advances a b = true -> Spec.advances b c = true -> Spec.advances a c = true.
Proof.
  rewrite !advances_cases.
  intros [->|[->|[-> [->| ->]]]] H; try tauto;
    destruct H as [<-|[H|[H _]]]; try discriminate H; tauto.
Qed.

Lemma advances_keeps_off_pending (a b : string) :
  Spec.advances a b = true -> a ≠ pending -> b ≠ pending.
Proof.
  rewrite advances_cases.
  intros [->|[->|[-> [->| ->]]]] H; try assumption; try contradiction; discriminate.
Qed.

Lemma advances_terminal (a b : string) :
  Spec.advances a b = true -> a = completed \/ a = failed -> b = a.
Proof.
  rewrite advances_cases.
  intros [->|[->|[-> _]]] [H|H]; try reflexivity; discriminate H.
Qed.

Lemma applied_steps (m : WebSocketMessage.t) (p : OnboardingProgress.t) (i : nat) :
  OnboardingStep.status <$> OnboardingProgress.steps (Spec.applied m p) !! i
  = (fun step =>
       if HomePage.targets m step
       then default (OnboardingStep.status step) (Spec.written_status m)
       else OnboardingStep.status step)
      <$> OnboardingProgress.steps p !! i.
Proof.
  unfold Spec.applied, Spec.written_status.
  destruct (bool_decide (_ = "step_update")); simpl.
  { change (map ?f ?l) with (f <$> l). rewrite list_lookup_fmap.
    destruct (OnboardingProgress.steps p !! i) as [step|]; [|reflexivity].
    simpl. destruct (HomePage.targets m step); reflexivity. }
  destruct (bool_decide (_ = "approval_request")); simpl.
  { change (map ?f ?l) with (f <$> l). rewrite list_lookup_fmap.
    destruct (OnboardingProgress.steps p !! i) as [step|]; [|reflexivity].
    simpl. destruct (HomePage.targets m step); reflexivity. }
  destruct (bool_decide (_ = "onboarding_complete")); simpl;
    destruct (OnboardingProgress.steps p !! i) as [step|]; simpl;
    try reflexivity; destruct (HomePage.targets m step); reflexivity.
Qed.

Lemma deliver_status (d : HomePage.Delivery) (s : OnboardingState.t)
    (i : nat) (a : string) :
  Spec.status_at i s = Some a ->
  exists b, Spec.status_at i (HomePage.deliver d s) = Some b
            /\ (Spec.respects_order d s = true -> Spec.advances a b = true).
Proof.
  unfold Spec.status_at, Spec.respects_order.
  rewrite deliver_currentProgress.
  destruct (OnboardingState.currentProgress s) as [p|]; [|discriminate]. simpl.
  destruct (Spec.observing s).
  - rewrite applied_steps.
    destruct (OnboardingProgress.steps p !! i) as [step|] eqn:Hi; [|discriminate].
    simpl. intros [= <-]. eexists. split; [reflexivity|].
    destruct (Spec.written_status (HomePage.message d)) as [b|]; simpl.
    + intros Hall. rewrite forallb_forall in Hall.
      specialize (Hall step). rewrite <- list_elem_of_In in Hall.
      specialize (Hall ltac:(apply list_elem_of_lookup; eauto)).
      destruct (HomePage.targets (HomePage.message d) step); simpl in Hall.
      * exact Hall.
      * apply advances_refl.
    + intros _. destruct (HomePage.targets _ step); apply advances_refl.
  - simpl. intros H. exists a. split; [exact H|]. intros _. apply advances_refl.
Qed.

Lemma ordered_status (ds : list HomePage.Delivery) (s : OnboardingState.t)
    (i : nat) (a : string) :
  Spec.ordered ds s = true ->
  Spec.status_at i s = Some a ->
  exists b, Spec.status_at i (HomePage.process ds s) = Some b
            /\ Spec.advances a b = true.
Proof.
  revert s a. induction ds as [|d ds IH]; intros s a Hord Ha.
  - exists a. split; [exact Ha | apply advances_refl].
  - simpl in Hord. apply andb_true_iff in Hord as [Hd Hds].
    destruct (deliver_status d s i a Ha) as (b & Hb & Hab).
    destruct (IH _ b Hds Hb) as (c & Hc & Hbc).
    exists c. rewrite process_cons. split; [exact Hc|].
    eapply advances_trans; [apply Hab, Hd | exact Hbc].
Qed.

(** C2 (as the code has it). Along a sequence of deliveries each of which
    respects the status order for the steps it targets, the status of
    every step of the held snapshot only advances: a step that has left
    [pending] does not return to it, and a [completed] or [failed] step
    keeps its status. *)
Theorem ordered_deliveries_monotonic (ds : list HomePage.Delivery)
    (s : OnboardingState.t) (i : nat) (a : string) :
  Spec.ordered ds s = true ->
  Spec.status_at i s = Some a ->
  exists b, Spec.status_at i (HomePage.process ds s) = Some b
            /\ (a ≠ pending -> b ≠ pending)
            /\ (a = completed \/ a = failed -> b = a).
Proof.
  intros Hord Ha. destruct (ordered_status ds s i a Hord Ha) as (b & Hb & Hab).
  exists b. split; [exact Hb|]. split.
  - apply advances_keeps_off_pending. exact Hab.
  - apply advances_terminal. exact Hab.
Qed.

Lemma ordered_deliveries_monotonic_witness :
  let s := Sample.store
             (Some (Sample.progress [Sample.step "a" in_progress;
                                     Sample.step "b" completed] 50)) in
  let ds := [Sample.delivery (Sample.message "step_update" "a" completed 100);
             Sample.delivery (Sample.message "step_update" "b" completed 100);
             Sample.delivery (Sample.message "approval_request" "c" "" 100)] in
  Spec.ordered ds s = true
  /\ Spec.status_at 0 s = Some in_progress
  /\ (exists b, Spec.status_at 0 (HomePage.process ds s) = Some b /\ b ≠ pending)
  /\ Spec.status_at 1 s = Some completed
  /\ Spec.status_at 1 (HomePage.process ds s) = Some completed.
Proof.
  intros s ds.
  assert (Hord : Spec.ordered ds s = true) by (vm_compute; reflexivity).
  split; [exact Hord|]. split; [reflexivity|]. split; [|split; [reflexivity|]].
  - destruct (ordered_deliveries_monotonic ds s 0%nat in_progress Hord eq_refl)
      as (b & Hb & Hoff & _).
    exists b. split; [exact Hb|]. apply Hoff. discriminate.
  - destruct (ordered_deliveries_monotonic ds s 1%nat completed Hord eq_refl)
      as (b & Hb & _ & Hterm).
    rewrite Hb. f_equal. apply Hterm. left. reflexivity.
Defined.

(** C2, refuted as stated: a [completed] approval step is put back to
    [in_progress] by an [approval_request], and to [pending] by a
    [step_update] that carries [pending]. *)
Lemma completed_step_regresses :
  let s := Sample.store
             (Some (Sample.progress [Sample.step "human_approval" completed] 100)) in
  Spec.status_at 0 s = Some completed
  /\ Spec.status_at 0
       (HomePage.process
          [Sample.delivery (Sample.message "approval_request" "human_approval" "" 100)]
          s)
     = Some in_progress
  /\ Spec.status_at 0
       (HomePage.process
          [Sample.delivery (Sample.message "step_update" "human_approval" pending 100)]
          s)
     = Some pending.
Proof. vm_compute. repeat split; reflexivity. Qed.

(** ** The progress percentage along a sequence of deliveries *)

Lemma applied_percentage (d : HomePage.Delivery) (p : OnboardingProgress.t) :
  OnboardingProgress.progress_percentage (Spec.applied (HomePage.message d) p)
  = Spec.carried_percentage (OnboardingProgress.progress_percentage p) d.
Proof.
  unfold Spec.applied, Spec.carried_percentage.
  repeat case_bool_decide; try reflexivity; congruence.
Qed.

Lemma carried_in_range (held : Z) (d : HomePage.Delivery) :
  0 <= held <= 100 -> Spec.in_range d ->
  0 <= Spec.carried_percentage held d <= 100.
Proof.
  unfold Spec.in_range, Spec.carried_percentage. intros Hh Hd.
  repeat case_bool_decide; auto; lia.
Qed.

(** C3 (as the code has it). The observer copies the percentage: after a
    sequence of deliveries the held percentage is the one carried by the
    last [step_update], or 100 after a later [onboarding_complete], or the
    initial one (and the snapshot is untouched while no client is
    observed); it lies in [0, 100] whenever the initial percentage and
    every percentage carried by a [step_update] do. *)
Theorem percentage_follows_events (ds : list HomePage.Delivery)
    (s : OnboardingState.t) (p : OnboardingProgress.t) :
  OnboardingState.currentProgress s = Some p ->
  exists p',
    OnboardingState.currentProgress (HomePage.process ds s) = Some p'
    /\ (Spec.observing s = true ->
        OnboardingProgress.progress_percentage p'
        = foldl Spec.carried_percentage (OnboardingProgress.progress_percentage p) ds)
    /\ (Spec.observing s = false -> p' = p)
    /\ (0 <= OnboardingProgress.progress_percentage p <= 100 ->
        Forall Spec.in_range ds ->
        0 <= OnboardingProgress.progress_percentage p' <= 100).
Proof.
  revert s p. induction ds as [|d ds IH]; intros s p Hp.
  - exists p. repeat split; auto; tauto.
  - rewrite process_cons.
    pose proof (deliver_currentProgress d s) as Hd. rewrite Hp in Hd. simpl in Hd.
    pose proof (deliver_observing d s) as Ho.
    destruct (IH _ _ Hd) as (p' & Hp' & Hobs & Hidle & Hrange).
    exists p'. split; [exact Hp'|]. rewrite Ho in Hobs, Hidle.
    split; [|split].
    + intros Hs. rewrite (Hobs Hs), Hs. simpl. rewrite applied_percentage.
      reflexivity.
    + intros Hs. rewrite (Hidle Hs), Hs. reflexivity.
    + intros Hin Hall. inversion Hall as [|? ? Hd1 Hds]; subst.
      apply Hrange; [|exact Hds].
      destruct (Spec.observing s); simpl; [|exact Hin].
      rewrite applied_percentage. apply carried_in_range; assumption.
Qed.

Lemma percentage_follows_events_witness :
  let p := Sample.progress [Sample.step "a" pending; Sample.step "b" pending] 0 in
  let ds := [Sample.delivery (Sample.message "step_update" "a" completed 50)] in
  exists p',
    OnboardingState.currentProgress (HomePage.process ds (Sample.store (Some p)))
    = Some p'
    /\ 0 <= OnboardingProgress.progress_percentage p' <= 100.
Proof.
  destruct (percentage_follows_events
              [Sample.delivery (Sample.message "step_update" "a" completed 50)]
              (Sample.store
                 (Some (Sample.progress [Sample.step "a" pending; Sample.step "b" pending] 0)))
              (Sample.progress [Sample.step "a" pending; Sample.step "b" pending] 0)
              eq_refl) as (p' & Hp' & _ & _ & Hrange).
  exists p'. split; [exact Hp'|]. apply Hrange.
  - simpl. lia.
  - constructor; [intros _; simpl; lia | constructor].
Defined.

(** C3, refuted as stated: with none of two steps completed and a held
    percentage of 0, a [step_update] that completes one step and carries
    250 leaves 250, where the steps give 50; and an [onboarding_complete]
    leaves 100, where the steps give 0. *)
Lemma percentage_not_derived :
  let s := Sample.store
             (Some (Sample.progress [Sample.step "a" pending; Sample.step "b" pending] 0)) in
  (exists p',
      OnboardingState.currentProgress
        (HomePage.process
           [Sample.delivery (Sample.message "step_update" "a" completed 250)] s)
      = Some p'
      /\ OnboardingProgress.progress_percentage p' = 250
      /\ Spec.derived_percentage p' = 50
      /\ ~ (0 <= OnboardingProgress.progress_percentage p' <= 100))
  /\ (exists p',
      OnboardingState.currentProgress
        (HomePage.process
           [Sample.delivery (Sample.message "onboarding_complete" "" "" 0)] s)
      = Some p'
      /\ OnboardingProgress.progress_percentage p' = 100
      /\ Spec.derived_percentage p' = 0).
Proof.
  split.
  - eexists. split; [reflexivity|]. split; [reflexivity|].
    split; [vm_compute; reflexivity|]. simpl. lia.
  - eexists. split; [reflexivity|]. split; [reflexivity|].
    vm_compute; reflexivity.
Qed.

(** ** The connection *)

Lemma closeSocket_refs (k : nat) (code : option Z) (h : Hook.t) :
  let h' := fst (useWebSocket.closeSocket k code h) in
  Hook.clientIdRef h' = Hook.clientIdRef h
  /\ Hook.socketRef h' = Hook.socketRef h
  /\ Hook.timers h' = Hook.timers h
  /\ Hook.lastMessage h' = Hook.lastMessage h.
Proof.
  unfold useWebSocket.closeSocket.
  destruct (useWebSocket.readyStateOf k h) as [[]|]; repeat split; reflexivity.
Qed.

Lemma disconnect_clientIdRef (h : Hook.t) :
  Spec.refs_agree h = true ->
  truthy (Hook.clientIdRef (fst (useWebSocket.disconnect h))) = false.
Proof.
  unfold Spec.refs_agree, useWebSocket.disconnect.
  destruct (Hook.socketRef h) as [k|].
  - intros _.
    pose proof (closeSocket_refs k (Some 1000) (useWebSocket.setClientIdRef None h))
      as (Hc & _).
    destruct (useWebSocket.closeSocket k (Some 1000) _) as [h' e']. simpl in *.
    rewrite Hc. reflexivity.
  - simpl. intros H. apply negb_true_iff in H. exact H.
Qed.

(** With no client to reconnect for, an event other than a call of
    [connect] leaves the hook that way, constructs no socket and sets no
    timer. *)
Lemma step_quiet (ev : useWebSocket.Event) (h : Hook.t) :
  truthy (Hook.clientIdRef h) = false ->
  useWebSocket.is_call_connect ev = false ->
  truthy (Hook.clientIdRef (fst (useWebSocket.step ev h))) = false
  /\ Forall Spec.quiet (snd (useWebSocket.step ev h)).
Proof.
  intros Hq Hev. destruct ev as [id c| |k|k f|k code|k|i c]; simpl in *.
  - discriminate Hev.
  - unfold useWebSocket.disconnect. destruct (Hook.socketRef h) as [k|].
    + pose proof (closeSocket_refs k (Some 1000) (useWebSocket.setClientIdRef None h))
        as (Hc & _).
      pose proof (closeSocket_effects k (Some 1000) (useWebSocket.setClientIdRef None h))
        as He.
      destruct (useWebSocket.closeSocket k (Some 1000) _) as [h' e']. simpl in *.
      rewrite Hc. subst e'. split; [reflexivity|].
      repeat constructor.
    + simpl. split; [exact Hq | constructor].
  - unfold useWebSocket.onopen. destruct (Hook.sockets h !! k); simpl.
    + split; [exact Hq | repeat constructor].
    + split; [exact Hq | constructor].
  - unfold useWebSocket.onmessage. destruct (Hook.sockets h !! k); simpl.
    + destruct f; simpl; (split; [exact Hq | repeat constructor]).
    + split; [exact Hq | constructor].
  - unfold useWebSocket.onclose. destruct (Hook.sockets h !! k); simpl.
    + rewrite Hq, andb_false_r. simpl. split; [exact Hq | repeat constructor].
    + split; [exact Hq | constructor].
  - unfold useWebSocket.onerror. destruct (Hook.sockets h !! k); simpl.
    + split; [exact Hq | repeat constructor].
    + split; [exact Hq | constructor].
  - unfold useWebSocket.timeout. destruct (Hook.timers h !! i); simpl.
    + destruct (Hook.clientIdRef h) as [id|] eqn:Hid; simpl.
      * simpl in Hq. rewrite Hq. simpl. rewrite Hid.
        split; [exact Hq | constructor].
      * rewrite Hid. split; [reflexivity | constructor].
    + split; [exact Hq | constructor].
Qed.

Lemma run_quiet (evs : list useWebSocket.Event) (h : Hook.t) :
  truthy (Hook.clientIdRef h) = false ->
  forallb (fun ev => negb (useWebSocket.is_call_connect ev)) evs = true ->
  truthy (Hook.clientIdRef (fst (useWebSocket.run evs h))) = false
  /\ Forall Spec.quiet (snd (useWebSocket.run evs h)).
Proof.
  revert h. induction evs as [|ev evs IH]; intros h Hq Hall; simpl in *.
  - split; [exact Hq | constructor].
  - apply andb_true_iff in Hall as [Hev Hall]. apply negb_true_iff in Hev.
    destruct (step_quiet ev h Hq Hev) as [Hq1 He1].
    destruct (useWebSocket.step ev h) as [h1 e1]. simpl in *.
    destruct (IH h1 Hq1 Hall) as [Hq2 He2].
    destruct (useWebSocket.run evs h1) as [h2 e2]. simpl in *.
    split; [exact Hq2 | apply Forall_app; split; assumption].
Qed.

(** [refs_agree] holds of every state the hook reaches while the socket
    constructor does not throw. *)
Lemma step_refs_agree (ev : useWebSocket.Event) (h : Hook.t) :
  Spec.refs_agree h = true -> Spec.constructs ev = true ->
  Spec.refs_agree (fst (useWebSocket.step ev h)) = true.
Proof.
  intros Hi Hc. destruct ev as [id c| |k|k f|k code|k|i c]; simpl in *.
  - subst c. unfold useWebSocket.connect.
    destruct (match Hook.socketRef h with
              | Some k => if bool_decide (useWebSocket.readyStateOf k h = Some OPEN)
                          then useWebSocket.closeSocket k None h else (h, [])
              | None => (h, [])
              end) as [h1 e1]. reflexivity.
  - unfold useWebSocket.disconnect. destruct (Hook.socketRef h) as [k|] eqn:Hs.
    + pose proof (closeSocket_refs k (Some 1000) (useWebSocket.setClientIdRef None h))
        as (Hcl & _).
      destruct (useWebSocket.closeSocket k (Some 1000) _) as [h' e']. simpl in *.
      unfold Spec.refs_agree. simpl. rewrite Hcl. reflexivity.
    + simpl. unfold Spec.refs_agree in *. simpl. rewrite Hs in *. exact Hi.
  - unfold useWebSocket.onopen. destruct (Hook.sockets h !! k); exact Hi.
  - unfold useWebSocket.onmessage. destruct (Hook.sockets h !! k); [|exact Hi].
    destruct f; exact Hi.
  - unfold useWebSocket.onclose. destruct (Hook.sockets h !! k); [|exact Hi].
    simpl. destruct (bool_decide (code ≠ 1000) && truthy (Hook.clientIdRef h));
      exact Hi.
  - unfold useWebSocket.onerror. destruct (Hook.sockets h !! k); exact Hi.
  - subst c. unfold useWebSocket.timeout. destruct (Hook.timers h !! i); [|exact Hi].
    simpl. destruct (Hook.clientIdRef h) as [id|] eqn:Hid; [|exact Hi].
    simpl. destruct (bool_decide (id ≠ "")); [|exact Hi].
    unfold useWebSocket.connect.
    destruct (match Hook.socketRef _ with
              | Some k => _
              | None => _
              end) as [h1 e1]. reflexivity.
Qed.

Lemma reachable_refs_agree (evs : list useWebSocket.Event) (h : Hook.t) :
  Spec.refs_agree h = true ->
  forallb Spec.constructs evs = true ->
  Spec.refs_agree (fst (useWebSocket.run evs h)) = true.
Proof.
  revert h. induction evs as [|ev evs IH]; intros h Hi Hall; simpl in *.
  - exact Hi.
  - apply andb_true_iff in Hall as [Hev Hall].
    pose proof (step_refs_agree ev h Hi Hev) as H1.
    destruct (useWebSocket.step ev h) as [h1 e1]. simpl in *.
    specialize (IH h1 H1 Hall).
    destruct (useWebSocket.run evs h1) as [h2 e2]. exact IH.
Qed.

(** C5 (as the code has it). When a socket of a connected observer (one
    whose [clientIdRef] holds an id) closes with a code other than 1000,
    the hook sets a timer of the fixed 3000 ms whose callback calls
    [connect] for that id, and nothing reaches the store: no error is set
    and no message is synthesised. After a [disconnect] called while the
    two refs agree (the hook holds a socket, or no client id), whatever
    follows short of a new call of [connect] (more calls of [disconnect],
    socket events, timers set earlier) constructs no socket and sets no
    timer. The refs agree in every state the hook reaches while
    constructing a socket does not throw. *)
Theorem reconnect_unless_disconnected (o : Observer.t) (k : nat) (code : Z)
    (evs evs0 : list useWebSocket.Event) :
  (code ≠ 1000 ->
   is_Some (Hook.sockets (Observer.hook o) !! k) ->
   truthy (Hook.clientIdRef (Observer.hook o)) = true ->
   let o' := fst (HomePage.hook_event (useWebSocket.socket_onclose k code) o) in
   snd (HomePage.hook_event (useWebSocket.socket_onclose k code) o)
   = [console_log "WebSocket disconnected:"; setTimeout 3000]
   /\ Hook.timers (Observer.hook o') = Hook.timers (Observer.hook o) ++ [3000]
   /\ Observer.store o' = Observer.store o
   /\ Hook.lastMessage (Observer.hook o') = Hook.lastMessage (Observer.hook o)
   /\ exists clientId,
        Hook.clientIdRef (Observer.hook o') = Some clientId
        /\ forall constructed,
             new_WebSocket (WS_BASE_URL +:+ "/ws/" +:+ clientId)
             ∈ snd (useWebSocket.timeout (length (Hook.timers (Observer.hook o)))
                                         constructed (Observer.hook o')))
  /\ (Spec.refs_agree (Observer.hook o) = true ->
      forallb (fun ev => negb (useWebSocket.is_call_connect ev)) evs = true ->
      let h0 := fst (useWebSocket.disconnect (Observer.hook o)) in
      Forall Spec.quiet (snd (useWebSocket.run evs h0))
      /\ truthy (Hook.clientIdRef (fst (useWebSocket.run evs h0))) = false)
  /\ (forallb Spec.constructs evs0 = true ->
      Spec.refs_agree (fst (useWebSocket.run evs0 useWebSocket.initial)) = true).
Proof.
  split; [|split].
  - intros Hcode [sock Hk] Htr o'. subst o'.
    unfold HomePage.hook_event. simpl. unfold useWebSocket.onclose.
    rewrite Hk. simpl. rewrite Htr.
    rewrite bool_decide_eq_true_2 by exact Hcode. simpl.
    repeat split.
    destruct (Hook.clientIdRef (Observer.hook o)) as [clientId|] eqn:Hid;
      [|discriminate Htr].
    exists clientId. split; [reflexivity|]. intros constructed.
    unfold useWebSocket.timeout. simpl.
    rewrite lookup_app_r by reflexivity.
    rewrite Nat.sub_diag. simpl. rewrite Hid.
    simpl in Htr. rewrite Htr.
    unfold useWebSocket.connect.
    match goal with
    | |- context [let '(h1, e1) := ?x in _] => destruct x as [h1 e1]
    end.
    destruct constructed; simpl; rewrite elem_of_app; right; left.
  - intros Hagree Hevs h0. subst h0.
    pose proof (disconnect_clientIdRef _ Hagree) as Hq.
    destruct (run_quiet evs _ Hq Hevs) as [H1 H2]. split; assumption.
  - intros Hevs0. apply reachable_refs_agree; [reflexivity | exact Hevs0].
Qed.

Lemma reconnect_unless_disconnected_witness :
  (Hook.timers
     (Observer.hook
        (fst (HomePage.hook_event (useWebSocket.socket_onclose 0 1006)
                                  Sample.observer)))
   = [3000])
  /\ Forall Spec.quiet
       (snd (useWebSocket.run
               [useWebSocket.socket_onclose 0 1006;
                useWebSocket.call_disconnect;
                useWebSocket.timeout_fires 0 true]
               (fst (useWebSocket.disconnect (Observer.hook Sample.observer)))))
  /\ Spec.refs_agree
       (fst (useWebSocket.run
               [useWebSocket.call_connect "c1" true;
                useWebSocket.socket_onclose 0 1006;
                useWebSocket.timeout_fires 0 true;
                useWebSocket.call_disconnect]
               useWebSocket.initial))
     = true.
Proof.
  pose proof (reconnect_unless_disconnected Sample.observer 0%nat 1006
                [useWebSocket.socket_onclose 0 1006;
                 useWebSocket.call_disconnect;
                 useWebSocket.timeout_fires 0 true]
                [useWebSocket.call_connect "c1" true;
                 useWebSocket.socket_onclose 0 1006;
                 useWebSocket.timeout_fires 0 true;
                 useWebSocket.call_disconnect]) as (Ha & Hb & Hc).
  split; [|split].
  - apply Ha.
    + lia.
    + eexists. reflexivity.
    + reflexivity.
  - apply Hb; reflexivity.
  - apply Hc. reflexivity.
Defined.

(** C5, refuted as stated, in both halves. There is no backoff: three
    drops in a row, each followed by the reconnection it scheduled, wait
    3000 ms each. And a manual disconnect can be followed by a
    reconnection: when the constructor threw in [connect "c2"], the hook
    holds the client id without a socket, [disconnect] skips the clearing
    of [clientIdRef], and the close of the earlier socket with code 1006
    sets a timer whose callback constructs a socket for [c2]. *)
Lemma reconnection_claim_refuted :
  (let evs := [useWebSocket.socket_onclose 0 1006;
               useWebSocket.timeout_fires 0 true;
               useWebSocket.socket_onclose 1 1006;
               useWebSocket.timeout_fires 0 true;
               useWebSocket.socket_onclose 2 1006] in
   let delays := Spec.scheduled_delays (snd (useWebSocket.run evs Sample.hook)) in
   delays = [3000; 3000; 3000] /\ Spec.backs_off delays = false)
  /\ (let h := fst (useWebSocket.run
                      [useWebSocket.call_connect "c1" true;
                       useWebSocket.socket_onopen 0;
                       useWebSocket.call_disconnect;
                       useWebSocket.call_connect "c2" false]
                      useWebSocket.initial) in
      let h0 := fst (useWebSocket.disconnect h) in
      Hook.clientIdRef h0 = Some "c2"
      /\ snd (useWebSocket.run [useWebSocket.socket_onclose 0 1006;
                                useWebSocket.timeout_fires 0 true] h0)
         = [console_log "WebSocket disconnected:"; setTimeout 3000;
            new_WebSocket "ws://localhost:8000/ws/c2"]).
Proof. vm_compute. repeat split; reflexivity. Qed.

(** * Further properties *)

(** ** The connection hook *)

Lemma closeSocket_sockets (k : nat) (code : option Z) (h : Hook.t) (j : nat) :
  Socket.clientId <$> Hook.sockets (fst (useWebSocket.closeSocket k code h)) !! j
  = Socket.clientId <$> Hook.sockets h !! j.
Proof.
  unfold useWebSocket.closeSocket.
  destruct (useWebSocket.readyStateOf k h) as [[]|]; simpl; try reflexivity;
    destruct (decide (k = j)) as [->|Hne];
    rewrite ?list_lookup_alter_eq, ?list_lookup_alter_ne by exact Hne;
    try reflexivity;
    destruct (Hook.sockets h !! j); reflexivity.
Qed.

Lemma setReadyState_sockets (k : nat) (r : ReadyState) (h : Hook.t) (j : nat) :
  Socket.clientId <$> Hook.sockets (useWebSocket.setReadyState k r h) !! j
  = Socket.clientId <$> Hook.sockets h !! j.
Proof.
  simpl. destruct (decide (k = j)) as [->|Hne];
    rewrite ?list_lookup_alter_eq, ?list_lookup_alter_ne by exact Hne;
    try reflexivity.
  destruct (Hook.sockets h !! j); reflexivity.
Qed.

Lemma current_socket_alt (h h' : Hook.t) :
  Hook.socketRef h' = Hook.socketRef h ->
  Hook.clientIdRef h' = Hook.clientIdRef h ->
  (forall j, Socket.clientId <$> Hook.sockets h' !! j
             = Socket.clientId <$> Hook.sockets h !! j) ->
  Inv.current_socket h -> Inv.current_socket h'.
Proof.
  intros Hs Hc Hl Hi k Hk. rewrite Hs in Hk. destruct (Hi k Hk) as (s & Hks & Hcs).
  specialize (Hl k). rewrite Hks in Hl. simpl in Hl.
  destruct (Hook.sockets h' !! k) as [s'|]; [|discriminate Hl].
  injection Hl as Hl. exists s'. split; [reflexivity|]. congruence.
Qed.

Lemma connect_invariants (id : string) (h : Hook.t) :
  Inv.timers_fixed h ->
  Inv.current_socket (fst (useWebSocket.connect id true h))
  /\ Inv.timers_fixed (fst (useWebSocket.connect id true h)).
Proof.
  intros Ht. unfold useWebSocket.connect.
  set (pre := match Hook.socketRef h with
              | Some k => if bool_decide (useWebSocket.readyStateOf k h = Some OPEN)
                          then useWebSocket.closeSocket k None h else (h, [])
              | None => (h, [])
              end).
  assert (Hpre : Hook.timers (fst pre) = Hook.timers h).
  { subst pre. destruct (Hook.socketRef h) as [k|]; [|reflexivity].
    destruct (bool_decide _); [|reflexivity].
    apply (closeSocket_refs k None h). }
  destruct pre as [h1 e1]. simpl in *. split.
  - intros k Hk. simpl in Hk. injection Hk as <-. eexists. split.
    + simpl. rewrite lookup_app_r by reflexivity. rewrite Nat.sub_diag. reflexivity.
    + reflexivity.
  - unfold Inv.timers_fixed. simpl. rewrite Hpre. exact Ht.
Qed.

Lemma step_invariants (ev : useWebSocket.Event) (h : Hook.t) :
  Spec.constructs ev = true ->
  Inv.current_socket h -> Inv.timers_fixed h ->
  Inv.current_socket (fst (useWebSocket.step ev h))
  /\ Inv.timers_fixed (fst (useWebSocket.step ev h)).
Proof.
  intros Hc Hs Ht. destruct ev as [id c| |k|k f|k code|k|i c]; simpl in *.
  - subst c. apply connect_invariants. exact Ht.
  - unfold useWebSocket.disconnect. destruct (Hook.socketRef h) as [k|] eqn:Hk.
    + pose proof (closeSocket_refs k (Some 1000) (useWebSocket.setClientIdRef None h))
        as (_ & _ & Htm & _).
      destruct (useWebSocket.closeSocket k (Some 1000) _) as [h' e']. simpl in *.
      split; [intros j Hj; discriminate Hj|].
      unfold Inv.timers_fixed. simpl. rewrite Htm. exact Ht.
    + simpl. split; [intros j Hj; simpl in Hj; congruence | exact Ht].
  - unfold useWebSocket.onopen. destruct (Hook.sockets h !! k); simpl;
      [|split; assumption].
    split; [|exact Ht].
    eapply (current_socket_alt h); try reflexivity; [|exact Hs].
    intros j. apply (setReadyState_sockets k OPEN h j).
  - unfold useWebSocket.onmessage. destruct (Hook.sockets h !! k); simpl;
      [|split; assumption].
    destruct f; simpl; split; assumption.
  - unfold useWebSocket.onclose. destruct (Hook.sockets h !! k); simpl;
      [|split; assumption].
    destruct (bool_decide (code ≠ 1000) && truthy (Hook.clientIdRef h)); simpl.
    + split.
      * eapply (current_socket_alt h); try reflexivity; [|exact Hs].
        intros j. apply (setReadyState_sockets k CLOSED h j).
      * unfold Inv.timers_fixed. simpl. apply Forall_app. split; [exact Ht|].
        repeat constructor.
    + split; [|exact Ht].
      eapply (current_socket_alt h); try reflexivity; [|exact Hs].
      intros j. apply (setReadyState_sockets k CLOSED h j).
  - unfold useWebSocket.onerror. destruct (Hook.sockets h !! k); simpl;
      split; assumption.
  - subst c. unfold useWebSocket.timeout.
    destruct (Hook.timers h !! i) eqn:Hi; [|split; assumption].
    assert (Ht' : Inv.timers_fixed
                    (useWebSocket.setTimers (delete i (Hook.timers h)) h)).
    { unfold Inv.timers_fixed in *. simpl.
      apply Forall_delete. exact Ht. }
    simpl. destruct (Hook.clientIdRef h) as [id|] eqn:Hid; [|split; assumption].
    simpl. destruct (bool_decide (id ≠ "")); [|split; assumption].
    apply connect_invariants. exact Ht'.
Qed.

(** X1. Whatever the owner calls and the browser delivers, as long as
    constructing a socket does not throw: a hook without a socket has no
    client to reconnect for, the socket it holds was opened for the client
    it holds, and every pending timer waits 3000 ms. *)
Theorem hook_invariants (evs : list useWebSocket.Event) :
  forallb Spec.constructs evs = true ->
  let h := fst (useWebSocket.run evs useWebSocket.initial) in
  Spec.refs_agree h = true /\ Inv.current_socket h /\ Inv.timers_fixed h.
Proof.
  intros Hall h. subst h.
  assert (H : forall h0,
             Spec.refs_agree h0 = true -> Inv.current_socket h0 ->
             Inv.timers_fixed h0 ->
             let h := fst (useWebSocket.run evs h0) in
             Spec.refs_agree h = true /\ Inv.current_socket h /\ Inv.timers_fixed h).
  { induction evs as [|ev evs IH]; intros h0 Ha Hs Ht; simpl in *.
    - repeat split; assumption.
    - apply andb_true_iff in Hall as [Hev Hall].
      pose proof (step_refs_agree ev h0 Ha Hev) as Ha1.
      destruct (step_invariants ev h0 Hev Hs Ht) as [Hs1 Ht1].
      destruct (useWebSocket.step ev h0) as [h1 e1]. simpl in *.
      specialize (IH Hall h1 Ha1 Hs1 Ht1).
      destruct (useWebSocket.run evs h1) as [h2 e2]. exact IH. }
  apply H.
  - reflexivity.
  - intros k Hk. discriminate Hk.
  - constructor.
Qed.

Lemma hook_invariants_witness :
  let h := fst (useWebSocket.run
                  [useWebSocket.call_connect "c1" true;
                   useWebSocket.socket_onopen 0;
                   useWebSocket.socket_onclose 0 1006;
                   useWebSocket.timeout_fires 0 true]
                  useWebSocket.initial) in
  Spec.refs_agree h = true /\ Inv.current_socket h /\ Inv.timers_fixed h.
Proof.
  apply (hook_invariants
           [useWebSocket.call_connect "c1" true;
            useWebSocket.socket_onopen 0;
            useWebSocket.socket_onclose 0 1006;
            useWebSocket.timeout_fires 0 true]).
  reflexivity.
Defined.

(** X2. [disconnect] is idempotent: a second call right after the first
    changes nothing and closes nothing. *)
Theorem disconnect_twice (h : Hook.t) :
  useWebSocket.disconnect (fst (useWebSocket.disconnect h))
  = (fst (useWebSocket.disconnect h), []).
Proof.
  unfold useWebSocket.disconnect at 2 3.
  destruct (Hook.socketRef h) as [k|] eqn:Hk.
  - pose proof (closeSocket_refs k (Some 1000) (useWebSocket.setClientIdRef None h))
      as (_ & Hs & _).
    destruct (useWebSocket.closeSocket k (Some 1000) _) as [h' e']. simpl in *.
    reflexivity.
  - simpl. unfold useWebSocket.disconnect. simpl. rewrite Hk. reflexivity.
Qed.

(** X3. A reconnection timer that fires while the hook holds an open
    socket closes that socket and opens another for the same client: the
    timer does not look at the state of the connection. *)
Theorem timer_replaces_open_socket (h : Hook.t) (i k : nat) (ms : Z) (id : string) :
  Hook.timers h !! i = Some ms ->
  Hook.socketRef h = Some k ->
  useWebSocket.readyStateOf k h = Some OPEN ->
  Hook.clientIdRef h = Some id ->
  id ≠ "" ->
  let h' := fst (useWebSocket.timeout i true h) in
  snd (useWebSocket.timeout i true h)
  = [socket_close k None; new_WebSocket (WS_BASE_URL +:+ "/ws/" +:+ id)]
  /\ useWebSocket.readyStateOf k h' = Some CLOSING
  /\ Hook.socketRef h' = Some (length (Hook.sockets h))
  /\ useWebSocket.readyStateOf (length (Hook.sockets h)) h' = Some CONNECTING
  /\ Hook.timers h' = delete i (Hook.timers h).
Proof.
  intros Hi Hk Hopen Hid Hne h'. subst h'.
  unfold useWebSocket.timeout. rewrite Hi. simpl. rewrite Hid. simpl.
  rewrite bool_decide_eq_true_2 by exact Hne.
  unfold useWebSocket.connect. simpl. rewrite Hk.
  assert (Hopen' : useWebSocket.readyStateOf k
                     (useWebSocket.setTimers (delete i (Hook.timers h)) h)
                   = Some OPEN) by exact Hopen.
  rewrite bool_decide_eq_true_2 by exact Hopen'.
  unfold useWebSocket.closeSocket. rewrite Hopen'. simpl.
  unfold useWebSocket.readyStateOf in *. simpl.
  destruct (Hook.sockets h !! k) as [s|] eqn:Hs; [|discriminate Hopen].
  assert (Hlt : (k < length (Hook.sockets h))%nat)
    by (eapply lookup_lt_Some; eassumption).
  split; [reflexivity|]. split; [|split; [|split]].
  - rewrite lookup_app_l by (rewrite length_alter; exact Hlt).
    rewrite list_lookup_alter_eq, Hs. reflexivity.
  - rewrite length_alter. reflexivity.
  - rewrite lookup_app_r by (rewrite length_alter; reflexivity).
    rewrite length_alter, Nat.sub_diag. reflexivity.
  - reflexivity.
Qed.

Lemma timer_replaces_open_socket_witness :
  snd (useWebSocket.timeout 0 true Sample2.switched)
  = [socket_close 1 None; new_WebSocket (WS_BASE_URL +:+ "/ws/" +:+ "c2")].
Proof.
  apply (timer_replaces_open_socket Sample2.switched 0 1 3000 "c2").
  - reflexivity.
  - reflexivity.
  - reflexivity.
  - reflexivity.
  - discriminate.
Defined.

(** ** The page over the store *)

Lemma deliver_idle (d : HomePage.Delivery) (s : OnboardingState.t) :
  Spec.observing s = false -> HomePage.deliver d s = s.
Proof.
  unfold Spec.observing, HomePage.deliver, HomePage.messageEffect.
  destruct (OnboardingState.currentClient s) as [cur|]; [|reflexivity].
  destruct (bool_decide (Client.id cur = "")); [reflexivity|discriminate].
Qed.

Lemma process_idle (ds : list HomePage.Delivery) (s : OnboardingState.t) :
  Spec.observing s = false -> HomePage.process ds s = s.
Proof.
  intros H. induction ds as [|d ds IH]; [reflexivity|].
  rewrite process_cons, (deliver_idle d s H). exact IH.
Qed.

(** X4. After [handleReset] the observer observes no client, and whatever
    is delivered afterwards leaves its store exactly as the reset left
    it. *)
Theorem events_after_reset_ignored (o : Observer.t) (ds : list HomePage.Delivery) :
  let s' := Observer.store (fst (HomePage.handleReset o)) in
  Spec.observing s' = false /\ HomePage.process ds s' = s'.
Proof.
  intros s'.
  assert (H : Spec.observing s' = false).
  { subst s'. unfold HomePage.handleReset.
    destruct (useWebSocket.disconnect (Observer.hook o)) as [h e]. reflexivity. }
  split; [exact H | apply process_idle; exact H].
Qed.

(** X5. A frame that is not JSON reaches the page as a message of type
    [message], which neither page acts on: the store and the local state
    stay as they are. *)
Theorem plain_text_frame_ignored (k : nat) (text now now1 now2 : string)
    (h : Hook.t) (s : OnboardingState.t) (st : LocalState.t) :
  is_Some (Hook.sockets h !! k) ->
  let h' := fst (useWebSocket.onmessage k (plain text now) h) in
  (exists m, Hook.lastMessage h' = Some m /\ WebSocketMessage.type m = "message")
  /\ fst (HomePage.messageEffect now1 now2 (Hook.lastMessage h') s) = s
  /\ fst (LocalPage.messageEffect (Hook.lastMessage h') st) = st.
Proof.
  intros [sock Hk] h'. subst h'. unfold useWebSocket.onmessage. rewrite Hk. simpl.
  split; [eexists; split; reflexivity|]. split.
  - unfold HomePage.messageEffect. simpl.
    destruct (OnboardingState.currentClient s) as [cur|]; [|reflexivity].
    destruct (bool_decide (Client.id cur = "")); reflexivity.
  - unfold LocalPage.messageEffect. simpl.
    destruct (truthy (LocalState.clientId st)); reflexivity.
Qed.

Lemma plain_text_frame_ignored_witness :
  fst (HomePage.messageEffect "t1" "t2"
         (Hook.lastMessage
            (fst (useWebSocket.onmessage 0 (plain "pong" "t0") Sample.hook)))
         Sample2.gate_store)
  = Sample2.gate_store.
Proof.
  apply (plain_text_frame_ignored 0 "pong" "t0" "t1" "t2" Sample.hook
           Sample2.gate_store Sample2.local).
  eexists. reflexivity.
Defined.

(** X6. The message effect never looks at the addressee or the time stamp
    of a message: a sequence of events addressed to any other client is
    applied to the observed session exactly like the original. *)
Theorem addressee_is_not_checked (client_id timestamp : string)
    (ds : list HomePage.Delivery) (s : OnboardingState.t) :
  HomePage.process (Inv.readdress client_id timestamp <$> ds) s
  = HomePage.process ds s.
Proof.
  revert s. induction ds as [|d ds IH]; intros s; [reflexivity|].
  rewrite fmap_cons, !process_cons.
  assert (H : HomePage.deliver (Inv.readdress client_id timestamp d) s
              = HomePage.deliver d s) by reflexivity.
  rewrite H. apply IH.
Qed.

(** *** The shape of the snapshot *)

Lemma applied_steps_fmap {A} (f : OnboardingStep.t -> A)
    (m : WebSocketMessage.t) (p : OnboardingProgress.t) :
  (forall step, f (HomePage.step_updated m step) = f step) ->
  (forall step, f (HomePage.step_awaiting m step) = f step) ->
  f <$> OnboardingProgress.steps (Spec.applied m p)
  = f <$> OnboardingProgress.steps p.
Proof.
  intros Hu Ha. unfold Spec.applied.
  destruct (bool_decide (_ = "step_update")); simpl.
  { change (map ?g ?l) with (g <$> l). rewrite <- list_fmap_compose.
    apply list_fmap_ext. intros i step _. simpl.
    destruct (HomePage.targets m step); [apply Hu | reflexivity]. }
  destruct (bool_decide (_ = "approval_request")); simpl.
  { change (map ?g ?l) with (g <$> l). rewrite <- list_fmap_compose.
    apply list_fmap_ext. intros i step _. simpl.
    destruct (HomePage.targets m step); [apply Ha | reflexivity]. }
  destruct (bool_decide (_ = "onboarding_complete")); reflexivity.
Qed.

Lemma applied_header (m : WebSocketMessage.t) (p : OnboardingProgress.t) :
  OnboardingProgress.client_id (Spec.applied m p) = OnboardingProgress.client_id p
  /\ OnboardingProgress.started_at (Spec.applied m p)
     = OnboardingProgress.started_at p.
Proof.
  unfold Spec.applied. repeat case_bool_decide; split; reflexivity.
Qed.

(** X7. Through any sequence of events the snapshot keeps its shape: the
    same steps in the same order (ids, names, descriptions, hence the same
    number of steps), for the same client, started at the same time. *)
Theorem snapshot_keeps_shape (ds : list HomePage.Delivery)
    (s : OnboardingState.t) (p : OnboardingProgress.t) :
  OnboardingState.currentProgress s = Some p ->
  exists p',
    OnboardingState.currentProgress (HomePage.process ds s) = Some p'
    /\ OnboardingStep.id <$> OnboardingProgress.steps p'
       = OnboardingStep.id <$> OnboardingProgress.steps p
    /\ OnboardingStep.name <$> OnboardingProgress.steps p'
       = OnboardingStep.name <$> OnboardingProgress.steps p
    /\ OnboardingStep.description <$> OnboardingProgress.steps p'
       = OnboardingStep.description <$> OnboardingProgress.steps p
    /\ length (OnboardingProgress.steps p') = length (OnboardingProgress.steps p)
    /\ OnboardingProgress.client_id p' = OnboardingProgress.client_id p
    /\ OnboardingProgress.started_at p' = OnboardingProgress.started_at p.
Proof.
  revert s p. induction ds as [|d ds IH]; intros s p Hp.
  - exists p. repeat split; try reflexivity. exact Hp.
  - rewrite process_cons.
    pose proof (deliver_currentProgress d s) as Hd. rewrite Hp in Hd. simpl in Hd.
    destruct (IH _ _ Hd) as (p' & Hp' & Hi & Hn & Hde & Hl & Hc & Hs).
    exists p'. split; [exact Hp'|].
    destruct (Spec.observing s); simpl in *;
      [|repeat split; assumption].
    pose proof (applied_header (HomePage.message d) p) as [Hc0 Hs0].
    rewrite Hi, Hn, Hde, Hl, Hc, Hs, Hc0, Hs0.
    rewrite !applied_steps_fmap by reflexivity.
    repeat split; try reflexivity.
    rewrite <- (length_fmap OnboardingStep.id), applied_steps_fmap by reflexivity.
    apply length_fmap.
Qed.

Lemma snapshot_keeps_shape_witness :
  exists p',
    OnboardingState.currentProgress
      (HomePage.process [Sample.delivery Sample2.approval] Sample2.gate_store)
    = Some p'
    /\ OnboardingStep.id <$> OnboardingProgress.steps p' = ["drive"; "human_approval"].
Proof.
  destruct (snapshot_keeps_shape [Sample.delivery Sample2.approval]
              Sample2.gate_store
              (Sample.progress [Sample.step "drive" completed; Sample2.gate] 50)
              eq_refl) as (p' & Hp' & Hid & _).
  exists p'. split; [exact Hp' | exact Hid].
Defined.

Lemma applied_untargeted (m : WebSocketMessage.t) (p : OnboardingProgress.t)
    (i : nat) (step : OnboardingStep.t) :
  OnboardingProgress.steps p !! i = Some step ->
  WebSocketMessage.step_id m ≠ OnboardingStep.id step ->
  OnboardingProgress.steps (Spec.applied m p) !! i = Some step.
Proof.
  intros Hi Hne.
  assert (Ht : HomePage.targets m step = false).
  { unfold HomePage.targets. apply bool_decide_eq_false_2. congruence. }
  unfold Spec.applied.
  destruct (bool_decide (_ = "step_update")); simpl.
  { change (map ?g ?l) with (g <$> l). rewrite list_lookup_fmap, Hi. simpl.
    rewrite Ht. reflexivity. }
  destruct (bool_decide (_ = "approval_request")); simpl.
  { change (map ?g ?l) with (g <$> l). rewrite list_lookup_fmap, Hi. simpl.
    rewrite Ht. reflexivity. }
  destruct (bool_decide (_ = "onboarding_complete")); exact Hi.
Qed.

(** X8. A step that no event of a sequence names by its id is, after the
    sequence, the very record it was: status, time stamps, error message
    and metadata included. *)
Theorem unnamed_step_untouched (ds : list HomePage.Delivery)
    (s : OnboardingState.t) (p : OnboardingProgress.t) (i : nat)
    (step : OnboardingStep.t) :
  OnboardingState.currentProgress s = Some p ->
  OnboardingProgress.steps p !! i = Some step ->
  Forall (fun d => WebSocketMessage.step_id (HomePage.message d)
                   ≠ OnboardingStep.id step) ds ->
  exists p',
    OnboardingState.currentProgress (HomePage.process ds s) = Some p'
    /\ OnboardingProgress.steps p' !! i = Some step.
Proof.
  revert s p. induction ds as [|d ds IH]; intros s p Hp Hi Hall.
  - exists p. split; assumption.
  - inversion Hall as [|? ? Hd Hds]; subst. rewrite process_cons.
    pose proof (deliver_currentProgress d s) as Hdp. rewrite Hp in Hdp.
    simpl in Hdp. eapply IH; [exact Hdp| |exact Hds].
    destruct (Spec.observing s); [|exact Hi].
    apply applied_untargeted; assumption.
Qed.

Lemma unnamed_step_untouched_witness :
  exists p',
    OnboardingState.currentProgress
      (HomePage.process [Sample.delivery Sample2.approval] Sample2.gate_store)
    = Some p'
    /\ OnboardingProgress.steps p' !! 0%nat = Some (Sample.step "drive" completed).
Proof.
  apply (unnamed_step_untouched [Sample.delivery Sample2.approval]
           Sample2.gate_store
           (Sample.progress [Sample.step "drive" completed; Sample2.gate] 50)
           0%nat (Sample.step "drive" completed)).
  - reflexivity.
  - reflexivity.
  - constructor; [|constructor]. vm_compute. discriminate.
Defined.

(** *** The approval request, from the event to the modal *)

(** X9. An [approval_request] for the approval step puts the button under
    every step with that id, keeps what the step's metadata held under
    other keys, and the payload the button hands to the modal is the
    payload of the event (an empty object for a falsy payload). *)
Theorem approval_payload_reaches_modal (d : HomePage.Delivery)
    (o : Observer.t) (p : OnboardingProgress.t) (i : nat)
    (step : OnboardingStep.t) :
  Spec.observing (Observer.store o) = true ->
  WebSocketMessage.type (HomePage.message d) = "approval_request" ->
  WebSocketMessage.step_id (HomePage.message d) = "human_approval" ->
  OnboardingState.currentProgress (Observer.store o) = Some p ->
  OnboardingProgress.steps p !! i = Some step ->
  OnboardingStep.id step = "human_approval" ->
  let payload := WebSocketMessage.approval_data (HomePage.message d) in
  let o' := {| Observer.store := HomePage.deliver d (Observer.store o);
               Observer.hook := Observer.hook o |} in
  exists p' step',
    OnboardingState.currentProgress (Observer.store o') = Some p'
    /\ OnboardingProgress.steps p' !! i = Some step'
    /\ step' ∈ StatusDashboard.approvalButtons (Some p')
    /\ (forall key, key ≠ "approval_data" ->
          default ∅ (OnboardingStep.metadata step') !! key
          = default ∅ (OnboardingStep.metadata step) !! key)
    /\ DashboardView.approvalModal
         (fst (DashboardView.ui_step o' (DashboardView.click_review i)
                                     DashboardView.initialUi))
       = DashboardView.handleApprovalRequest
           "human_approval" (OnboardingStep.name step)
           (if JSON_truthy payload then payload else JObj []).
Proof.
  intros Hobs Hty Hsid Hp Hi Hid payload o'. subst payload o'. simpl.
  pose proof (deliver_currentProgress d (Observer.store o)) as Hd.
  rewrite Hp, Hobs in Hd. simpl in Hd.
  unfold Spec.applied in Hd. rewrite Hty in Hd. simpl in Hd.
  assert (Ht : HomePage.targets (HomePage.message d) step = true).
  { unfold HomePage.targets. apply bool_decide_eq_true_2. congruence. }
  eexists. exists (HomePage.step_awaiting (HomePage.message d) step).
  split; [exact Hd|].
  assert (Hi' : OnboardingProgress.steps
                  (HomePage.on_approval_request (HomePage.message d) p) !! i
                = Some (HomePage.step_awaiting (HomePage.message d) step)).
  { simpl. change (map ?g ?l) with (g <$> l). rewrite list_lookup_fmap, Hi.
    simpl. rewrite Ht. reflexivity. }
  assert (Hb : StatusDashboard.approvalButton
                 (HomePage.step_awaiting (HomePage.message d) step) = true).
  { unfold StatusDashboard.approvalButton. simpl.
    rewrite !bool_decide_eq_true_2 by (reflexivity || exact Hid). reflexivity. }
  split; [exact Hi'|]. split; [|split].
  - simpl. apply list_elem_of_filter. split; [exact Hb|].
    apply list_elem_of_lookup. exists i. exact Hi'.
  - intros key Hkey. simpl. apply lookup_insert_ne. congruence.
  - rewrite Hd, Hi', Hb. simpl. unfold DashboardView.handleApprovalRequest.
    rewrite Hid. f_equal.
    unfold DashboardView.approvalDataOf. simpl.
    rewrite lookup_insert_eq. reflexivity.
Qed.

Lemma approval_payload_reaches_modal_witness :
  ApprovalModalState.approvalData
    (DashboardView.approvalModal
       (fst (DashboardView.ui_step
               {| Observer.store :=
                    HomePage.deliver (Sample.delivery Sample2.approval)
                                     Sample2.gate_store;
                  Observer.hook := Sample.hook |}
               (DashboardView.click_review 1) DashboardView.initialUi)))
  = JObj [("contract_url", JStr "https://docs.example.com/contract")].
Proof.
  destruct (approval_payload_reaches_modal
              (Sample.delivery Sample2.approval)
              {| Observer.store := Sample2.gate_store; Observer.hook := Sample.hook |}
              (Sample.progress [Sample.step "drive" completed; Sample2.gate] 50)
              1%nat Sample2.gate eq_refl eq_refl eq_refl eq_refl eq_refl eq_refl)
    as (p' & step' & _ & _ & _ & _ & H).
  exact (f_equal ApprovalModalState.approvalData H).
Defined.

(** *** Errors *)

Lemma updateClient_error (clientId : string) (u : PartialClient.t)
    (s : OnboardingState.t) :
  OnboardingState.error (Store.updateClient clientId u s) = OnboardingState.error s.
Proof.
  unfold Store.updateClient. simpl.
  destruct (OnboardingState.currentClient s) as [cur|]; [|reflexivity].
  destruct (bool_decide _); reflexivity.
Qed.

Lemma on_progress_error (f : OnboardingProgress.t -> OnboardingProgress.t)
    (s : OnboardingState.t) :
  OnboardingState.error (HomePage.on_progress f s) = OnboardingState.error s.
Proof.
  unfold HomePage.on_progress.
  destruct (OnboardingState.currentProgress s); reflexivity.
Qed.

(** The error field after a delivery. *)
Lemma deliver_error (d : HomePage.Delivery) (s : OnboardingState.t) :
  OnboardingState.error (HomePage.deliver d s)
  = if Spec.observing s
       && bool_decide (WebSocketMessage.type (HomePage.message d) = "error")
    then Some (default "An error occurred during onboarding"
                 (Data.message (WebSocketMessage.data (HomePage.message d))))
    else OnboardingState.error s.
Proof.
  unfold HomePage.deliver, HomePage.messageEffect, Spec.observing.
  destruct (OnboardingState.currentClient s) as [cur|]; [|reflexivity].
  destruct (bool_decide (Client.id cur = "")); simpl; [reflexivity|].
  destruct (bool_decide (_ = "step_update")) eqn:E1.
  { apply bool_decide_eq_true in E1. rewrite E1. simpl. apply on_progress_error. }
  destruct (bool_decide (_ = "approval_request")) eqn:E2.
  { apply bool_decide_eq_true in E2. rewrite E2. simpl. apply on_progress_error. }
  destruct (bool_decide (_ = "onboarding_complete")) eqn:E3.
  { apply bool_decide_eq_true in E3. rewrite E3. simpl.
    rewrite updateClient_error. simpl. apply on_progress_error. }
  destruct (bool_decide (_ = "error")); reflexivity.
Qed.

(** X10. No event clears an error: once the store holds one, it holds one
    after any sequence of deliveries (only a later [error] event replaces
    its text); completing the onboarding does not remove it either. *)
Theorem error_is_never_cleared (ds : list HomePage.Delivery)
    (s : OnboardingState.t) :
  is_Some (OnboardingState.error s) ->
  is_Some (OnboardingState.error (HomePage.process ds s)).
Proof.
  revert s. induction ds as [|d ds IH]; intros s Hs; [exact Hs|].
  rewrite process_cons. apply IH. rewrite deliver_error.
  destruct (_ && _); [eexists; reflexivity | exact Hs].
Qed.

Lemma error_is_never_cleared_witness :
  is_Some (OnboardingState.error
             (HomePage.process
                [Sample.delivery (Sample.message "onboarding_complete" "" "" 0)]
                Sample2.gate_store)).
Proof.
  apply (error_is_never_cleared
           [Sample.delivery (Sample.message "onboarding_complete" "" "" 0)]
           Sample2.gate_store).
  eexists. reflexivity.
Defined.

(** *** The client history *)

Lemma on_progress_clients (f : OnboardingProgress.t -> OnboardingProgress.t)
    (s : OnboardingState.t) :
  OnboardingState.clients (HomePage.on_progress f s) = OnboardingState.clients s.
Proof.
  unfold HomePage.on_progress.
  destruct (OnboardingState.currentProgress s); reflexivity.
Qed.

(** The history after a delivery: untouched, or completed for the current
    client. *)
Lemma deliver_clients (d : HomePage.Delivery) (s : OnboardingState.t) :
  OnboardingState.clients (HomePage.deliver d s) = OnboardingState.clients s
  \/ exists cur,
       OnboardingState.currentClient s = Some cur
       /\ OnboardingState.clients (HomePage.deliver d s)
          = Store.updateClient_list (Client.id cur)
              (HomePage.completion (HomePage.clock2 d)) (OnboardingState.clients s).
Proof.
  unfold HomePage.deliver, HomePage.messageEffect.
  destruct (OnboardingState.currentClient s) as [cur|] eqn:Hcur; [|left; reflexivity].
  destruct (bool_decide (Client.id cur = "")); simpl; [left; reflexivity|].
  destruct (bool_decide (_ = "step_update")).
  { left. apply on_progress_clients. }
  destruct (bool_decide (_ = "approval_request")).
  { left. apply on_progress_clients. }
  destruct (bool_decide (_ = "onboarding_complete")).
  { right. exists cur. split; [reflexivity|]. simpl.
    rewrite updateClient_clients. simpl. rewrite on_progress_clients. reflexivity. }
  destruct (bool_decide (_ = "error")); left; reflexivity.
Qed.

(** X11. The history entries of other clients are out of reach of the
    events: an entry whose id is not the current client's is the same
    record after any sequence of deliveries, and the history keeps its
    length. *)
Theorem other_clients_untouched (ds : list HomePage.Delivery)
    (s : OnboardingState.t) (i : nat) (c : Client.t) :
  OnboardingState.clients s !! i = Some c ->
  Client.id <$> OnboardingState.currentClient s ≠ Some (Client.id c) ->
  OnboardingState.clients (HomePage.process ds s) !! i = Some c
  /\ length (OnboardingState.clients (HomePage.process ds s))
     = length (OnboardingState.clients s).
Proof.
  revert s. induction ds as [|d ds IH]; intros s Hi Hne.
  - split; [exact Hi | reflexivity].
  - rewrite process_cons.
    assert (Hstep : OnboardingState.clients (HomePage.deliver d s) !! i = Some c
                    /\ length (OnboardingState.clients (HomePage.deliver d s))
                       = length (OnboardingState.clients s)).
    { destruct (deliver_clients d s) as [E|(cur & Hcur & E)]; rewrite E.
      - split; [exact Hi | reflexivity].
      - unfold Store.updateClient_list. change (map ?g ?l) with (g <$> l).
        rewrite list_lookup_fmap, Hi, length_fmap. simpl.
        rewrite Hcur in Hne. simpl in Hne.
        rewrite bool_decide_eq_false_2 by congruence. split; reflexivity. }
    destruct Hstep as [Hi1 Hl1].
    destruct (IH (HomePage.deliver d s) Hi1) as [Hi2 Hl2].
    { rewrite deliver_currentClient_id. exact Hne. }
    split; [exact Hi2 | congruence].
Qed.

Lemma other_clients_untouched_witness :
  OnboardingState.clients
    (HomePage.process
       [Sample.delivery (Sample.message "onboarding_complete" "" "" 0)]
       Sample2.gate_store) !! 0%nat
  = Some (Sample.client "c2" COMPLETED).
Proof.
  apply (other_clients_untouched
           [Sample.delivery (Sample.message "onboarding_complete" "" "" 0)]
           Sample2.gate_store 0%nat (Sample.client "c2" COMPLETED)).
  - reflexivity.
  - vm_compute. discriminate.
Defined.

(** *** The analytics over the history *)

Lemma filter_length_Forall2 {A} (P Q : A -> Prop)
    `{!forall x, Decision (P x)} `{!forall x, Decision (Q x)}
    (R : A -> A -> Prop) (l l' : list A) :
  (forall x y, R x y -> P x -> Q y) ->
  Forall2 R l l' ->
  (length (filter P l) <= length (filter Q l'))%nat.
Proof.
  intros HR HF. induction HF as [|x y l l' Hxy _ IH]; [reflexivity|].
  rewrite !filter_cons. destruct (decide (P x)) as [Hp|Hp].
  - rewrite (decide_True (P:=Q y)) by (eapply HR; eassumption). simpl. lia.
  - destruct (decide (Q y)); simpl; lia.
Qed.

(** After a delivery every history entry is the one it was or a
    completed one. *)
Lemma deliver_history (d : HomePage.Delivery) (s : OnboardingState.t) :
  Forall2 (fun c c' => c' = c \/ Client.status c' = COMPLETED)
          (OnboardingState.clients s)
          (OnboardingState.clients (HomePage.deliver d s)).
Proof.
  destruct (deliver_clients d s) as [E|(cur & Hcur & E)]; rewrite E.
  - apply Forall2_same_length_lookup. split; [reflexivity|].
    intros i x y Hx Hy. left. congruence.
  - unfold Store.updateClient_list. change (map ?g ?l) with (g <$> l).
    apply Forall2_fmap_r. apply Forall2_same_length_lookup. split; [reflexivity|].
    intros i x y Hx Hy. assert (x = y) as -> by congruence.
    simpl. destruct (bool_decide (Client.id y = Client.id cur));
      [right; reflexivity | left; reflexivity].
Qed.

Lemma deliver_counts (d : HomePage.Delivery) (s : OnboardingState.t) :
  let before := Analytics.counts (OnboardingState.clients s) in
  let after := Analytics.counts (OnboardingState.clients (HomePage.deliver d s)) in
  Analytics.totalClients after = Analytics.totalClients before
  /\ (Analytics.completed before <= Analytics.completed after)%nat
  /\ (Analytics.inProgress after <= Analytics.inProgress before)%nat
  /\ (Analytics.failed after <= Analytics.failed before)%nat.
Proof.
  pose proof (deliver_history d s) as H. simpl. split; [|split; [|split]].
  - symmetry. eapply Forall2_length. exact H.
  - unfold Analytics.completedClients.
    eapply filter_length_Forall2; [|exact H].
    intros x y [->|Hy] Hx; [exact Hx | exact Hy].
  - unfold Analytics.inProgressClients.
    eapply filter_length_Forall2; [|apply Forall2_flip; exact H].
    intros y x [->|Hy] Hx; [exact Hx | congruence].
  - unfold Analytics.failedClients.
    eapply filter_length_Forall2; [|apply Forall2_flip; exact H].
    intros y x [->|Hy] Hx; [exact Hx | congruence].
Qed.

(** X12. Along any sequence of events the counts of the analytics move one
    way only: the number of clients stays, the number of completed clients
    never falls, the numbers of clients in progress and of failed clients
    never rise. *)
Theorem analytics_counts_move_one_way (ds : list HomePage.Delivery)
    (s : OnboardingState.t) :
  let before := Analytics.counts (OnboardingState.clients s) in
  let after := Analytics.counts (OnboardingState.clients (HomePage.process ds s)) in
  Analytics.totalClients after = Analytics.totalClients before
  /\ (Analytics.completed before <= Analytics.completed after)%nat
  /\ (Analytics.inProgress after <= Analytics.inProgress before)%nat
  /\ (Analytics.failed after <= Analytics.failed before)%nat.
Proof.
  revert s. induction ds as [|d ds IH]; intros s.
  - simpl. repeat split; reflexivity.
  - rewrite process_cons.
    destruct (deliver_counts d s) as (H1 & H2 & H3 & H4).
    destruct (IH (HomePage.deliver d s)) as (I1 & I2 & I3 & I4).
    cbv zeta in *. repeat split; [congruence | lia | lia | lia].
Qed.

(** X13. The counts of the analytics partition the history: completed,
    in-progress, failed and pending clients add up to all clients. *)
Theorem analytics_counts_partition (clients : list Client.t) :
  let n := Analytics.counts clients in
  (Analytics.completed n + Analytics.inProgress n + Analytics.failed n
   + length (filter (fun c => Client.status c = PENDING) clients)
   = Analytics.totalClients n)%nat.
Proof.
  simpl. unfold Analytics.completedClients, Analytics.inProgressClients,
    Analytics.failedClients.
  induction clients as [|c cs IH]; [reflexivity|].
  rewrite !filter_cons. simpl.
  destruct (Client.status c); simpl;
    repeat (case_decide; try discriminate; try contradiction); simpl; lia.
Qed.

(** *** Starting a session *)

Lemma addClient_list_NoDup (client : Client.t) (cs : list Client.t) :
  NoDup (Client.id <$> cs) ->
  NoDup (Client.id <$> Store.addClient_list client cs)
  /\ client ∈ Store.addClient_list client cs.
Proof.
  intros Hnd.
  destruct (Store.findIndex (Store.same_id (Client.id client)) cs) as [i|] eqn:H.
  - rewrite (addClient_list_existing _ _ _ H). split; [exact Hnd|].
    unfold Store.addClient_list. rewrite H.
    destruct (findIndex_Some _ _ _ H) as (old & Hold & _).
    apply list_elem_of_lookup. exists i. apply list_lookup_insert_eq.
    eapply lookup_lt_Some. exact Hold.
  - unfold Store.addClient_list. rewrite H. split; [|left].
    rewrite fmap_cons. apply NoDup_cons. split; [|exact Hnd].
    intros Hin. apply list_elem_of_fmap in Hin as (c & Hc & Hcin).
    apply findIndex_None in H. rewrite Forall_forall in H.
    specialize (H c Hcin). unfold Store.same_id in H.
    apply bool_decide_eq_false in H. congruence.
Qed.

Lemma closeSocket_length (k : nat) (code : option Z) (h : Hook.t) :
  length (Hook.sockets (fst (useWebSocket.closeSocket k code h)))
  = length (Hook.sockets h).
Proof.
  unfold useWebSocket.closeSocket.
  destruct (useWebSocket.readyStateOf k h) as [[]|]; simpl;
    rewrite ?length_alter; reflexivity.
Qed.

(** What [connect] leaves in the hook. *)
Lemma connect_result (id : string) (constructed : bool) (h : Hook.t) :
  let r := useWebSocket.connect id constructed h in
  Hook.lastMessage (fst r) = Hook.lastMessage h
  /\ Hook.clientIdRef (fst r) = Some id
  /\ new_WebSocket (WS_BASE_URL +:+ "/ws/" +:+ id) ∈ snd r
  /\ (constructed = true ->
      Hook.socketRef (fst r) = Some (length (Hook.sockets h))
      /\ Hook.sockets (fst r) !! length (Hook.sockets h)
         = Some {| Socket.clientId := id; Socket.readyState := CONNECTING |})
  /\ (constructed = false ->
      Hook.socketRef (fst r) = Hook.socketRef h
      /\ length (Hook.sockets (fst r)) = length (Hook.sockets h)
      /\ Hook.isConnected (fst r) = false
      /\ console_error "Failed to create WebSocket connection:" ∈ snd r).
Proof.
  unfold useWebSocket.connect.
  set (pre := match Hook.socketRef h with
              | Some k => if bool_decide (useWebSocket.readyStateOf k h = Some OPEN)
                          then useWebSocket.closeSocket k None h else (h, [])
              | None => (h, [])
              end).
  assert (Hpre : Hook.lastMessage (fst pre) = Hook.lastMessage h
                 /\ Hook.socketRef (fst pre) = Hook.socketRef h
                 /\ length (Hook.sockets (fst pre)) = length (Hook.sockets h)).
  { subst pre. destruct (Hook.socketRef h) as [k|] eqn:Hk;
      [|repeat split; simpl; congruence].
    destruct (bool_decide _); [|repeat split; simpl; congruence].
    pose proof (closeSocket_refs k None h) as (_ & Hs & _ & Hm).
    pose proof (closeSocket_length k None h) as Hl.
    repeat split; congruence. }
  destruct pre as [h1 e1]. simpl in Hpre. destruct Hpre as (Hm & Hs & Hl).
  destruct constructed; simpl.
  - split; [exact Hm|]. split; [reflexivity|].
    split; [rewrite elem_of_app; right; left|]. split; [|discriminate].
    intros _. rewrite <- Hl. split; [reflexivity|].
    rewrite lookup_app_r by reflexivity. rewrite Nat.sub_diag. reflexivity.
  - split; [exact Hm|]. split; [reflexivity|].
    split; [rewrite elem_of_app; right; left|]. split; [discriminate|].
    intros _. split; [exact Hs|]. split; [exact Hl|]. split; [reflexivity|].
    rewrite elem_of_app. right. right. left.
Qed.

(** X14. When the start request resolves, the handler leaves in the store
    the session of the response (client, snapshot, orchestration view,
    modal closed, not loading) and the client in the history, whose ids
    stay distinct. It calls [connect] for the [client_id] of the response:
    the constructor is called with that client's URL and the hook keeps
    the id for reconnecting; when the constructor returns, the hook's
    socket is the new one, connecting, opened for that client, and when
    it throws the hook keeps the socket it had and logs the failure. In
    the render that follows, the session stays as the handler left it if
    the hook holds no message; a message it still holds from before is
    processed again, on the new session, when the id of the current
    client changed. *)
Theorem start_establishes_session (response : Response.t) (constructed : bool)
    (now1 now2 : string) (o : Observer.t) :
  NoDup (Client.id <$> OnboardingState.clients (Observer.store o)) ->
  let r := HomePage.handleStartOnboarding_resolved response constructed o in
  let o' := fst r in
  let s' := Observer.store o' in
  let h := Observer.hook o in
  let h' := Observer.hook o' in
  OnboardingState.currentClient s' = Some (Response.client response)
  /\ OnboardingState.currentProgress s' = Some (Response.progress response)
  /\ OnboardingState.isOnboardingActive s' = true
  /\ OnboardingState.currentView s' = orchestration
  /\ OnboardingState.showOnboardingModal s' = false
  /\ OnboardingState.isLoading s' = false
  /\ NoDup (Client.id <$> OnboardingState.clients s')
  /\ Response.client response ∈ OnboardingState.clients s'
  /\ new_WebSocket (WS_BASE_URL +:+ "/ws/" +:+ Response.client_id response) ∈ snd r
  /\ Hook.clientIdRef h' = Some (Response.client_id response)
  /\ (constructed = true ->
      Hook.socketRef h' = Some (length (Hook.sockets h))
      /\ Hook.sockets h' !! length (Hook.sockets h)
         = Some {| Socket.clientId := Response.client_id response;
                   Socket.readyState := CONNECTING |})
  /\ (constructed = false ->
      Hook.socketRef h' = Hook.socketRef h
      /\ length (Hook.sockets h') = length (Hook.sockets h)
      /\ Hook.isConnected h' = false
      /\ console_error "Failed to create WebSocket connection:" ∈ snd r)
  /\ (Hook.lastMessage h = None -> fst (Session.rerender now1 now2 o o') = o')
  /\ (forall m,
        Hook.lastMessage h = Some m ->
        Client.id <$> OnboardingState.currentClient (Observer.store o)
        ≠ Some (Client.id (Response.client response)) ->
        fst (Session.rerender now1 now2 o o')
        = {| Observer.store := fst (HomePage.messageEffect now1 now2 (Some m) s');
             Observer.hook := h' |}).
Proof.
  intros Hnd r o' s' h h'. subst h' s' o' r h.
  unfold Session.rerender, HomePage.handleStartOnboarding_resolved.
  destruct (addClient_list_NoDup (Response.client response) _ Hnd) as [Hnd' Hin].
  pose proof (connect_result (Response.client_id response) constructed
                (Observer.hook o)) as Hc. cbv zeta in Hc.
  destruct (useWebSocket.connect _ _ _) as [h' e]. simpl in *.
  destruct Hc as (Hm & Hid & Hnew & Hok & Hthrow).
  repeat (split; [first [reflexivity | assumption]|]).
  split.
  - intros Hnone. case_decide; [reflexivity|]. rewrite Hm, Hnone. simpl.
    reflexivity.
  - intros m Hsome Hne. case_decide; [contradiction|].
    rewrite Hm, Hsome.
    match goal with
    | |- (let '(s, e0) := ?p in _).1 = _ => destruct p as [s1 e1] eqn:E
    end.
    apply (f_equal fst) in E. simpl in E. subst s1. reflexivity.
Qed.

Lemma start_establishes_session_witness :
  let o' := fst (HomePage.handleStartOnboarding_resolved
                   Sample2.response true Sample.observer) in
  Client.id <$> OnboardingState.clients (Observer.store o') = ["c3"; "c2"; "c1"]
  /\ NoDup (Client.id <$> OnboardingState.clients (Observer.store o'))
  /\ Hook.socketRef (Observer.hook o') = Some 1%nat
  /\ Hook.sockets (Observer.hook o') !! 1%nat
     = Some {| Socket.clientId := "c3"; Socket.readyState := CONNECTING |}
  /\ fst (Session.rerender "t1" "t2" Sample.observer o') = o'.
Proof.
  intros o'.
  destruct (start_establishes_session Sample2.response true "t1" "t2"
              Sample.observer)
    as (_ & _ & _ & _ & _ & _ & Hnd & _ & _ & _ & Hsock & _ & Hkeep & _).
  - apply (bool_decide_unpack _). vm_compute. reflexivity.
  - destruct (Hsock eq_refl) as [Href Hnew].
    split; [reflexivity|]. split; [exact Hnd|]. split; [exact Href|].
    split; [exact Hnew|]. apply Hkeep. reflexivity.
Defined.

(** *** The two pages *)

Lemma local_step_update (m : WebSocketMessage.t) (prev : option OnboardingProgress.t) :
  LocalPage.step_update m prev = HomePage.on_step_update m <$> prev.
Proof. destruct prev; reflexivity. Qed.

Lemma local_approval_request (m : WebSocketMessage.t)
    (prev : option OnboardingProgress.t) :
  LocalPage.approval_request m prev = HomePage.on_approval_request m <$> prev.
Proof. destruct prev; reflexivity. Qed.

Lemma local_onboarding_complete (m : WebSocketMessage.t)
    (prev : option OnboardingProgress.t) :
  LocalPage.onboarding_complete m prev = HomePage.on_onboarding_complete m <$> prev.
Proof. destruct prev; reflexivity. Qed.

Lemma pages_agree_step (d : HomePage.Delivery) (st : LocalState.t)
    (s : OnboardingState.t) :
  Inv.pages_agree st s ->
  Inv.pages_agree (fst (LocalPage.messageEffect (Some (HomePage.message d)) st))
                  (HomePage.deliver d s).
Proof.
  intros (Hp & He & Ho). unfold Inv.pages_agree.
  rewrite deliver_currentProgress, deliver_error, deliver_observing.
  unfold LocalPage.messageEffect. rewrite Ho.
  destruct (Spec.observing s) eqn:Hobs; simpl.
  - unfold Spec.applied.
    destruct (bool_decide (_ = "step_update")) eqn:E1; simpl.
    { apply bool_decide_eq_true in E1. rewrite E1. simpl.
      rewrite local_step_update, Hp. repeat split; assumption. }
    destruct (bool_decide (_ = "approval_request")) eqn:E2; simpl.
    { apply bool_decide_eq_true in E2. rewrite E2. simpl.
      rewrite local_approval_request, Hp. repeat split; assumption. }
    destruct (bool_decide (_ = "onboarding_complete")) eqn:E3; simpl.
    { apply bool_decide_eq_true in E3. rewrite E3. simpl.
      rewrite local_onboarding_complete, Hp. repeat split; assumption. }
    destruct (bool_decide (_ = "error")); simpl.
    + rewrite Hp. destruct (OnboardingState.currentProgress s);
        repeat split; try reflexivity; try assumption.
      all: destruct (Data.message _); reflexivity.
    + rewrite Hp. destruct (OnboardingState.currentProgress s);
        repeat split; assumption.
  - rewrite Hp. destruct (OnboardingState.currentProgress s);
      repeat split; assumption.
Qed.

(** X15. The page over local state and the page over the store process
    events alike: if they show the same snapshot and error and observe
    alike, they still do after any sequence of events. *)
Theorem pages_process_alike (ds : list HomePage.Delivery) (st : LocalState.t)
    (s : OnboardingState.t) :
  Inv.pages_agree st s ->
  Inv.pages_agree (LocalPage.process (HomePage.message <$> ds) st)
                  (HomePage.process ds s).
Proof.
  revert st s. induction ds as [|d ds IH]; intros st s H; [exact H|].
  rewrite fmap_cons, process_cons. simpl. apply IH, pages_agree_step, H.
Qed.

Lemma pages_process_alike_witness :
  LocalState.progress
    (LocalPage.process
       [Sample.message "step_update" "a" completed 100] Sample2.local)
  = OnboardingState.currentProgress
      (HomePage.process
         [Sample.delivery (Sample.message "step_update" "a" completed 100)]
         (Sample.store (Some (Sample.progress [Sample.step "a" pending] 0)))).
Proof.
  apply (pages_process_alike
           [Sample.delivery (Sample.message "step_update" "a" completed 100)]
           Sample2.local
           (Sample.store (Some (Sample.progress [Sample.step "a" pending] 0)))).
  repeat split; reflexivity.
Defined.

(** ** The dashboard *)

(** X16. In the step list the circle's icon and its colour always tell the
    same story: check mark on green exactly for a completed step, alert on
    red exactly for a failed one, spinner or clock on the primary colour
    for the active step, the step number on gray otherwise. *)
Theorem step_icon_matches_colour (progress : OnboardingProgress.t) (index : nat)
    (step : OnboardingStep.t) :
  let icon := DashboardView.stepIcon progress index step in
  let colour := DashboardView.stepColor progress index step in
  (icon = ProgressStep.icon_Check <-> colour = "bg-green-500")
  /\ (icon = ProgressStep.icon_AlertCircle <-> colour = "bg-red-500")
  /\ (icon = ProgressStep.icon_Loader2 \/ icon = ProgressStep.icon_Clock
      <-> colour = "bg-primary")
  /\ (icon = ProgressStep.icon_number (index + 1) <-> colour = "bg-gray-300")
  /\ (colour = "bg-green-500" <-> OnboardingStep.status step = completed)
  /\ (colour = "bg-red-500" <-> OnboardingStep.status step = failed).
Proof.
  unfold DashboardView.stepIcon, DashboardView.stepColor,
    ProgressStep.getStepIcon, ProgressStep.getStepColor, DashboardView.isCompleted.
  destruct (DashboardView.isActive progress index);
    destruct (decide (OnboardingStep.status step = completed)) as [Hc|Hc];
    destruct (decide (OnboardingStep.status step = failed)) as [Hf|Hf];
    destruct (decide (OnboardingStep.status step = in_progress)) as [Hp|Hp];
    try (rewrite Hc in Hf; discriminate Hf);
    try (rewrite Hc in Hp; discriminate Hp);
    try (rewrite Hf in Hp; discriminate Hp);
    rewrite ?(bool_decide_eq_true_2 _ Hc), ?(bool_decide_eq_false_2 _ Hc),
            ?(bool_decide_eq_true_2 _ Hf), ?(bool_decide_eq_false_2 _ Hf),
            ?(bool_decide_eq_true_2 _ Hp), ?(bool_decide_eq_false_2 _ Hp);
    simpl;
    repeat split; intros H; try discriminate H; try reflexivity;
    try assumption; try contradiction;
    try (destruct H as [H|H]; discriminate H);
    try (left; reflexivity); try (right; reflexivity).
Qed.

(** X17. A step shows at most one status badge, and none exactly when its
    status is not one of the four declared ones (the status of a
    [step_update] is written unchecked). *)
Theorem one_badge_per_declared_status (step : OnboardingStep.t) :
  (length (ProgressStep.statusBadges step) <= 1)%nat
  /\ (ProgressStep.statusBadges step = []
      <-> ~ Inv.declared_status (OnboardingStep.status step)).
Proof.
  unfold ProgressStep.statusBadges, Inv.declared_status.
  destruct (decide (OnboardingStep.status step = pending)) as [H1|H1];
    destruct (decide (OnboardingStep.status step = in_progress)) as [H2|H2];
    destruct (decide (OnboardingStep.status step = completed)) as [H3|H3];
    destruct (decide (OnboardingStep.status step = failed)) as [H4|H4];
    try (rewrite H1 in H2; discriminate H2);
    try (rewrite H1 in H3; discriminate H3);
    try (rewrite H1 in H4; discriminate H4);
    try (rewrite H2 in H3; discriminate H3);
    try (rewrite H2 in H4; discriminate H4);
    try (rewrite H3 in H4; discriminate H4);
    rewrite ?(bool_decide_eq_true_2 _ H1), ?(bool_decide_eq_false_2 _ H1),
            ?(bool_decide_eq_true_2 _ H2), ?(bool_decide_eq_false_2 _ H2),
            ?(bool_decide_eq_true_2 _ H3), ?(bool_decide_eq_false_2 _ H3),
            ?(bool_decide_eq_true_2 _ H4), ?(bool_decide_eq_false_2 _ H4);
    simpl; (split; [lia|]); split; intros H; try discriminate H;
    try tauto.
Qed.

Lemma approvalButton_id (step : OnboardingStep.t) :
  StatusDashboard.approvalButton step = true ->
  OnboardingStep.id step = "human_approval".
Proof.
  unfold StatusDashboard.approvalButton. intros H.
  apply andb_true_iff in H as [H _]. apply bool_decide_eq_true in H. exact H.
Qed.

Lemma handleApproval_effects (stepId : string) (approved : bool) (text : string)
    (o : Observer.t) :
  Forall (fun e => exists clientId,
            e = api_request (approveStep clientId stepId approved (Some text))
            /\ clientId ≠ "")
         (HomePage.handleApproval stepId approved (Some text) o).
Proof.
  unfold HomePage.handleApproval.
  destruct (OnboardingState.currentClient (Observer.store o)) as [cur|];
    [|constructor].
  case_bool_decide; constructor; [|constructor].
  exists (Client.id cur). split; [reflexivity | assumption].
Qed.

Lemma ui_step_gate (o : Observer.t) (ev : DashboardView.UiEvent)
    (u : DashboardView.Ui) :
  (ApprovalModalState.isOpen (DashboardView.approvalModal u) = true ->
   ApprovalModalState.stepId (DashboardView.approvalModal u) = "human_approval") ->
  (ApprovalModalState.isOpen
     (DashboardView.approvalModal (fst (DashboardView.ui_step o ev u))) = true ->
   ApprovalModalState.stepId
     (DashboardView.approvalModal (fst (DashboardView.ui_step o ev u)))
   = "human_approval")
  /\ Forall Inv.approval_of_gate (snd (DashboardView.ui_step o ev u)).
Proof.
  intros Hu. destruct ev as [index|text|approved|]; simpl.
  - destruct (OnboardingState.currentProgress (Observer.store o)) as [p|];
      [|split; [exact Hu | constructor]].
    destruct (OnboardingProgress.steps p !! index) as [step|];
      [|split; [exact Hu | constructor]].
    destruct (StatusDashboard.approvalButton step) eqn:Hb;
      [|split; [exact Hu | constructor]].
    simpl. split; [|constructor]. intros _. apply approvalButton_id. exact Hb.
  - destruct (_ && _); simpl; split; first [exact Hu | constructor].
  - destruct (ApprovalModalState.isOpen (DashboardView.approvalModal u)) eqn:Hopen;
      simpl.
    + destruct (negb (DashboardView.isSubmitting u)); simpl.
      * split; [discriminate|]. rewrite (Hu eq_refl).
        eapply Forall_impl; [apply handleApproval_effects|].
        intros e (cid & -> & Hcid).
        exists cid, approved, (DashboardView.feedback u).
        split; [reflexivity | exact Hcid].
      * split; [intros _; apply Hu; reflexivity | constructor].
    + split; [intros Hx; rewrite Hopen in Hx; discriminate Hx | constructor].
  - destruct (ApprovalModalState.isOpen (DashboardView.approvalModal u)) eqn:Hopen;
      simpl.
    + split; [discriminate | constructor].
    + split; [intros Hx; rewrite Hopen in Hx; discriminate Hx | constructor].
Qed.

(** X18. Whatever the user does at the dashboard, and whatever snapshot it
    shows at the time, the only thing it ever sends is an approval
    decision for the step [human_approval], for a client with a non-empty
    id. *)
Theorem dashboard_decides_only_the_gate
    (evs : list (Observer.t * DashboardView.UiEvent)) :
  Forall Inv.approval_of_gate
         (snd (DashboardView.ui_run evs DashboardView.initialUi)).
Proof.
  assert (H : forall u,
             (ApprovalModalState.isOpen (DashboardView.approvalModal u) = true ->
              ApprovalModalState.stepId (DashboardView.approvalModal u)
              = "human_approval") ->
             Forall Inv.approval_of_gate (snd (DashboardView.ui_run evs u))).
  { induction evs as [|[o ev] evs IH]; intros u Hu; simpl; [constructor|].
    destruct (ui_step_gate o ev u Hu) as [Hu1 He1].
    destruct (DashboardView.ui_step o ev u) as [u1 e1]. simpl in *.
    specialize (IH u1 Hu1).
    destruct (DashboardView.ui_run evs u1) as [u2 e2]. simpl in *.
    apply Forall_app. split; assumption. }
  apply H. discriminate.
Qed.

(** X19. The client dashboard accounts for every client: the ten it lists
    and the number it announces as "more" add up to the history, and a
    client started with a fresh id is listed first. *)
Theorem dashboard_accounts_for_all (client : Client.t) (s : OnboardingState.t) :
  let cs := OnboardingState.clients s in
  (length (DashboardPage.listed cs) + default 0%nat (DashboardPage.more cs)
   = length cs)%nat
  /\ (DashboardPage.more cs = None <-> (length cs <= 10)%nat)
  /\ ((forall c, c ∈ cs -> Client.id c ≠ Client.id client) ->
      DashboardPage.listed (OnboardingState.clients (Store.addClient client s))
      !! 0%nat = Some client).
Proof.
  intros cs. subst cs. unfold DashboardPage.listed, DashboardPage.more.
  rewrite length_take. split; [|split].
  - generalize (length (OnboardingState.clients s)). intros n.
    destruct (decide (10 < n)%nat); cbv [default from_option id]; lia.
  - generalize (length (OnboardingState.clients s)). intros n.
    destruct (decide (10 < n)%nat); split; intros H;
      try discriminate H; try reflexivity; lia.
  - intros Hfresh. simpl. unfold Store.addClient_list.
    destruct (Store.findIndex _ _) as [i|] eqn:H; [|reflexivity].
    destruct (findIndex_Some _ _ _ H) as (old & Hold & Hid).
    apply same_id_true in Hid. exfalso. apply (Hfresh old); [|exact Hid].
    apply list_elem_of_lookup. eauto.
Qed.

Lemma dashboard_accounts_for_all_witness :
  DashboardPage.listed
    (OnboardingState.clients
       (Store.addClient (Sample.client "c9" PENDING) Sample2.gate_store))
  !! 0%nat = Some (Sample.client "c9" PENDING).
Proof.
  apply (dashboard_accounts_for_all (Sample.client "c9" PENDING) Sample2.gate_store).
  intros c Hc.
  repeat (apply elem_of_cons in Hc as [->|Hc]; [vm_compute; discriminate|]).
  apply not_elem_of_nil in Hc. contradiction.
Defined.

(** ** The intake form *)

(** X20. The form reports at most one issue per validated field, hence at
    most four: a name cannot be both too short and too long, and neither
    can a project scope. *)
Theorem at_most_one_issue_per_field (is_email : string -> bool)
    (data : ClientInput.t) :
  let issues := ClientForm.clientFormSchema is_email data in
  (length issues <= 4)%nat
  /\ ~ ("Name must be at least 2 characters" ∈ issues
        /\ "Name must be less than 100 characters" ∈ issues)
  /\ ~ ("Project scope must be at least 10 characters" ∈ issues
        /\ "Project scope must be less than 1000 characters" ∈ issues).
Proof.
  unfold ClientForm.clientFormSchema.
  destruct (Z.leb_spec 2 (ClientForm.len (ClientInput.name data)));
    destruct (Z.leb_spec (ClientForm.len (ClientInput.name data)) 100);
    try lia;
    destruct (Z.leb_spec 10 (ClientForm.len (ClientInput.project_scope data)));
    destruct (Z.leb_spec (ClientForm.len (ClientInput.project_scope data)) 1000);
    try lia;
    destruct (is_email (ClientInput.email data));
    destruct (ClientInput.additional_notes data) as [notes|];
    try destruct (ClientForm.len notes <=? 500);
    simpl; (split; [lia|]);
    split; intros [Hmin Hmax]; first [solve [absent Hmin] | solve [absent Hmax]].
Qed.

(** ** Requests and their failures *)

(** X21. A response that is not OK surfaces as an [Error] whose text is
    the [message] of its JSON body when that is a non-empty string, the
    text of that [message] when it is another truthy value, and
    "HTTP <status>: <statusText>", which is never empty, when the body is
    not JSON or has no truthy [message]. For the body [null] the handler
    throws on reading [message], and the text of that [TypeError]
    surfaces instead. Whichever text it is, that is what a failed start
    leaves in the store's error, with loading switched off. *)
Theorem failed_response_shows_error (r : Api.HttpResponse) (o : Observer.t) :
  Api.ok r = false ->
  let message := Api.errorMessage r in
  fst (Api.request (Api.fetch_resolves r)) = inl (Api.thrown_Error message)
  /\ (forall m, Api.body r = Api.body_json (Api.message_text m) -> m ≠ "" ->
        message = m)
  /\ (forall shown, Api.body r = Api.body_json (Api.message_other true shown) ->
        message = shown)
  /\ ((exists e, Api.body r = Api.body_invalid e)
      \/ Api.body r = Api.body_json Api.message_absent
      \/ Api.body r = Api.body_json (Api.message_text "")
      \/ (exists shown, Api.body r = Api.body_json (Api.message_other false shown)) ->
      message = "HTTP " +:+ pretty (Api.status r) +:+ ": " +:+ Api.statusText r
      /\ message ≠ "")
  /\ (forall e, Api.body r = Api.body_null e -> message = e)
  /\ let o' := fst (HomePage.handleStartOnboarding_rejected
                      (Api.handleApiError (Api.thrown_Error message)) o) in
     OnboardingState.error (Observer.store o') = Some message
     /\ OnboardingState.isLoading (Observer.store o') = false.
Proof.
  intros Hok message. subst message. unfold Api.request. rewrite Hok.
  split; [reflexivity|]. unfold Api.errorMessage, Api.httpText.
  split; [|split; [|split; [|split]]].
  - intros m Hb Hm. rewrite Hb. rewrite bool_decide_eq_false_2 by exact Hm.
    reflexivity.
  - intros shown Hb. rewrite Hb. reflexivity.
  - intros [[e Hb]|[Hb|[Hb|[shown Hb]]]]; rewrite Hb; simpl;
      (split; [reflexivity | discriminate]).
  - intros e Hb. rewrite Hb. reflexivity.
  - split; reflexivity.
Qed.

Lemma failed_response_shows_error_witness :
  OnboardingState.error
    (Observer.store
       (fst (HomePage.handleStartOnboarding_rejected
               (Api.handleApiError
                  (Api.thrown_Error (Api.errorMessage Sample2.not_found)))
               Sample.observer)))
  = Some "HTTP 404: Not Found".
Proof.
  pose proof (failed_response_shows_error Sample2.not_found Sample.observer eq_refl)
    as (_ & _ & _ & _ & _ & Herr & _).
  rewrite Herr. vm_compute. reflexivity.
Defined.

(** X22. Pressing "Approve & Continue" or "Reject" in the open modal of
    an observed client sends exactly one request: a POST to the approve
    endpoint of that client and of the step the modal was opened for,
    whose query is [approved] alone when the feedback box is empty, and
    [approved] then [feedback] otherwise. *)
Theorem decision_becomes_one_request (baseURL : string) (o : Observer.t)
    (u : DashboardView.Ui) (approved : bool) (cur : Client.t) :
  ApprovalModalState.isOpen (DashboardView.approvalModal u) = true ->
  DashboardView.isSubmitting u = false ->
  OnboardingState.currentClient (Observer.store o) = Some cur ->
  Client.id cur ≠ "" ->
  let stepId := ApprovalModalState.stepId (DashboardView.approvalModal u) in
  let text := DashboardView.feedback u in
  requests baseURL
    (snd (DashboardView.ui_step o (DashboardView.click_decision approved) u))
  = [{| Request.method := Some "POST";
        Request.url :=
          baseURL +:+ "/api/v1" +:+ "/onboarding/approve/" +:+ Client.id cur
                  +:+ "/" +:+ stepId;
        Request.query :=
          Some (("approved", if approved then "true" else "false")
                :: (if bool_decide (text = "") then [] else [("feedback", text)]));
        Request.headers := [("Content-Type", "application/json")];
        Request.body := None |}]
  /\ ApprovalModalState.isOpen
       (DashboardView.approvalModal
          (fst (DashboardView.ui_step o (DashboardView.click_decision approved) u)))
     = false
  /\ DashboardView.feedback
       (fst (DashboardView.ui_step o (DashboardView.click_decision approved) u))
     = "".
Proof.
  intros Hopen Hsub Hcur Hid stepId text. subst stepId text. simpl.
  rewrite Hopen, Hsub. simpl. unfold HomePage.handleApproval. rewrite Hcur.
  rewrite bool_decide_eq_false_2 by exact Hid. simpl.
  repeat split.
Qed.

Lemma decision_becomes_one_request_witness :
  let o := {| Observer.store :=
                HomePage.deliver (Sample.delivery Sample2.approval) Sample2.gate_store;
              Observer.hook := Sample.hook |} in
  let u := fst (DashboardView.ui_run
                  [(o, DashboardView.click_review 1);
                   (o, DashboardView.type_feedback "looks good")]
                  DashboardView.initialUi) in
  Request.query <$>
    requests Api.API_BASE_URL
      (snd (DashboardView.ui_step o (DashboardView.click_decision true) u))
  = [Some [("approved", "true"); ("feedback", "looks good")]].
Proof.
  intros o u.
  destruct (decision_becomes_one_request Api.API_BASE_URL o u true
              (Sample.client "c1" IN_PROGRESS)) as (H & _ & _).
  - reflexivity.
  - reflexivity.
  - reflexivity.
  - discriminate.
  - rewrite H. reflexivity.
Defined.

(** ** A whole session *)

Lemma updateClient_list_ids (clientId : string) (u : PartialClient.t)
    (cs : list Client.t) :
  PartialClient.id u = None ->
  Client.id <$> Store.updateClient_list clientId u cs = Client.id <$> cs.
Proof.
  intros Hu. unfold Store.updateClient_list. change (map ?g ?l) with (g <$> l).
  rewrite <- list_fmap_compose. apply list_fmap_ext. intros i c _. simpl.
  destruct (bool_decide _); [|reflexivity]. simpl. rewrite Hu. reflexivity.
Qed.

Lemma deliver_ids (d : HomePage.Delivery) (s : OnboardingState.t) :
  Client.id <$> OnboardingState.clients (HomePage.deliver d s)
  = Client.id <$> OnboardingState.clients s.
Proof.
  destruct (deliver_clients d s) as [E|(cur & _ & E)]; rewrite E; [reflexivity|].
  apply updateClient_list_ids. reflexivity.
Qed.

Lemma deliver_isConnected (d : HomePage.Delivery) (s : OnboardingState.t) :
  OnboardingState.isConnected (HomePage.deliver d s) = OnboardingState.isConnected s.
Proof.
  unfold HomePage.deliver, HomePage.messageEffect.
  destruct (OnboardingState.currentClient s) as [cur|]; [|reflexivity].
  destruct (bool_decide (Client.id cur = "")); simpl; [reflexivity|].
  repeat case_bool_decide; simpl;
    unfold HomePage.on_progress, Store.updateClient; simpl;
    destruct (OnboardingState.currentProgress s); simpl;
    rewrite ?bool_decide_eq_true_2 by reflexivity; reflexivity.
Qed.

Lemma act_invariants (a : Session.Action) (o : Observer.t) :
  NoDup (Client.id <$> OnboardingState.clients (Observer.store o)) ->
  OnboardingState.isConnected (Observer.store o) = false ->
  let o' := fst (Session.act a o) in
  NoDup (Client.id <$> OnboardingState.clients (Observer.store o'))
  /\ OnboardingState.isConnected (Observer.store o') = false.
Proof.
  intros Hnd Hc. destruct a; simpl.
  - split; [exact Hnd | reflexivity].
  - rewrite deliver_ids, deliver_isConnected. split; assumption.
  - unfold HomePage.hook_event.
    destruct (useWebSocket.step ev (Observer.hook o)) as [h e]. split; assumption.
  - split; assumption.
  - unfold HomePage.handleStartOnboarding_resolved.
    destruct (useWebSocket.connect _ _ _) as [h e]. simpl.
    split; [|exact Hc].
    apply (addClient_list_NoDup (Response.client response)). exact Hnd.
  - split; assumption.
  - split; assumption.
  - unfold HomePage.handleReset.
    destruct (useWebSocket.disconnect _) as [h e]. split; assumption.
  - unfold HomePage.handleRetry.
    destruct (OnboardingState.currentClient (Observer.store o)) as [cur|];
      [|split; assumption].
    destruct (bool_decide _); split; assumption.
  - unfold Session.handleRetry_resolved. destruct isConnected; simpl.
    + split; assumption.
    + destruct (useWebSocket.connect _ _ _) as [h e]. split; assumption.
  - split; assumption.
  - split; assumption.
  - split; assumption.
  - split; assumption.
  - split; assumption.
Qed.

(** X23. Throughout a session at the page over the store, whatever is
    started, delivered, retried, reset or clicked: the ids in the client
    history stay pairwise distinct, and the store's [isConnected] is never
    true, since nothing ever sets it to anything but [false] (so the page
    shows "Connection lost - retrying..." for as long as an onboarding is
    active). *)
Theorem session_invariants (acts : list Session.Action) :
  let s := Observer.store (Session.run acts Session.fresh) in
  NoDup (Client.id <$> OnboardingState.clients s)
  /\ OnboardingState.isConnected s = false.
Proof.
  assert (H : forall o,
             NoDup (Client.id <$> OnboardingState.clients (Observer.store o)) ->
             OnboardingState.isConnected (Observer.store o) = false ->
             let s := Observer.store (Session.run acts o) in
             NoDup (Client.id <$> OnboardingState.clients s)
             /\ OnboardingState.isConnected s = false).
  { induction acts as [|a acts IH]; intros o Hnd Hc.
    - split; assumption.
    - destruct (act_invariants a o Hnd Hc) as [Hnd1 Hc1].
      apply (IH _ Hnd1 Hc1). }
  apply H; [constructor | reflexivity].
Qed.
